(** * interactive-map: the DataTable widget and the mock users endpoint

    A shallow embedding of

    - [src/components/DataTable] (the second document of
      [src/app/server-table/page.tsx]): the server-side mode flags, the three
      filter predicates, the column/filter binder, the filter controls and
      the change handlers handed to the table library;
    - [src/app/api/users/route.ts]: [parseSearchParams], [filterUsers],
      [sortUsers], [GET] with its pagination slice, and [DELETE];
    - the server-side page (the first document of
      [src/app/server-table/page.tsx]): the query [fetchData] sends.

    JavaScript values are modelled in module [Js]; the table library
    (TanStack Table) and the host's locale/date parsing are not part of the
    repository and enter as section variables. *)

From Stdlib Require Import ZArith List String Ascii Bool Lia Permutation Sorted.
From Stdlib Require Import DecimalString OrderedTypeEx DecimalZ.
Import ListNotations.

Local Open Scope string_scope.
Local Open Scope Z_scope.
Local Open Scope list_scope.

(* ================================================================== *)
(** ** JavaScript values *)
(* ================================================================== *)

Module Js.

(** A JavaScript number: integers, or [NaN].  The row data of the
    repository (ids, ages, page numbers, time values in milliseconds) is
    integral, so the fractional part of IEEE doubles is not modelled. *)
Inductive number : Type :=
| NaN
| Num (z : Z).

(** The primitive values a cell of a JSON row can hold. *)
Inductive value : Type :=
| undefined
| null
| boolean (b : bool)
| num (n : number)
| str (s : string).

Definition isNaN (n : number) : bool :=
  match n with NaN => true | Num _ => false end.

(** [ToBoolean]. *)
Definition truthy (v : value) : bool :=
  match v with
  | undefined | null => false
  | boolean b => b
  | num NaN => false
  | num (Num z) => negb (z =? 0)
  | str s => negb (s =? EmptyString)%string
  end.

(** [typeof v === 'string'] and [typeof v === 'number']. *)
Definition isString (v : value) : bool :=
  match v with str _ => true | _ => false end.

Definition isNumber (v : value) : bool :=
  match v with num _ => true | _ => false end.

(** Numeric equality: [NaN] differs from everything, itself included. *)
Definition numEq (a b : number) : bool :=
  match a, b with
  | Num x, Num y => x =? y
  | _, _ => false
  end.

(** [a === b] on primitives: same type and same value, no coercion. *)
Definition strictEquals (a b : value) : bool :=
  match a, b with
  | undefined, undefined => true
  | null, null => true
  | boolean x, boolean y => Bool.eqb x y
  | num x, num y => numEq x y
  | str x, str y => (x =? y)%string
  | _, _ => false
  end.

(** [SameValueZero], the comparison of [Array.prototype.includes]: as
    [===] except that [NaN] equals [NaN]. *)
Definition sameValueZero (a b : value) : bool :=
  match a, b with
  | num NaN, num NaN => true
  | _, _ => strictEquals a b
  end.

(** [arr.includes(v)] for an array of strings. *)
Definition includes (arr : list string) (v : value) : bool :=
  existsb (fun s => sameValueZero (str s) v) arr.

(** Relational operators on numbers: any comparison with [NaN] is false. *)
Definition lt (a b : number) : bool :=
  match a, b with Num x, Num y => x <? y | _, _ => false end.

Definition gt (a b : number) : bool := lt b a.

Definition le (a b : number) : bool :=
  match a, b with Num x, Num y => x <=? y | _, _ => false end.

Definition ge (a b : number) : bool := le b a.

Definition add (a b : number) : number :=
  match a, b with Num x, Num y => Num (x + y) | _, _ => NaN end.

Definition sub (a b : number) : number :=
  match a, b with Num x, Num y => Num (x - y) | _, _ => NaN end.

Definition mul (a b : number) : number :=
  match a, b with Num x, Num y => Num (x * y) | _, _ => NaN end.

(** [TimeClip]: a time value beyond 8.64e15 ms is not a date. *)
Definition timeClip (t : number) : number :=
  match t with
  | NaN => NaN
  | Num z => if Z.abs z <=? 8640000000000000 then Num z else NaN
  end.

(** A [Date] object is its time value; [NaN] is the Invalid Date. *)
Definition Date : Type := number.

(** [new Date(v)] for a primitive [v]: a string goes through [Date.parse]
    (passed as [parse]), anything else through [ToNumber]; the result is
    clipped. *)
Definition newDate (parse : string -> number) (v : value) : Date :=
  match v with
  | undefined => NaN
  | null => Num 0
  | boolean b => Num (if b then 1 else 0)
  | num n => timeClip n
  | str s => timeClip (parse s)
  end.

(** [d.getTime()]. *)
Definition getTime (d : Date) : number := d.

(** [ToIntegerOrInfinity] and the relative index of
    [Array.prototype.slice]. *)
Definition toIntegerOrInfinity (n : number) : Z :=
  match n with NaN => 0 | Num z => z end.

Definition relativeIndex (len k : Z) : Z :=
  if k <? 0 then Z.max (len + k) 0 else Z.min k len.

(** [arr.slice(start, end)] *)
Definition slice {A : Type} (arr : list A) (start end_ : number) : list A :=
  let len := Z.of_nat (List.length arr) in
  let k := relativeIndex len (toIntegerOrInfinity start) in
  let final := relativeIndex len (toIntegerOrInfinity end_) in
  firstn (Z.to_nat (final - k)) (skipn (Z.to_nat k) arr).

(** [parseInt(s)] without a radix: leading white space (ASCII only here),
    an optional sign, an optional [0x] prefix, then the longest run of
    digits; [NaN] when there is none. *)
Definition isWhiteSpace (c : ascii) : bool :=
  let n := nat_of_ascii c in
  ((9 <=? n) && (n <=? 13))%nat || (n =? 32)%nat.

Fixpoint trimStart (l : list ascii) : list ascii :=
  match l with
  | c :: rest => if isWhiteSpace c then trimStart rest else l
  | [] => []
  end.

Definition digitValue (c : ascii) : option Z :=
  let n := Z.of_nat (nat_of_ascii c) in
  if (48 <=? n) && (n <=? 57) then Some (n - 48)
  else if (97 <=? n) && (n <=? 122) then Some (n - 87)
  else if (65 <=? n) && (n <=? 90) then Some (n - 55)
  else None.

Fixpoint digits (radix : Z) (l : list ascii) (acc : option Z) : option Z :=
  match l with
  | c :: rest =>
      match digitValue c with
      | Some d =>
          if d <? radix then
            digits radix rest
              (Some (match acc with Some a => a | None => 0 end * radix + d))
          else acc
      | None => acc
      end
  | [] => acc
  end.

Definition parseInt (s : string) : number :=
  let l := trimStart (list_ascii_of_string s) in
  let '(sign, l1) :=
    match l with
    | "-"%char :: rest => (-1, rest)
    | "+"%char :: rest => (1, rest)
    | _ => (1, l)
    end in
  let '(radix, l2) :=
    match l1 with
    | "0"%char :: "x"%char :: rest => (16, rest)
    | "0"%char :: "X"%char :: rest => (16, rest)
    | _ => (10, l1)
    end in
  match digits radix l2 None with
  | Some v => Num (sign * v)
  | None => NaN
  end.

(** [String(n)] and [n.toString()] for an integral number
    ([Number::toString]).

    A Number is a double.  Up to 2^53 every integer is one, and the string
    is its decimal spelling.  Beyond that a Number is an integer that
    [roundToDouble] leaves as it is, and the string holds the fewest
    significant digits that still round to it (the nearest such value),
    written out with zeros below 10^21 and in exponent notation from
    there on: [String(2 ** 60)] is ["1152921504606847000"] and
    [String(1e21)] is ["1e+21"]. *)
Definition decimal (z : Z) : string := NilZero.string_of_int (Z.to_int z).

(** The double nearest to a positive integer, ties to even (the range of
    the exponent is not modelled). *)
Definition roundToDouble (v : Z) : Z :=
  let e := Z.log2 v - 52 in
  if e <=? 0 then v
  else
    let q := Z.shiftr v e in
    let r := Z.land v (Z.ones e) in
    let half := Z.shiftl 1 (e - 1) in
    let up := (half <? r) || ((r =? half) && Z.odd q) in
    Z.shiftl (if up then q + 1 else q) e.

(** The value with the fewest significant digits that rounds to [v]:
    [drop] low digits are replaced by zeros, rounding down or up, then one
    digit fewer, and so on. *)
Fixpoint shortestFrom (v : Z) (drop : nat) : Z :=
  let p := 10 ^ Z.of_nat drop in
  let lo := v / p * p in
  let hi := lo + p in
  let '(near, far) :=
    if (v - lo <? hi - v) || ((v - lo =? hi - v) && Z.even (v / p))
    then (lo, hi) else (hi, lo) in
  if roundToDouble near =? v then near
  else if roundToDouble far =? v then far
  else match drop with
       | O => v
       | S fewer => shortestFrom v fewer
       end.

Definition shortest (v : Z) : Z :=
  shortestFrom v (String.length (decimal v) - 1).

Fixpoint dropTrailingZeros (s : string) : string :=
  match s with
  | EmptyString => EmptyString
  | String c rest =>
      match dropTrailingZeros rest with
      | EmptyString =>
          if Ascii.eqb c "0" then EmptyString else String c EmptyString
      | kept => String c kept
      end
  end.

(** Exponent notation: the first digit, the other significant digits
    after a point if there are any, then [e+] and the exponent. *)
Definition exponential (c : Z) : string :=
  let all := decimal c in
  let mantissa :=
    match dropTrailingZeros all with
    | String d EmptyString => String d EmptyString
    | String d more => String d ("." ++ more)
    | EmptyString => EmptyString
    end in
  let exponent := decimal (Z.of_nat (String.length all) - 1) in
  (mantissa ++ "e+" ++ exponent)%string.

Definition stringOfZ (z : Z) : string :=
  if Z.abs z <=? 9007199254740992 then decimal z
  else
    let c := shortest (Z.abs z) in
    let sign := if z <? 0 then "-" else EmptyString in
    let magnitude := if c <? 10 ^ 21 then decimal c else exponential c in
    (sign ++ magnitude)%string.

(** [o?.field] for a field that is always present, and for an optional
    field. *)
Definition chain {A B : Type} (o : option A) (field : A -> B) : option B :=
  match o with Some a => Some (field a) | None => None end.

Definition chainOpt {A B : Type} (o : option A) (field : A -> option B)
  : option B :=
  match o with Some a => field a | None => None end.

(** [x || y] where [x] is a boolean or [undefined]. *)
Definition or (x : option bool) (y : bool) : bool :=
  match x with Some true => true | _ => y end.

(** [x ?? y]. *)
Definition nullish {A : Type} (x : option A) (y : A) : A :=
  match x with Some a => a | None => y end.

(** [s.includes(sub)] on strings: [sub] occurs in [s] at some position. *)
Fixpoint startsWith (s sub : list ascii) : bool :=
  match sub, s with
  | [], _ => true
  | _ :: _, [] => false
  | c :: sub', d :: s' => Ascii.eqb c d && startsWith s' sub'
  end.

Fixpoint includesFrom (s sub : list ascii) : bool :=
  startsWith s sub
  || match s with
     | [] => false
     | _ :: s' => includesFrom s' sub
     end.

Definition stringIncludes (s sub : string) : bool :=
  includesFrom (list_ascii_of_string s) (list_ascii_of_string sub).

(** [s.split(sep)] for a separator of one character; the result is never
    empty. *)
Fixpoint split (sep : ascii) (s : string) : list string :=
  match s with
  | EmptyString => [EmptyString]
  | String c rest =>
      if Ascii.eqb c sep then EmptyString :: split sep rest
      else
        match split sep rest with
        | first :: others => String c first :: others
        | [] => [String c EmptyString]
        end
  end.

(** [arr.join(sep)] for an array of strings. *)
Fixpoint join (sep : string) (arr : list string) : string :=
  match arr with
  | [] => EmptyString
  | [s] => s
  | s :: rest => (s ++ sep ++ join sep rest)%string
  end.

(** [arr.findIndex(p)], [None] standing for -1, and [arr.splice(i, 1)]. *)
Fixpoint findIndex {A : Type} (p : A -> bool) (arr : list A) : option nat :=
  match arr with
  | [] => None
  | x :: rest =>
      if p x then Some 0%nat
      else match findIndex p rest with
           | Some i => Some (S i)
           | None => None
           end
  end.

Fixpoint removeAt {A : Type} (i : nat) (arr : list A) : list A :=
  match i, arr with
  | _, [] => []
  | O, _ :: rest => rest
  | S j, x :: rest => x :: removeAt j rest
  end.

End Js.

Infix "??" := Js.nullish (at level 45, left associativity).

(* ================================================================== *)
(** ** The DataTable component *)
(* ================================================================== *)

Module DataTable.

(** *** Rows and table state (the table library's types) *)

(** A row of application data: named fields holding primitives. *)
Definition Row : Type := list (string * Js.value).

(** [row.getValue(columnId)]; a field the row lacks reads [undefined]. *)
Fixpoint getValue (row : Row) (columnId : string) : Js.value :=
  match row with
  | [] => Js.undefined
  | (k, v) :: rest => if (k =? columnId)%string then v else getValue rest columnId
  end.

(** [{ from?: Date; to?: Date }] *)
Record DateRangeValue : Type := { from : option Js.Date; to : option Js.Date }.

(** The value a column filter carries; an absent value is [None] at the
    use site. *)
Inductive FilterValue : Type :=
| TextValue (s : string)
| ListValue (l : list string)
| RangeValue (r : DateRangeValue).

Record ColumnSort : Type := { sort_id : string; sort_desc : bool }.
Definition SortingState : Type := list ColumnSort.

Record ColumnFilter : Type := { filter_id : string; filter_value : FilterValue }.
Definition ColumnFiltersState : Type := list ColumnFilter.

Definition VisibilityState : Type := list (string * bool).
Definition RowSelectionState : Type := list (string * bool).

Record PaginationState : Type := { pageIndex : Z; pageSize : Z }.

(** [Updater<T>]: a new value, or a function of the old one. *)
Inductive Updater (T : Type) : Type :=
| Value (v : T)
| Function (f : T -> T).
Arguments Value {T} v.
Arguments Function {T} f.

(** [typeof updater === 'function' ? updater(old) : updater] *)
Definition functionalUpdate {T : Type} (updater : Updater T) (old : T) : T :=
  match updater with
  | Value v => v
  | Function f => f old
  end.

(** How a call of an external callback ends. *)
Inductive completion : Type :=
| Normal
| Throws (error : string).

(** *** Props *)

Inductive FilterType : Type := text | select | multiSelect | dateRange | number.

Definition FilterType_eqb (a b : FilterType) : bool :=
  match a, b with
  | text, text | select, select | multiSelect, multiSelect
  | dateRange, dateRange | number, number => true
  | _, _ => false
  end.

Record FilterConfig : Type := {
  columnId : string;
  type : FilterType;
  placeholder : option string;
  options : option (list (string * string));
  label : option string
}.

Module ServerSideConfig.
Record t : Type := {
  enabled : bool;
  pageCount : Z;
  loading : option bool;
  onPaginationChange : option (PaginationState -> completion);
  onSortingChange : option (SortingState -> completion);
  onColumnFiltersChange : option (ColumnFiltersState -> completion);
  manualPagination : option bool;
  manualSorting : option bool;
  manualFiltering : option bool
}.
End ServerSideConfig.

(** The predicates a column can carry.  The first three are the closures
    the component defines; [CallerFilter] stands for whatever the caller's
    own column definition already had. *)
Inductive FilterFn : Type :=
| ExactMatchFilter
| MultiSelectFilter
| DateRangeFilter
| CallerFilter (name : string).

Inductive AccessorKey : Type :=
| KeyString (s : string)
| KeyNumber (n : Z).

Module ColumnDef.
Record t : Type := {
  id : option string;
  accessorKey : option AccessorKey;
  header : option string;
  filterFn : option FilterFn
}.
(** [{ ...column, filterFn: fn }] *)
Definition withFilterFn (column : t) (fn : FilterFn) : t :=
  {| id := id column; accessorKey := accessorKey column;
     header := header column; filterFn := Some fn |}.
End ColumnDef.

Record Props : Type := {
  columns : list ColumnDef.t;
  data : list Row;
  filters : list FilterConfig;
  enableRowSelection : bool;
  enableColumnVisibility : bool;
  enablePagination : bool;
  serverSide : option ServerSideConfig.t
}.

(** *** Server-side configuration (DataTable, lines 497-501) *)

Definition isServerSide (serverSide : option ServerSideConfig.t) : bool :=
  Js.or (Js.chain serverSide ServerSideConfig.enabled) false.

Definition manualPagination (serverSide : option ServerSideConfig.t) : bool :=
  Js.chainOpt serverSide ServerSideConfig.manualPagination
    ?? isServerSide serverSide.

Definition manualSorting (serverSide : option ServerSideConfig.t) : bool :=
  Js.chainOpt serverSide ServerSideConfig.manualSorting
    ?? isServerSide serverSide.

Definition manualFiltering (serverSide : option ServerSideConfig.t) : bool :=
  Js.chainOpt serverSide ServerSideConfig.manualFiltering
    ?? isServerSide serverSide.

(** *** The filter predicates (lines 503-533) *)

Definition exactMatchFilter (row : Row) (columnId : string) (value : string)
  : bool :=
  Js.strictEquals (getValue row columnId) (Js.str value).

Definition multiSelectFilter (row : Row) (columnId : string)
  (value : option (list string)) : bool :=
  match value with
  | None => true
  | Some selected =>
      if (Z.of_nat (List.length selected) =? 0) then true
      else
        let cellValue := getValue row columnId in
        Js.includes selected cellValue
  end.

Section DateRange.

(** [Date.parse] of the host; its result on strings outside the ISO
    format is implementation-defined, so it stays a parameter. *)
Variable Date_parse : string -> Js.number.

Definition dateRangeFilter (row : Row) (columnId : string)
  (value : option DateRangeValue) : bool :=
  match value with
  | None => true
  | Some range =>
      match from range, to range with
      | None, None => true
      | _, _ =>
          let cellValue := getValue row columnId in
          if negb (Js.truthy cellValue) then false
          else
            let cellDate := Js.newDate Date_parse cellValue in
            if Js.isNaN (Js.getTime cellDate) then false
            else if match from range with
                    | Some f => Js.lt cellDate f
                    | None => false
                    end then false
            else if match to range with
                    | Some t => Js.gt cellDate t
                    | None => false
                    end then false
            else true
      end
  end.

End DateRange.

(** The argument type each bound predicate is declared with, and the
    predicate a tag denotes (the [filterFns] table, lines 623-627). *)
Definition FilterArg (fn : FilterFn) : Type :=
  match fn with
  | ExactMatchFilter => string
  | MultiSelectFilter => option (list string)
  | DateRangeFilter => option DateRangeValue
  | CallerFilter _ => Empty_set
  end.

Definition filterFns (Date_parse : string -> Js.number) (fn : FilterFn)
  : Row -> string -> FilterArg fn -> bool :=
  match fn with
  | ExactMatchFilter => exactMatchFilter
  | MultiSelectFilter => multiSelectFilter
  | DateRangeFilter => dateRangeFilter Date_parse
  | CallerFilter _ => fun _ _ (v : Empty_set) => match v with end
  end.

(** *** Binding predicates to columns: [processedColumns] (lines 535-589) *)

(** [new Set(ids).has(x)] *)
Definition has (ids : list string) (x : string) : bool :=
  existsb (String.eqb x) ids.

(** [filters.filter((filter) => filter.type === ty).map((filter) =>
    filter.columnId)] *)
Definition filterColumnIds (filters : list FilterConfig) (ty : FilterType)
  : list string :=
  map columnId (filter (fun f => FilterType_eqb (type f) ty) filters).

Definition String_ (key : AccessorKey) : string :=
  match key with
  | KeyString s => s
  | KeyNumber n => Js.stringOfZ n
  end.

Definition normalizedId (column : ColumnDef.t) : option string :=
  match ColumnDef.id column with
  | Some i => Some i
  | None =>
      match ColumnDef.accessorKey column with
      | Some key => Some (String_ key)
      | None => None
      end
  end.

(** [normalizedId && ids.has(normalizedId)]: an absent or empty
    identifier is falsy. *)
Definition idIn (nid : option string) (ids : list string) : bool :=
  match nid with
  | Some i => negb (i =? EmptyString)%string && has ids i
  | None => false
  end.

Definition processColumn
  (selectFilterColumnIds multiSelectFilterColumnIds
     dateRangeFilterColumnIds : list string)
  (column : ColumnDef.t) : ColumnDef.t :=
  let nid := normalizedId column in
  if idIn nid selectFilterColumnIds then
    ColumnDef.withFilterFn column ExactMatchFilter
  else if idIn nid multiSelectFilterColumnIds then
    ColumnDef.withFilterFn column MultiSelectFilter
  else if idIn nid dateRangeFilterColumnIds then
    ColumnDef.withFilterFn column DateRangeFilter
  else column.

Definition processedColumns (columns : list ColumnDef.t)
  (filters : list FilterConfig) : list ColumnDef.t :=
  let selectFilterColumnIds := filterColumnIds filters select in
  let multiSelectFilterColumnIds := filterColumnIds filters multiSelect in
  let dateRangeFilterColumnIds := filterColumnIds filters dateRange in
  map (processColumn selectFilterColumnIds multiSelectFilterColumnIds
         dateRangeFilterColumnIds) columns.

(** *** The table library *)

(** What the component takes from the table library: column lookup by
    identifier and the three row models. *)
Record TableLibrary : Type := {
  getColumn : list ColumnDef.t -> string -> option ColumnDef.t;
  getFilteredRowModel :
    list ColumnDef.t -> ColumnFiltersState -> list Row -> list Row;
  getSortedRowModel :
    list ColumnDef.t -> SortingState -> list Row -> list Row;
  getPaginationRowModel : PaginationState -> list Row -> list Row
}.

(** *** Component state and the change handlers (lines 488-495, 600-622) *)

Record TableState : Type := {
  sorting : SortingState;
  columnFilters : ColumnFiltersState;
  columnVisibility : VisibilityState;
  rowSelection : RowSelectionState;
  pagination : PaginationState
}.

Definition initialState : TableState :=
  {| sorting := []; columnFilters := []; columnVisibility := [];
     rowSelection := [];
     pagination := {| pageIndex := 0; pageSize := 10 |} |}.

(** A call of one of the [serverSide] callbacks, with its argument. *)
Inductive Call : Type :=
| SortingChanged (next : SortingState)
| ColumnFiltersChanged (next : ColumnFiltersState)
| PaginationChanged (next : PaginationState).

(** The component state together with the calls made so far. *)
Record World : Type := { state : TableState; calls : list Call }.

(** A handler runs on a world and either returns or throws. *)
Definition Handler : Type := World -> World * completion.

Definition done : Handler := fun w => (w, Normal).

Definition seq (h k : Handler) : Handler :=
  fun w =>
    match h w with
    | (w', Normal) => k w'
    | (w', Throws e) => (w', Throws e)
    end.

Notation "h ;; k" := (seq h k) (at level 61, right associativity).

Definition modify (f : TableState -> TableState) : Handler :=
  fun w => ({| state := f (state w); calls := calls w |}, Normal).

(** Calling an external callback: the call is recorded and its completion
    becomes the handler's. *)
Definition invoke (c : Call) (outcome : completion) : Handler :=
  fun w => ({| state := state w; calls := calls w ++ [c] |}, outcome).

Definition setSoring (updater : Updater SortingState) : Handler :=
  modify (fun s =>
    {| sorting := functionalUpdate updater (sorting s);
       columnFilters := columnFilters s;
       columnVisibility := columnVisibility s;
       rowSelection := rowSelection s;
       pagination := pagination s |}).

Definition setColumnFilters (updater : Updater ColumnFiltersState) : Handler :=
  modify (fun s =>
    {| sorting := sorting s;
       columnFilters := functionalUpdate updater (columnFilters s);
       columnVisibility := columnVisibility s;
       rowSelection := rowSelection s;
       pagination := pagination s |}).

Definition setColumnVisibility (updater : Updater VisibilityState) : Handler :=
  modify (fun s =>
    {| sorting := sorting s;
       columnFilters := columnFilters s;
       columnVisibility := functionalUpdate updater (columnVisibility s);
       rowSelection := rowSelection s;
       pagination := pagination s |}).

Definition setRowSelection (updater : Updater RowSelectionState) : Handler :=
  modify (fun s =>
    {| sorting := sorting s;
       columnFilters := columnFilters s;
       columnVisibility := columnVisibility s;
       rowSelection := functionalUpdate updater (rowSelection s);
       pagination := pagination s |}).

Definition setPagination (updater : Updater PaginationState) : Handler :=
  modify (fun s =>
    {| sorting := sorting s;
       columnFilters := columnFilters s;
       columnVisibility := columnVisibility s;
       rowSelection := rowSelection s;
       pagination := functionalUpdate updater (pagination s) |}).

(** The handlers close over the state of the render that created them
    ([sorting], [columnFilters], [pagination]); that is the state of the
    world they start from. *)
Definition onSortingChange (serverSide : option ServerSideConfig.t)
  (updater : Updater SortingState) : Handler :=
  fun w =>
    let sorting := sorting (state w) in
    (setSoring updater ;;
     match Js.chainOpt serverSide ServerSideConfig.onSortingChange with
     | Some callback =>
         let newSorting := functionalUpdate updater sorting in
         invoke (SortingChanged newSorting) (callback newSorting)
     | None => done
     end) w.

Definition onColumnVisibilityChange : Updater VisibilityState -> Handler :=
  setColumnVisibility.

Definition onColumnFiltersChange (serverSide : option ServerSideConfig.t)
  (updater : Updater ColumnFiltersState) : Handler :=
  fun w =>
    let columnFilters := columnFilters (state w) in
    (setColumnFilters updater ;;
     match Js.chainOpt serverSide ServerSideConfig.onColumnFiltersChange with
     | Some callback =>
         let newFilters := functionalUpdate updater columnFilters in
         invoke (ColumnFiltersChanged newFilters) (callback newFilters)
     | None => done
     end) w.

Definition onPaginationChange (serverSide : option ServerSideConfig.t)
  (updater : Updater PaginationState) : Handler :=
  fun w =>
    let pagination := pagination (state w) in
    (setPagination updater ;;
     match Js.chainOpt serverSide ServerSideConfig.onPaginationChange with
     | Some callback =>
         let newPagination := functionalUpdate updater pagination in
         invoke (PaginationChanged newPagination) (callback newPagination)
     | None => done
     end) w.

(** [enableRowSelection ? setRowSelection : undefined] *)
Definition onRowSelectionChange (enableRowSelection : bool)
  : option (Updater RowSelectionState -> Handler) :=
  if enableRowSelection then Some setRowSelection else None.

(** *** The row models handed to the table (lines 591-599)

    A row model that is switched off leaves the rows as they come. *)
Definition filteredRows (lib : TableLibrary) (props : Props)
  (s : TableState) : list Row :=
  if negb (manualFiltering (serverSide props)) then
    getFilteredRowModel lib (processedColumns (columns props) (filters props))
      (columnFilters s) (data props)
  else data props.

Definition sortedRows (lib : TableLibrary) (props : Props)
  (s : TableState) : list Row :=
  if negb (manualSorting (serverSide props)) then
    getSortedRowModel lib (processedColumns (columns props) (filters props))
      (sorting s) (filteredRows lib props s)
  else filteredRows lib props s.

Definition getRowModel (lib : TableLibrary) (props : Props)
  (s : TableState) : list Row :=
  if enablePagination props && negb (manualPagination (serverSide props)) then
    getPaginationRowModel lib (pagination s) (sortedRows lib props s)
  else sortedRows lib props s.

(** *** Filter controls: [renderFilter] (lines 642-827) *)

Inductive Control : Type :=
| TextInput (key : string)
| SelectBox (key : string) (items : list (string * string))
| NumberInput (key : string)
| MultiSelectMenu (key : string) (items : list (string * string))
| DateRangePicker (key : string).

Definition renderFilter (lib : TableLibrary) (props : Props)
  (filter : FilterConfig) : option Control :=
  let column :=
    getColumn lib (processedColumns (columns props) (filters props))
      (columnId filter) in
  match column with
  | None => None
  | Some _ =>
      match type filter with
      | text => Some (TextInput (columnId filter))
      | select =>
          Some (SelectBox (columnId filter)
                  (match options filter with Some o => o | None => [] end))
      | number => Some (NumberInput (columnId filter))
      | multiSelect =>
          Some (MultiSelectMenu (columnId filter)
                  (match options filter with Some o => o | None => [] end))
      | dateRange => Some (DateRangePicker (columnId filter))
      end
  end.

(** The value each control passes to [column.setFilterValue]; [None] is
    [undefined].  Text and number inputs pass [event.target.value]. *)
Definition textOnChange (targetValue : string) : option FilterValue :=
  Some (TextValue targetValue).

Definition numberOnChange (targetValue : string) : option FilterValue :=
  Some (TextValue targetValue).

Definition selectOnValueChange (value : string) : option FilterValue :=
  if (value =? "all")%string then None else Some (TextValue value).

(** [(column.getFilterValue() as string[]) || []], the selection the
    multi-select menu is drawn with: the stored array (an array is truthy
    even when empty), or the empty one when nothing is stored. *)
Definition currentFilterValue (stored : option (list string)) : list string :=
  match stored with
  | Some values => values
  | None => []
  end.

Definition multiSelectOnCheckedChange (currentFilterValue : list string)
  (optionValue : string) (checked : bool) : option FilterValue :=
  if checked then Some (ListValue (currentFilterValue ++ [optionValue]))
  else
    let newValue :=
      filter (fun v => negb (v =? optionValue)%string) currentFilterValue in
    if (Z.of_nat (List.length newValue) >? 0) then Some (ListValue newValue)
    else None.

(** *** The table body and the footer (lines 951-1018, 1025-1036) *)

(** [serverSide?.loading] as a condition. *)
Definition isLoading (serverSide : option ServerSideConfig.t) : bool :=
  match Js.chainOpt serverSide ServerSideConfig.loading with
  | Some true => true
  | _ => false
  end.

Inductive Body : Type :=
| Skeleton (count : nat)
| DataRows (rows : list Row)
| NoResults.

(** [Array.from({ length: pageSize })] has no element when the length is
    negative. *)
Definition tableBody (lib : TableLibrary) (props : Props) (s : TableState)
  : Body :=
  if isLoading (serverSide props) then
    Skeleton (Z.to_nat (pageSize (pagination s)))
  else
    match getRowModel lib props s with
    | [] => NoResults
    | rows => DataRows rows
    end.



End DataTable.

(* ================================================================== *)
(** ** The mock users endpoint ([src/app/api/users/route.ts]) *)
(* ================================================================== *)

Module UsersApi.

Record User : Type := {
  id : Z;
  name : string;
  email : string;
  role : string;
  status : string;
  createdAt : string;
  age : Z
}.

(** [(user as any)[key]]: a key that names no field reads [undefined]. *)
Definition prop (user : User) (key : string) : Js.value :=
  if (key =? "id")%string then Js.num (Js.Num (id user))
  else if (key =? "name")%string then Js.str (name user)
  else if (key =? "email")%string then Js.str (email user)
  else if (key =? "role")%string then Js.str (role user)
  else if (key =? "status")%string then Js.str (status user)
  else if (key =? "createdAt")%string then Js.str (createdAt user)
  else if (key =? "age")%string then Js.num (Js.Num (age user))
  else Js.undefined.

Record SearchParams : Type := {
  page : option string;
  pageSize : option string;
  sortBy : option string;
  sortOrder : option string;
  search : option string;
  status_ : option string;
  role_ : option string;
  roles : option string;
  startDate : option string;
  endDate : option string;
  minAge : option string;
  maxAge : option string
}.

(** Truthiness of an optional string parameter. *)
Definition given (p : option string) : bool :=
  match p with
  | Some s => negb (s =? EmptyString)%string
  | None => false
  end.

(** [p || d] *)
Definition orElse (p : option string) (d : string) : string :=
  match p with
  | Some s => if (s =? EmptyString)%string then d else s
  | None => d
  end.

(** *** [filterUsers], the age range stage (lines 86-93) *)

Definition minAgeOf (params : SearchParams) : Js.number :=
  match minAge params with
  | Some s => if (s =? EmptyString)%string then Js.Num 0 else Js.parseInt s
  | None => Js.Num 0
  end.

Definition maxAgeOf (params : SearchParams) : Js.number :=
  match maxAge params with
  | Some s => if (s =? EmptyString)%string then Js.Num 999 else Js.parseInt s
  | None => Js.Num 999
  end.

Definition ageInRange (params : SearchParams) (user : User) : bool :=
  let minAge := minAgeOf params in
  let maxAge := maxAgeOf params in
  Js.ge (Js.Num (age user)) minAge && Js.le (Js.Num (age user)) maxAge.

Definition filterByAge (filtered : list User) (params : SearchParams)
  : list User :=
  if given (minAge params) || given (maxAge params) then
    filter (ageInRange params) filtered
  else filtered.

(** *** [sortUsers] (lines 98-123) *)

(** [arr.sort(comparefn)]: the sort is stable and a comparator result of
    [NaN] counts as [+0].  For a consistent comparator the result does not
    depend on the algorithm; insertion from the right is used here. *)
Section ArraySort.

Context {A : Type}.
Variable comparefn : A -> A -> Js.number.

Definition sortCompare (x y : A) : Z :=
  match comparefn x y with
  | Js.NaN => 0
  | Js.Num v => v
  end.

Fixpoint insert (x : A) (sorted : list A) : list A :=
  match sorted with
  | [] => [x]
  | y :: rest =>
      if sortCompare x y <=? 0 then x :: sorted else y :: insert x rest
  end.

Fixpoint sort (arr : list A) : list A :=
  match arr with
  | [] => []
  | x :: rest => insert x (sort rest)
  end.

(** [x] may come before [y]; [x] and [y] compare equal. *)
Definition notAfter (x y : A) : Prop := sortCompare x y <= 0.
Definition tied (x y : A) : bool := sortCompare x y =? 0.

End ArraySort.

Section SortUsers.

(** [String.prototype.localeCompare] and [Date.parse] of the host. *)
Variable localeCompare : string -> string -> Z.
Variable Date_parse : string -> Js.number.

(** [String(v)] *)
Definition String_ (v : Js.value) : string :=
  match v with
  | Js.undefined => "undefined"
  | Js.null => "null"
  | Js.boolean true => "true"
  | Js.boolean false => "false"
  | Js.num Js.NaN => "NaN"
  | Js.num (Js.Num z) => Js.stringOfZ z
  | Js.str s => s
  end.

(** The comparator of [sortUsers] on the two values read from the rows. *)
Definition compareValues (sortBy : string) (aVal bVal : Js.value)
  : Js.number :=
  if Js.isString aVal && Js.isString bVal then
    Js.Num (localeCompare (String_ aVal) (String_ bVal))
  else if Js.isNumber aVal && Js.isNumber bVal then
    match aVal, bVal with
    | Js.num a, Js.num b => Js.sub a b
    | _, _ => Js.NaN
    end
  else if (sortBy =? "createdAt")%string then
    Js.sub (Js.getTime (Js.newDate Date_parse aVal))
           (Js.getTime (Js.newDate Date_parse bVal))
  else Js.Num (localeCompare (String_ aVal) (String_ bVal)).

Definition compareUsers (sortBy : string) (a b : User) : Js.number :=
  let aVal := prop a sortBy in
  let bVal := prop b sortBy in
  compareValues sortBy aVal bVal.

Definition sortUsers (users : list User) (sortBy sortOrder : option string)
  : list User :=
  match sortBy with
  | None => users
  | Some key =>
      if (key =? EmptyString)%string then users
      else
        let sorted := sort (compareUsers key) users in
        match sortOrder with
        | Some order => if (order =? "desc")%string then rev sorted else sorted
        | None => sorted
        end
  end.

End SortUsers.

(** *** [GET], the pagination slice (lines 133-148) *)

Definition pageOf (filteredUsers : list User) (page pageSize : Js.number)
  : list User :=
  let startIndex := Js.mul page pageSize in
  let endIndex := Js.add startIndex pageSize in
  Js.slice filteredUsers startIndex endIndex.


(** *** [parseSearchParams] (lines 31-43)

    The typed view of the parsed object: a key outside the interface is
    stored on the object but read by nothing except the echo of the
    response. *)
Definition noSearchParams : SearchParams :=
  {| page := None; pageSize := None; sortBy := None; sortOrder := None;
     search := None; status_ := None; role_ := None; roles := None;
     startDate := None; endDate := None; minAge := None; maxAge := None |}.

(** [params[key]] *)
Definition paramOf (params : SearchParams) (key : string) : option string :=
  if (key =? "page")%string then page params
  else if (key =? "pageSize")%string then pageSize params
  else if (key =? "sortBy")%string then sortBy params
  else if (key =? "sortOrder")%string then sortOrder params
  else if (key =? "search")%string then search params
  else if (key =? "status")%string then status_ params
  else if (key =? "role")%string then role_ params
  else if (key =? "roles")%string then roles params
  else if (key =? "startDate")%string then startDate params
  else if (key =? "endDate")%string then endDate params
  else if (key =? "minAge")%string then minAge params
  else if (key =? "maxAge")%string then maxAge params
  else None.

(** [params[key] = value] *)
Definition setParam (params : SearchParams) (key value : string)
  : SearchParams :=
  let pick (field : string) (old : option string) : option string :=
    if (key =? field)%string then Some value else old in
  {| page := pick "page" (page params);
     pageSize := pick "pageSize" (pageSize params);
     sortBy := pick "sortBy" (sortBy params);
     sortOrder := pick "sortOrder" (sortOrder params);
     search := pick "search" (search params);
     status_ := pick "status" (status_ params);
     role_ := pick "role" (role_ params);
     roles := pick "roles" (roles params);
     startDate := pick "startDate" (startDate params);
     endDate := pick "endDate" (endDate params);
     minAge := pick "minAge" (minAge params);
     maxAge := pick "maxAge" (maxAge params) |}.

Definition parseSearchParams (entries : list (string * string))
  : SearchParams :=
  fold_left
    (fun params entry =>
       let '(key, value) := entry in
       if negb (value =? EmptyString)%string then setParam params key value
       else params)
    entries noSearchParams.

(** [searchParams.get(key)]: the first value given for the key. *)
Fixpoint get (entries : list (string * string)) (key : string)
  : option string :=
  match entries with
  | [] => None
  | (k, v) :: rest => if (k =? key)%string then Some v else get rest key
  end.

(** *** [filterUsers] (lines 45-96) *)

Section FilterUsers.

(** [String.prototype.toLowerCase] and [Date.parse] of the host. *)
Variable toLowerCase : string -> string.
Variable Date_parse : string -> Js.number.

Definition filterBySearch (filtered : list User) (params : SearchParams)
  : list User :=
  if given (search params) then
    let search := toLowerCase (orElse (search params) EmptyString) in
    filter (fun user =>
              Js.stringIncludes (toLowerCase (name user)) search
              || Js.stringIncludes (toLowerCase (email user)) search)
      filtered
  else filtered.

Definition filterByStatus (filtered : list User) (params : SearchParams)
  : list User :=
  if given (status_ params) then
    filter (fun user =>
              (status user =? orElse (status_ params) EmptyString)%string)
      filtered
  else filtered.

Definition filterByRole (filtered : list User) (params : SearchParams)
  : list User :=
  if given (role_ params) then
    filter (fun user =>
              (role user =? orElse (role_ params) EmptyString)%string)
      filtered
  else filtered.

Definition filterByRoles (filtered : list User) (params : SearchParams)
  : list User :=
  if given (roles params) then
    let selectedRoles :=
      Js.split ","%char (orElse (roles params) EmptyString) in
    filter (fun user => Js.includes selectedRoles (Js.str (role user)))
      filtered
  else filtered.

Definition dateInRange (params : SearchParams) (user : User) : bool :=
  let userDate := Js.newDate Date_parse (Js.str (createdAt user)) in
  let start :=
    if given (startDate params) then
      Some (Js.newDate Date_parse
              (Js.str (orElse (startDate params) EmptyString)))
    else None in
  let end_ :=
    if given (endDate params) then
      Some (Js.newDate Date_parse
              (Js.str (orElse (endDate params) EmptyString)))
    else None in
  if match start with Some d => Js.lt userDate d | None => false end
  then false
  else if match end_ with Some d => Js.gt userDate d | None => false end
  then false
  else true.

Definition filterByDate (filtered : list User) (params : SearchParams)
  : list User :=
  if given (startDate params) || given (endDate params) then
    filter (dateInRange params) filtered
  else filtered.

Definition filterUsers (users : list User) (params : SearchParams)
  : list User :=
  let filtered := users in
  let filtered := filterBySearch filtered params in
  let filtered := filterByStatus filtered params in
  let filtered := filterByRole filtered params in
  let filtered := filterByRoles filtered params in
  let filtered := filterByDate filtered params in
  let filtered := filterByAge filtered params in
  filtered.

End FilterUsers.

(** *** [GET] (lines 125-171) *)

(** [Math.ceil(totalItems / pageSize)] for a count of items.  A page size
    of zero gives an infinity (or [NaN]) whose sign is that of the zero,
    which integers do not carry: that case is [None]. *)
Definition totalPagesOf (totalItems : Z) (pageSize : Js.number)
  : option Js.number :=
  match pageSize with
  | Js.NaN => Some Js.NaN
  | Js.Num size =>
      if size =? 0 then None else Some (Js.Num (- ((- totalItems) / size)))
  end.

Record PageInfo : Type := {
  info_page : Js.number;
  info_pageSize : Js.number;
  totalItems : Z;
  totalPages : option Js.number;
  hasNextPage : option bool;
  hasPreviousPage : bool
}.

Record Listing : Type := {
  data : list User;
  pagination : PageInfo;
  filters : SearchParams
}.

Section Get.

Variable toLowerCase : string -> string.
Variable localeCompare : string -> string -> Z.
Variable Date_parse : string -> Js.number.

(** The body of the response for the entries of the query string, over
    the users the module holds. *)
Definition GET (entries : list (string * string)) (SAMPLE_USERS : list User)
  : Listing :=
  let params := parseSearchParams entries in
  let page := Js.parseInt (orElse (page params) "0") in
  let pageSize := Js.parseInt (orElse (pageSize params) "10") in
  let filteredUsers := filterUsers toLowerCase Date_parse SAMPLE_USERS params in
  let filteredUsers :=
    sortUsers localeCompare Date_parse filteredUsers
      (sortBy params) (sortOrder params) in
  let totalItems := Z.of_nat (List.length filteredUsers) in
  let totalPages := totalPagesOf totalItems pageSize in
  {| data := pageOf filteredUsers page pageSize;
     pagination :=
       {| info_page := page;
          info_pageSize := pageSize;
          totalItems := totalItems;
          totalPages := totalPages;
          hasNextPage :=
            match totalPages with
            | Some pages => Some (Js.lt page (Js.sub pages (Js.Num 1)))
            | None => None
            end;
          hasPreviousPage := Js.gt page (Js.Num 0) |};
     filters := params |}.

End Get.

(** *** [DELETE] (lines 226-251): the users left and the status code *)

Definition DELETE (entries : list (string * string))
  (SAMPLE_USERS : list User) : list User * Z :=
  let id_ := Js.parseInt (orElse (get entries "id") "0") in
  let userIndex :=
    Js.findIndex
      (fun user => Js.strictEquals (Js.num (Js.Num (id user))) (Js.num id_))
      SAMPLE_USERS in
  match userIndex with
  | None => (SAMPLE_USERS, 404)
  | Some i => (Js.removeAt i SAMPLE_USERS, 200)
  end.

End UsersApi.

(* ================================================================== *)
(** ** The server-side page ([src/app/server-table/page.tsx]) *)
(* ================================================================== *)

Module ServerTablePage.

Import DataTable.

Section FetchData.

(** The date part of [toISOString()] for a valid time value. *)
Variable isoDateOf : Z -> string.

(** [date.toISOString().split('T')[0]]; an Invalid Date throws. *)
Definition isoDate (d : Js.Date) : option string :=
  match d with
  | Js.NaN => None
  | Js.Num t => Some (isoDateOf t)
  end.

(** The entries one active filter appends (lines 71-95); [None] when
    [toISOString] throws. *)
Definition filterEntries (f : ColumnFilter)
  : option (list (string * string)) :=
  match filter_value f with
  | ListValue values =>
      Some [((filter_id f ++ "s")%string, Js.join "," values)]
  | RangeValue range =>
      match
        match from range with
        | Some d =>
            match isoDate d with
            | Some day => Some [("startDate", day)]
            | None => None
            end
        | None => Some []
        end
      with
      | None => None
      | Some starts =>
          match to range with
          | Some d =>
              match isoDate d with
              | Some day => Some (starts ++ [("endDate", day)])
              | None => None
              end
          | None => Some starts
          end
      end
  | TextValue value =>
      if (value =? EmptyString)%string then Some []
      else if (filter_id f =? "name")%string
              || (filter_id f =? "email")%string
      then Some [("search", value)]
      else Some [(filter_id f, value)]
  end.

Fixpoint filtersEntries (columnFilters : ColumnFiltersState)
  : option (list (string * string)) :=
  match columnFilters with
  | [] => Some []
  | f :: rest =>
      match filterEntries f with
      | None => None
      | Some entries =>
          match filtersEntries rest with
          | None => None
          | Some more => Some (entries ++ more)
          end
      end
  end.

(** The query of the request [fetchData] sends (lines 58-97), as the
    entries the endpoint reads back from the URL; [None] when building it
    throws, in which case nothing is fetched. *)
Definition queryEntries (pagination : PaginationState)
  (sorting : SortingState) (columnFilters : ColumnFiltersState)
  : option (list (string * string)) :=
  let params :=
    [("page", Js.stringOfZ (pageIndex pagination));
     ("pageSize", Js.stringOfZ (pageSize pagination))] in
  let params :=
    match sorting with
    | sort :: _ =>
        params ++ [("sortBy", sort_id sort);
                   ("sortOrder", if sort_desc sort then "desc" else "asc")]
    | [] => params
    end in
  match filtersEntries columnFilters with
  | Some entries => Some (params ++ entries)
  | None => None
  end.

End FetchData.

End ServerTablePage.

(* ================================================================== *)
(** ** A reference host

    Concrete stand-ins for what the host and the table library provide,
    used to run the definitions on examples. *)
(* ================================================================== *)

Module Host.

Definition digit (c : ascii) : option Z :=
  let n := Z.of_nat (nat_of_ascii c) in
  if (48 <=? n) && (n <=? 57) then Some (n - 48) else None.

Definition number2 (a b : ascii) : option Z :=
  match digit a, digit b with
  | Some x, Some y => Some (10 * x + y)
  | _, _ => None
  end.

Definition isLeap (y : Z) : bool :=
  ((y mod 4 =? 0) && negb (y mod 100 =? 0)) || (y mod 400 =? 0).

Definition daysInMonth (y m : Z) : Z :=
  if m =? 2 then (if isLeap y then 29 else 28)
  else if (m =? 4) || (m =? 6) || (m =? 9) || (m =? 11) then 30
  else 31.

(** Days from 1970-01-01 to the given civil date. *)
Definition daysFromCivil (y m d : Z) : Z :=
  let y' := if m <=? 2 then y - 1 else y in
  let era := y' / 400 in
  let yoe := y' - era * 400 in
  let mp := (m + 9) mod 12 in
  let doy := (153 * mp + 2) / 5 + d - 1 in
  let doe := yoe * 365 + yoe / 4 - yoe / 100 + doy in
  era * 146097 + doe - 719468.

(** [Date.parse] on the date-only ISO form [YYYY-MM-DD] (UTC midnight);
    every other string is unparsable. *)
Definition isoDateParse (s : string) : Js.number :=
  match list_ascii_of_string s with
  | [y1; y2; y3; y4; "-"%char; m1; m2; "-"%char; d1; d2] =>
      match number2 y1 y2, number2 y3 y4, number2 m1 m2, number2 d1 d2 with
      | Some yh, Some yl, Some m, Some d =>
          let y := 100 * yh + yl in
          if (1 <=? m) && (m <=? 12) && (1 <=? d) && (d <=? daysInMonth y m)
          then Js.Num (daysFromCivil y m d * 86400000)
          else Js.NaN
      | _, _, _, _ => Js.NaN
      end
  | _ => Js.NaN
  end.

(** Comparison of strings by character code. *)
Definition codeUnitCompare (a b : string) : Z :=
  match String.compare a b with
  | Lt => -1
  | Eq => 0
  | Gt => 1
  end.

Import DataTable.

Definition columnNamed (key : string) (column : ColumnDef.t) : bool :=
  match normalizedId column with
  | Some i => (i =? key)%string
  | None => false
  end.

(** A column filter passes when its column carries one of the component's
    predicates and the value has that predicate's type; otherwise it does
    not constrain the row. *)
Definition passes (columns : list ColumnDef.t) (row : Row)
  (f : ColumnFilter) : bool :=
  match find (columnNamed (filter_id f)) columns with
  | Some column =>
      match ColumnDef.filterFn column, filter_value f with
      | Some ExactMatchFilter, TextValue v =>
          exactMatchFilter row (filter_id f) v
      | Some MultiSelectFilter, ListValue v =>
          multiSelectFilter row (filter_id f) (Some v)
      | Some DateRangeFilter, RangeValue v =>
          dateRangeFilter isoDateParse row (filter_id f) (Some v)
      | _, _ => true
      end
  | None => true
  end.

Definition compareRows (key : string) (a b : Row) : Js.number :=
  match getValue a key, getValue b key with
  | Js.num x, Js.num y => Js.sub x y
  | Js.str x, Js.str y => Js.Num (codeUnitCompare x y)
  | _, _ => Js.Num 0
  end.

Definition table : TableLibrary :=
  {| getColumn := fun columns key => find (columnNamed key) columns;
     getFilteredRowModel := fun columns active rows =>
       filter (fun row => forallb (passes columns row) active) rows;
     getSortedRowModel := fun _ order rows =>
       match order with
       | [] => rows
       | first :: _ =>
           let sorted := UsersApi.sort (compareRows (sort_id first)) rows in
           if sort_desc first then rev sorted else sorted
       end;
     getPaginationRowModel := fun p rows =>
       firstn (Z.to_nat (pageSize p))
         (skipn (Z.to_nat (pageIndex p * pageSize p)) rows) |}.

End Host.

(* ================================================================== *)
(** ** Specifications and sample data *)
(* ================================================================== *)

Module Spec.

Import DataTable.

(** Closed-interval membership of a time value, a bound that is absent
    (or an Invalid Date) being open. *)
Definition withinBounds (t : Z) (range : DateRangeValue) : bool :=
  match from range with
  | Some (Js.Num lower) => lower <=? t
  | _ => true
  end
  &&
  match to range with
  | Some (Js.Num upper) => t <=? upper
  | _ => true
  end.

(** The keys of the query string the endpoint reads. *)
Definition knownKeys : list string :=
  ["page"; "pageSize"; "sortBy"; "sortOrder"; "search"; "status"; "role";
   "roles"; "startDate"; "endDate"; "minAge"; "maxAge"].

Definition isKnown (key : string) : bool :=
  existsb (String.eqb key) knownKeys.

Definition nonEmptyValue (entry : string * string) : bool :=
  negb (snd entry =? EmptyString)%string.

(** A column filter that reaches the endpoint under the key [search]: a
    text that is not empty, on the [name] or the [email] column or on a
    column itself called [search]. *)
Definition sentAsSearch (f : ColumnFilter) : bool :=
  match filter_value f with
  | TextValue value =>
      negb (value =? EmptyString)%string
      && ((filter_id f =? "name")%string
          || (filter_id f =? "email")%string
          || (filter_id f =? "search")%string)
  | _ => false
  end.

(** A user passes every filter that is given. *)
Definition keeps (toLowerCase : string -> string)
  (Date_parse : string -> Js.number)
  (params : UsersApi.SearchParams) (user : UsersApi.User) : bool :=
  (negb (UsersApi.given (UsersApi.search params))
   || Js.stringIncludes (toLowerCase (UsersApi.name user))
        (toLowerCase (UsersApi.orElse (UsersApi.search params) EmptyString))
   || Js.stringIncludes (toLowerCase (UsersApi.email user))
        (toLowerCase (UsersApi.orElse (UsersApi.search params) EmptyString)))
  && (negb (UsersApi.given (UsersApi.status_ params))
      || (UsersApi.status user
          =? UsersApi.orElse (UsersApi.status_ params) EmptyString)%string)
  && (negb (UsersApi.given (UsersApi.role_ params))
      || (UsersApi.role user
          =? UsersApi.orElse (UsersApi.role_ params) EmptyString)%string)
  && (negb (UsersApi.given (UsersApi.roles params))
      || Js.includes
           (Js.split ","%char
              (UsersApi.orElse (UsersApi.roles params) EmptyString))
           (Js.str (UsersApi.role user)))
  && (negb (UsersApi.given (UsersApi.startDate params)
            || UsersApi.given (UsersApi.endDate params))
      || UsersApi.dateInRange Date_parse params user)
  && (negb (UsersApi.given (UsersApi.minAge params)
            || UsersApi.given (UsersApi.maxAge params))
      || UsersApi.ageInRange params user).

(** [sub] occurs in [s]. *)
Definition occursIn (sub s : string) : Prop :=
  exists before after, s = (before ++ sub ++ after)%string.

(** The string holds no comma. *)
Definition commaFree (s : string) : Prop :=
  ~ In ","%char (list_ascii_of_string s).

(** The number a run of decimal digits denotes, continuing from [acc]. *)
Fixpoint decimalValue (d : Decimal.uint) (acc : Z) : Z :=
  match d with
  | Decimal.Nil => acc
  | Decimal.D0 l => decimalValue l (acc * 10)
  | Decimal.D1 l => decimalValue l (acc * 10 + 1)
  | Decimal.D2 l => decimalValue l (acc * 10 + 2)
  | Decimal.D3 l => decimalValue l (acc * 10 + 3)
  | Decimal.D4 l => decimalValue l (acc * 10 + 4)
  | Decimal.D5 l => decimalValue l (acc * 10 + 5)
  | Decimal.D6 l => decimalValue l (acc * 10 + 6)
  | Decimal.D7 l => decimalValue l (acc * 10 + 7)
  | Decimal.D8 l => decimalValue l (acc * 10 + 8)
  | Decimal.D9 l => decimalValue l (acc * 10 + 9)
  end.

(** The last character of a string. *)
Fixpoint lastChar (s : string) : option ascii :=
  match s with
  | EmptyString => None
  | String c EmptyString => Some c
  | String _ rest => lastChar rest
  end.

End Spec.

Module Samples.

Import DataTable.

Definition statusColumn : ColumnDef.t :=
  {| ColumnDef.id := None;
     ColumnDef.accessorKey := Some (KeyString "status");
     ColumnDef.header := Some "Status";
     ColumnDef.filterFn := None |}.

Definition statusFilter : FilterConfig :=
  {| columnId := "status"; type := select; placeholder := None;
     options := Some [("Active", "Active"); ("Inactive", "Inactive")];
     label := Some "Status" |}.

Definition ageColumn : ColumnDef.t :=
  {| ColumnDef.id := None;
     ColumnDef.accessorKey := Some (KeyString "age");
     ColumnDef.header := None;
     ColumnDef.filterFn := None |}.

Definition ageFilter : FilterConfig :=
  {| columnId := "age"; type := number;
     placeholder := Some "Filter by age..."; options := None;
     label := None |}.

(** A declaration for a column the table does not have. *)
Definition salaryFilter : FilterConfig :=
  {| columnId := "salary"; type := select; placeholder := None;
     options := None; label := Some "Salary" |}.

Definition adminRows : list Row :=
  [ [("role", Js.str "Admin"); ("age", Js.num (Js.Num 30))];
    [("role", Js.str "User"); ("age", Js.num (Js.Num 22))];
    [("role", Js.str "Admin"); ("age", Js.num (Js.Num 45))] ].

Definition roleColumn : ColumnDef.t :=
  {| ColumnDef.id := None;
     ColumnDef.accessorKey := Some (KeyString "role");
     ColumnDef.header := Some "Role";
     ColumnDef.filterFn := None |}.

Definition roleFilter : FilterConfig :=
  {| columnId := "role"; type := multiSelect; placeholder := None;
     options := Some [("Admin", "Admin"); ("User", "User")];
     label := Some "Role" |}.

(** Sorting is left to the server, filtering stays in the table. *)
Definition sortOnServer (reply : completion) : ServerSideConfig.t :=
  {| ServerSideConfig.enabled := true;
     ServerSideConfig.pageCount := 1;
     ServerSideConfig.loading := None;
     ServerSideConfig.onPaginationChange := None;
     ServerSideConfig.onSortingChange := Some (fun _ => reply);
     ServerSideConfig.onColumnFiltersChange := Some (fun _ => reply);
     ServerSideConfig.manualPagination := Some false;
     ServerSideConfig.manualSorting := None;
     ServerSideConfig.manualFiltering := Some false |}.

Definition adminProps (reply : completion) : Props :=
  {| columns := [roleColumn; ageColumn];
     data := adminRows;
     filters := [roleFilter];
     enableRowSelection := false; enableColumnVisibility := true;
     enablePagination := true;
     serverSide := Some (sortOnServer reply) |}.

(** The table with the role filter set to Admin. *)
Definition adminsOnly : World :=
  {| state :=
       {| sorting := [];
          columnFilters :=
            [{| filter_id := "role"; filter_value := ListValue ["Admin"] |}];
          columnVisibility := []; rowSelection := [];
          pagination := {| pageIndex := 0; pageSize := 10 |} |};
     calls := [] |}.

Definition byAgeDescending : SortingState :=
  [{| sort_id := "age"; sort_desc := true |}].

Definition user (i : Z) (n r : string) (a : Z) : UsersApi.User :=
  {| UsersApi.id := i; UsersApi.name := n;
     UsersApi.email := "user@example.com"; UsersApi.role := r;
     UsersApi.status := "Active"; UsersApi.createdAt := "2024-01-15";
     UsersApi.age := a |}.

Definition threeUsers : list UsersApi.User :=
  [user 1 "Ann" "Admin" 30; user 2 "Bob" "User" 22; user 3 "Cy" "Admin" 45].

(** Two users of the same age, then a younger one. *)
Definition sameAgeUsers : list UsersApi.User :=
  [user 1 "Ann" "Admin" 30; user 2 "Bob" "User" 30; user 3 "Cy" "Admin" 22].

Definition twentyFiveUsers : list UsersApi.User :=
  map (fun n => user (Z.of_nat n) "User" "User" (20 + Z.of_nat n))
    (List.seq 1 25).

Definition thirdPage : UsersApi.SearchParams :=
  {| UsersApi.page := Some "2"; UsersApi.pageSize := None;
     UsersApi.sortBy := None; UsersApi.sortOrder := None;
     UsersApi.search := None; UsersApi.status_ := None;
     UsersApi.role_ := None; UsersApi.roles := None;
     UsersApi.startDate := None; UsersApi.endDate := None;
     UsersApi.minAge := None; UsersApi.maxAge := None |}.

Definition noParams : UsersApi.SearchParams :=
  {| UsersApi.page := None; UsersApi.pageSize := None;
     UsersApi.sortBy := None; UsersApi.sortOrder := None;
     UsersApi.search := None; UsersApi.status_ := None;
     UsersApi.role_ := None; UsersApi.roles := None;
     UsersApi.startDate := None; UsersApi.endDate := None;
     UsersApi.minAge := None; UsersApi.maxAge := None |}.

Definition fromAge25 : UsersApi.SearchParams :=
  {| UsersApi.page := None; UsersApi.pageSize := None;
     UsersApi.sortBy := None; UsersApi.sortOrder := None;
     UsersApi.search := None; UsersApi.status_ := None;
     UsersApi.role_ := None; UsersApi.roles := None;
     UsersApi.startDate := None; UsersApi.endDate := None;
     UsersApi.minAge := Some "25"; UsersApi.maxAge := None |}.

(** The role column declared three times over, and a column whose own
    predicate no declaration replaces. *)
Definition roleDateFilter : FilterConfig :=
  {| columnId := "role"; type := dateRange; placeholder := None;
     options := None; label := None |}.

Definition nameColumn : ColumnDef.t :=
  {| ColumnDef.id := Some "name";
     ColumnDef.accessorKey := None;
     ColumnDef.header := Some "Name";
     ColumnDef.filterFn := Some (CallerFilter "fuzzy") |}.

Definition nameFilter : FilterConfig :=
  {| columnId := "name"; type := text;
     placeholder := Some "Filter by name..."; options := None;
     label := None |}.

(** A page of ten rows as the server sent it, shown as the second page. *)
Definition serverPage : list Row :=
  map (fun n => [("name", Js.str "User"); ("age", Js.num (Js.Num (Z.of_nat n)))])
    (List.seq 11 10).

Definition fullyDelegated (busy : option bool) : ServerSideConfig.t :=
  {| ServerSideConfig.enabled := true;
     ServerSideConfig.pageCount := 10;
     ServerSideConfig.loading := busy;
     ServerSideConfig.onPaginationChange := None;
     ServerSideConfig.onSortingChange := None;
     ServerSideConfig.onColumnFiltersChange := None;
     ServerSideConfig.manualPagination := None;
     ServerSideConfig.manualSorting := None;
     ServerSideConfig.manualFiltering := None |}.

Definition serverProps (busy : option bool) : Props :=
  {| columns := [roleColumn; ageColumn];
     data := serverPage;
     filters := [roleFilter];
     enableRowSelection := false; enableColumnVisibility := true;
     enablePagination := true;
     serverSide := Some (fullyDelegated busy) |}.

Definition secondPage : TableState :=
  {| sorting := byAgeDescending;
     columnFilters :=
       [{| filter_id := "role"; filter_value := ListValue ["Admin"] |}];
     columnVisibility := []; rowSelection := [];
     pagination := {| pageIndex := 1; pageSize := 10 |} |}.

(** The callbacks given although nothing is delegated. *)
Definition listenOnly : ServerSideConfig.t :=
  {| ServerSideConfig.enabled := false;
     ServerSideConfig.pageCount := 1;
     ServerSideConfig.loading := None;
     ServerSideConfig.onPaginationChange := Some (fun _ => Normal);
     ServerSideConfig.onSortingChange := Some (fun _ => Normal);
     ServerSideConfig.onColumnFiltersChange := Some (fun _ => Normal);
     ServerSideConfig.manualPagination := None;
     ServerSideConfig.manualSorting := None;
     ServerSideConfig.manualFiltering := None |}.

(** ASCII lower-casing, standing for [toLowerCase]. *)
Definition lowerAscii (c : ascii) : ascii :=
  let n := nat_of_ascii c in
  if ((65 <=? n) && (n <=? 90))%nat then ascii_of_nat (n + 32) else c.

Fixpoint lowerCase (s : string) : string :=
  match s with
  | EmptyString => EmptyString
  | String c rest => String (lowerAscii c) (lowerCase rest)
  end.

Definition admins : UsersApi.SearchParams :=
  {| UsersApi.page := None; UsersApi.pageSize := None;
     UsersApi.sortBy := None; UsersApi.sortOrder := None;
     UsersApi.search := Some "AN"; UsersApi.status_ := None;
     UsersApi.role_ := None; UsersApi.roles := Some "Admin,Moderator";
     UsersApi.startDate := None; UsersApi.endDate := None;
     UsersApi.minAge := None; UsersApi.maxAge := None |}.




(** The day of a time value, for the examples: the epoch only. *)
Definition epochDay (t : Z) : string := "1970-01-01".

Definition rolesChosen : ColumnFiltersState :=
  [{| filter_id := "role"; filter_value := ListValue ["Admin"; "Moderator"] |}].

Definition emailThenName : ColumnFiltersState :=
  [{| filter_id := "email"; filter_value := TextValue "example" |};
   {| filter_id := "role"; filter_value := ListValue ["Admin"] |};
   {| filter_id := "name"; filter_value := TextValue "ann" |};
   {| filter_id := "status"; filter_value := TextValue "active" |}].

Definition olderThan (bound : string) : UsersApi.SearchParams :=
  {| UsersApi.page := None; UsersApi.pageSize := None;
     UsersApi.sortBy := None; UsersApi.sortOrder := None;
     UsersApi.search := None; UsersApi.status_ := None;
     UsersApi.role_ := None; UsersApi.roles := None;
     UsersApi.startDate := None; UsersApi.endDate := None;
     UsersApi.minAge := Some bound; UsersApi.maxAge := None |}.

Definition createdAtRow (created : string) : Row :=
  [("name", Js.str "Alice Johnson"); ("createdAt", Js.str created)].

Definition january15 : Js.Date := Js.Num 1705276800000.
Definition february20 : Js.Date := Js.Num 1708387200000.

End Samples.

(* ================================================================== *)
(** ** Properties of the DataTable component *)
(* ================================================================== *)

Module DataTableFacts.

Import DataTable.

(** *** The definitions on small inputs *)

Example strictEquals_does_not_coerce :
  Js.strictEquals (Js.num (Js.Num 1)) (Js.str "1") = false
  /\ Js.strictEquals (Js.num Js.NaN) (Js.num Js.NaN) = false
  /\ Js.strictEquals (Js.str "Admin") (Js.str "Admin") = true.
Proof. repeat split. Qed.

Example isoDateParse_runs :
  Host.isoDateParse "1970-01-02" = Js.Num 86400000
  /\ Host.isoDateParse "2024-01-15" = Samples.january15
  /\ Host.isoDateParse "2024-02-20" = Samples.february20
  /\ Host.isoDateParse "2024-02-30" = Js.NaN
  /\ Host.isoDateParse "soon" = Js.NaN.
Proof. repeat split. Qed.

Example multiSelect_admins :
  filter (fun row => multiSelectFilter row "role" (Some ["Admin"]))
    Samples.adminRows
  = [ [("role", Js.str "Admin"); ("age", Js.num (Js.Num 30))];
      [("role", Js.str "Admin"); ("age", Js.num (Js.Num 45))] ].
Proof. reflexivity. Qed.

Example processedColumns_binds_by_type :
  map ColumnDef.filterFn
    (processedColumns
       [Samples.statusColumn; Samples.roleColumn; Samples.ageColumn]
       [Samples.statusFilter; Samples.roleFilter; Samples.ageFilter])
  = [Some ExactMatchFilter; Some MultiSelectFilter; None].
Proof. reflexivity. Qed.

Example stringOfZ_runs :
  Js.stringOfZ 25 = "25" /\ Js.stringOfZ (-7) = "-7" /\ Js.stringOfZ 0 = "0".
Proof. repeat split. Qed.

(** *** The mode flags *)

Lemma isServerSide_enabled (config : ServerSideConfig.t) :
  isServerSide (Some config) = ServerSideConfig.enabled config.
Proof.
  unfold isServerSide; simpl.
  now destruct (ServerSideConfig.enabled config).
Qed.

(** C1: each of the three manual flags is the sub-flag the configuration
    gives explicitly and, when none is given, the top-level [enabled] flag;
    without any server-side configuration all three are off.  The flags are
    functions of the configuration alone. *)
Theorem manual_flags_default_to_enabled :
  (forall config : ServerSideConfig.t,
      manualPagination (Some config)
      = match ServerSideConfig.manualPagination config with
        | Some explicit => explicit
        | None => ServerSideConfig.enabled config
        end
      /\ manualSorting (Some config)
         = match ServerSideConfig.manualSorting config with
           | Some explicit => explicit
           | None => ServerSideConfig.enabled config
           end
      /\ manualFiltering (Some config)
         = match ServerSideConfig.manualFiltering config with
           | Some explicit => explicit
           | None => ServerSideConfig.enabled config
           end)
  /\ manualPagination None = false
  /\ manualSorting None = false
  /\ manualFiltering None = false.
Proof.
  split; [intro config | repeat split; reflexivity].
  unfold manualPagination, manualSorting, manualFiltering.
  rewrite isServerSide_enabled; simpl.
  repeat split.
Qed.

(** *** The filter predicates *)

Lemma includes_spec (selected : list string) (v : Js.value) :
  Js.includes selected v = true
  <-> exists s, In s selected /\ v = Js.str s.
Proof.
  unfold Js.includes. rewrite existsb_exists. split.
  - intros [s [Hin Heq]]. exists s. split; [exact Hin |].
    destruct v as [| | b | [| z] | t]; simpl in Heq; try discriminate.
    apply String.eqb_eq in Heq. now subst.
  - intros [s [Hin ->]]. exists s. split; [exact Hin |].
    simpl. apply String.eqb_refl.
Qed.

(** C3: an absent or empty multi-select value keeps every row; with at
    least one selected value a row is kept exactly when its cell is one of
    the selected strings. *)
Theorem multiSelectFilter_spec (row : Row) (columnId : string) :
  multiSelectFilter row columnId None = true
  /\ multiSelectFilter row columnId (Some []) = true
  /\ forall (first : string) (others : list string),
       multiSelectFilter row columnId (Some (first :: others)) = true
       <-> exists s, In s (first :: others)
                     /\ getValue row columnId = Js.str s.
Proof.
  repeat split; try reflexivity.
  - intro H. apply includes_spec. exact H.
  - intro H. apply includes_spec in H. exact H.
Qed.

Lemma exactMatchFilter_cases (row : Row) (columnId value : string) :
  exactMatchFilter row columnId value
  = match getValue row columnId with
    | Js.str cell => (cell =? value)%string
    | _ => false
    end.
Proof.
  unfold exactMatchFilter.
  now destruct (getValue row columnId) as [| | b | [| z] | t].
Qed.

Lemma idIn_Some (key : string) (ids : list string) :
  key <> EmptyString -> In key ids -> idIn (Some key) ids = true.
Proof.
  intros Hne Hin. unfold idIn, has.
  apply andb_true_intro. split.
  - apply negb_true_iff. now apply String.eqb_neq.
  - apply existsb_exists. exists key. split; [exact Hin |].
    apply String.eqb_refl.
Qed.

Lemma in_filterColumnIds (filters : list FilterConfig) (f : FilterConfig) :
  In f filters -> In (columnId f) (filterColumnIds filters (type f)).
Proof.
  intro Hin. unfold filterColumnIds.
  apply in_map. apply filter_In. split; [exact Hin |].
  now destruct (type f).
Qed.

(** C10: a column targeted by a select declaration carries
    [exactMatchFilter], and that predicate holds exactly when the cell is a
    string equal, character for character, to the filter value: a cell
    that is a number (or any non-string) never matches, and neither does a
    string that differs in case. *)
Theorem select_filter_is_strict_equality
  (Date_parse : string -> Js.number) (columns : list ColumnDef.t)
  (filters : list FilterConfig) (f : FilterConfig) (column : ColumnDef.t)
  (row : Row) (key value : string) :
  In f filters -> type f = select ->
  columnId f <> EmptyString ->
  normalizedId column = Some (columnId f) ->
  processColumn (filterColumnIds filters select)
    (filterColumnIds filters multiSelect)
    (filterColumnIds filters dateRange) column
  = ColumnDef.withFilterFn column ExactMatchFilter
  /\ filterFns Date_parse ExactMatchFilter = exactMatchFilter
  /\ (exactMatchFilter row key value = true
      <-> getValue row key = Js.str value)
  /\ (forall n, getValue row key = Js.num n ->
                exactMatchFilter row key value = false)
  /\ exactMatchFilter [("id", Js.num (Js.Num 1))] "id" "1" = false
  /\ exactMatchFilter [("status", Js.str "Active")] "status" "active" = false.
Proof.
  intros Hin Hty Hne Hid.
  repeat split; try reflexivity.
  - unfold processColumn. rewrite Hid.
    rewrite idIn_Some; [reflexivity | exact Hne |].
    rewrite <- Hty. now apply in_filterColumnIds.
  - rewrite exactMatchFilter_cases.
    destruct (getValue row key) as [| | b | [| z] | t]; try discriminate.
    intro E. apply String.eqb_eq in E. now subst.
  - intro E. rewrite exactMatchFilter_cases, E. apply String.eqb_refl.
  - intros n E. now rewrite exactMatchFilter_cases, E.
Qed.

Lemma select_filter_is_strict_equality_witness :
  processColumn (filterColumnIds [Samples.statusFilter] select)
    (filterColumnIds [Samples.statusFilter] multiSelect)
    (filterColumnIds [Samples.statusFilter] dateRange) Samples.statusColumn
  = ColumnDef.withFilterFn Samples.statusColumn ExactMatchFilter
  /\ exactMatchFilter [("status", Js.str "Active")] "status" "Active" = true.
Proof.
  destruct (select_filter_is_strict_equality Host.isoDateParse
              [Samples.statusColumn] [Samples.statusFilter]
              Samples.statusFilter Samples.statusColumn
              [("status", Js.str "Active")] "status" "Active")
    as [Hbound [_ [Hiff _]]].
  - simpl. left. reflexivity.
  - reflexivity.
  - discriminate.
  - reflexivity.
  - split; [exact Hbound | apply Hiff; reflexivity].
Defined.

(** The date-range predicate, one case at a time. *)
Section DateRangeFacts.

Variable Date_parse : string -> Js.number.

Lemma dateRangeFilter_no_bounds (row : Row) (key : string) :
  dateRangeFilter Date_parse row key None = true
  /\ dateRangeFilter Date_parse row key
       (Some {| from := None; to := None |}) = true.
Proof. split; reflexivity. Qed.

Lemma dateRangeFilter_bad_cell (row : Row) (key : string)
  (range : DateRangeValue) :
  from range <> None \/ to range <> None ->
  Js.truthy (getValue row key) = false
  \/ Js.newDate Date_parse (getValue row key) = Js.NaN ->
  dateRangeFilter Date_parse row key (Some range) = false.
Proof.
  intros Hbound Hbad. unfold dateRangeFilter.
  destruct (Js.truthy (getValue row key)) eqn:Ht.
  - destruct Hbad as [Hbad | Hbad]; [discriminate |].
    rewrite Hbad. simpl.
    destruct (from range), (to range); try reflexivity.
    now destruct Hbound.
  - simpl. destruct (from range), (to range); try reflexivity.
    now destruct Hbound.
Qed.

Lemma dateRangeFilter_good_cell (row : Row) (key : string)
  (range : DateRangeValue) (t : Z) :
  from range <> None \/ to range <> None ->
  Js.truthy (getValue row key) = true ->
  Js.newDate Date_parse (getValue row key) = Js.Num t ->
  dateRangeFilter Date_parse row key (Some range)
  = Spec.withinBounds t range.
Proof.
  intros Hbound Ht Hd. unfold dateRangeFilter, Spec.withinBounds.
  rewrite Ht, Hd. simpl.
  destruct (from range) as [[| lower] |], (to range) as [[| upper] |];
    simpl; try reflexivity;
    try (destruct Hbound as [Hb | Hb]; now elim Hb);
    unfold Js.gt; simpl;
    repeat match goal with
      | |- context [?a <? ?b] => destruct (Z.ltb_spec a b)
      | |- context [?a <=? ?b] => destruct (Z.leb_spec a b)
      end; simpl; try reflexivity; lia.
Qed.

End DateRangeFacts.

(** C4, as the code has it: a date-range value that is absent or has
    neither bound keeps every row, whatever its cell; once a bound is
    present, a cell that is falsy or does not parse as a date excludes the
    row, and a cell that parses to time [t] keeps it exactly when [t] lies
    within the bounds, both inclusive, an absent bound being open. *)
Theorem dateRangeFilter_spec (Date_parse : string -> Js.number)
  (row : Row) (key : string) (range : DateRangeValue) :
  from range <> None \/ to range <> None ->
  dateRangeFilter Date_parse row key None = true
  /\ dateRangeFilter Date_parse row key
       (Some {| from := None; to := None |}) = true
  /\ (Js.truthy (getValue row key) = false
      \/ Js.newDate Date_parse (getValue row key) = Js.NaN ->
      dateRangeFilter Date_parse row key (Some range) = false)
  /\ (forall t : Z,
        Js.truthy (getValue row key) = true ->
        Js.newDate Date_parse (getValue row key) = Js.Num t ->
        dateRangeFilter Date_parse row key (Some range)
        = Spec.withinBounds t range)
  /\ (forall t : Z, Spec.withinBounds t {| from := Some (Js.Num t); to := None |} = true)
  /\ (forall t : Z, Spec.withinBounds t {| from := None; to := Some (Js.Num t) |} = true).
Proof.
  intro Hbound.
  split; [reflexivity |]. split; [reflexivity |].
  split; [now apply dateRangeFilter_bad_cell |].
  split; [intros t; now apply dateRangeFilter_good_cell |].
  unfold Spec.withinBounds; simpl.
  split; intro t; rewrite ?andb_true_r; apply Z.leb_refl.
Qed.

(** A row created on the lower bound itself is kept; one that does not
    parse is dropped. *)
Lemma dateRangeFilter_spec_witness :
  dateRangeFilter Host.isoDateParse (Samples.createdAtRow "2024-01-15")
    "createdAt"
    (Some {| from := Some Samples.january15;
             to := Some Samples.february20 |}) = true
  /\ dateRangeFilter Host.isoDateParse (Samples.createdAtRow "soon")
       "createdAt"
       (Some {| from := Some Samples.january15;
                to := Some Samples.february20 |}) = false.
Proof.
  split.
  - destruct (dateRangeFilter_spec Host.isoDateParse
                (Samples.createdAtRow "2024-01-15") "createdAt"
                {| from := Some Samples.january15;
                   to := Some Samples.february20 |})
      as [_ [_ [_ [Hgood _]]]].
    + left. discriminate.
    + rewrite (Hgood 1705276800000); reflexivity.
  - destruct (dateRangeFilter_spec Host.isoDateParse
                (Samples.createdAtRow "soon") "createdAt"
                {| from := Some Samples.january15;
                   to := Some Samples.february20 |})
      as [_ [_ [Hbad _]]].
    + left. discriminate.
    + apply Hbad. right. reflexivity.
Defined.

(** C4 as stated fails: with neither bound given, a row whose cell does
    not parse as a date is kept. *)
Lemma dateRangeFilter_keeps_unparsable_without_bounds :
  Js.newDate Host.isoDateParse
    (getValue (Samples.createdAtRow "soon") "createdAt") = Js.NaN
  /\ dateRangeFilter Host.isoDateParse (Samples.createdAtRow "soon")
       "createdAt" (Some {| from := None; to := None |}) = true.
Proof. split; reflexivity. Qed.

(** *** The binder and the filter controls *)

Lemma filterColumnIds_app (l1 l2 : list FilterConfig) (ty : FilterType) :
  filterColumnIds (l1 ++ l2) ty
  = filterColumnIds l1 ty ++ filterColumnIds l2 ty.
Proof.
  unfold filterColumnIds. now rewrite filter_app, map_app.
Qed.

Lemma filterColumnIds_cons (f : FilterConfig) (l : list FilterConfig)
  (ty : FilterType) :
  filterColumnIds (f :: l) ty
  = (if FilterType_eqb (type f) ty then [columnId f] else [])
      ++ filterColumnIds l ty.
Proof.
  unfold filterColumnIds. simpl.
  now destruct (FilterType_eqb (type f) ty).
Qed.

Lemma has_app (l1 l2 : list string) (x : string) :
  has (l1 ++ l2) x = has l1 x || has l2 x.
Proof. unfold has. apply existsb_app. Qed.

(** Membership of an identifier is blind to entries that differ from it. *)
Lemma idIn_skip (nid : option string) (key : string) (l1 l2 : list string)
  (b : bool) :
  nid <> Some key ->
  idIn nid (l1 ++ (if b then [key] else []) ++ l2) = idIn nid (l1 ++ l2).
Proof.
  intro Hne. destruct nid as [i |]; [| reflexivity].
  unfold idIn. f_equal. rewrite !has_app.
  destruct b; [| reflexivity].
  simpl. replace (i =? key)%string with false; [reflexivity |].
  symmetry. apply String.eqb_neq. congruence.
Qed.

Lemma processColumn_skip (f : FilterConfig) (before after : list FilterConfig)
  (column : ColumnDef.t) :
  normalizedId column <> Some (columnId f) ->
  processColumn (filterColumnIds (before ++ f :: after) select)
    (filterColumnIds (before ++ f :: after) multiSelect)
    (filterColumnIds (before ++ f :: after) dateRange) column
  = processColumn (filterColumnIds (before ++ after) select)
      (filterColumnIds (before ++ after) multiSelect)
      (filterColumnIds (before ++ after) dateRange) column.
Proof.
  intro Hne. unfold processColumn.
  rewrite !filterColumnIds_app, !filterColumnIds_cons.
  now rewrite !(idIn_skip _ _ _ _ _ Hne).
Qed.

Lemma processedColumns_skip (columns : list ColumnDef.t) (f : FilterConfig)
  (before after : list FilterConfig) :
  (forall column, In column columns ->
                  normalizedId column <> Some (columnId f)) ->
  processedColumns columns (before ++ f :: after)
  = processedColumns columns (before ++ after).
Proof.
  intro Hno. unfold processedColumns. apply map_ext_in.
  intros column Hin. apply processColumn_skip. now apply Hno.
Qed.

Lemma processedColumns_nil (columns : list ColumnDef.t) :
  processedColumns columns [] = columns.
Proof.
  unfold processedColumns. simpl.
  rewrite <- (map_id columns) at 2. apply map_ext.
  intro column. unfold processColumn.
  destruct (normalizedId column) as [i |]; simpl;
    rewrite ?andb_false_r; reflexivity.
Qed.

(** C8: a declaration whose [columnId] names no column binds nothing
    (alone, it returns the columns as they are), changes no other binding
    (the processed columns are those obtained without it) and renders no
    control; every function involved is total, so nothing is raised. *)
Theorem unmatched_declaration_is_inert (lib : TableLibrary) (props : Props)
  (f : FilterConfig) (before after : list FilterConfig) :
  filters props = before ++ f :: after ->
  (forall column, In column (columns props) ->
                  normalizedId column <> Some (columnId f)) ->
  getColumn lib (processedColumns (columns props) (filters props))
    (columnId f) = None ->
  processedColumns (columns props) [f] = columns props
  /\ processedColumns (columns props) (filters props)
     = processedColumns (columns props) (before ++ after)
  /\ renderFilter lib props f = None.
Proof.
  intros Hfilters Hno Hcol. repeat split.
  - change [f] with ([] ++ f :: []).
    rewrite (processedColumns_skip _ f [] [] Hno).
    apply processedColumns_nil.
  - rewrite Hfilters. now apply processedColumns_skip.
  - unfold renderFilter. now rewrite Hcol.
Qed.

Lemma unmatched_declaration_is_inert_witness :
  let props :=
    {| columns := [Samples.statusColumn; Samples.ageColumn];
       data := [];
       filters := [Samples.salaryFilter; Samples.statusFilter];
       enableRowSelection := false; enableColumnVisibility := true;
       enablePagination := true; serverSide := None |} in
  processedColumns (columns props) (filters props)
  = processedColumns (columns props) [Samples.statusFilter]
  /\ renderFilter Host.table props Samples.salaryFilter = None.
Proof.
  intro props.
  destruct (unmatched_declaration_is_inert Host.table props
              Samples.salaryFilter [] [Samples.statusFilter])
    as [_ [Hsame Hnone]].
  - reflexivity.
  - intros column [<- | [<- | []]]; discriminate.
  - reflexivity.
  - split; [exact Hsame | exact Hnone].
Defined.

Lemma processColumn_without_number (filters : list FilterConfig)
  (ty : FilterType) :
  ty <> number ->
  filterColumnIds
    (filter (fun f => negb (FilterType_eqb (type f) number)) filters) ty
  = filterColumnIds filters ty.
Proof.
  intro Hty. unfold filterColumnIds. f_equal.
  induction filters as [| f rest IH]; [reflexivity |].
  simpl. destruct (type f) eqn:E; simpl; rewrite ?E; simpl;
    rewrite ?IH; try reflexivity.
  now destruct ty.
Qed.

(** *** The change handlers *)

Lemma onSortingChange_run (serverSide : option ServerSideConfig.t)
  (updater : Updater SortingState) (w : World) :
  let next := functionalUpdate updater (sorting (state w)) in
  onSortingChange serverSide updater w
  = match Js.chainOpt serverSide ServerSideConfig.onSortingChange with
    | Some callback =>
        ({| state :=
              {| sorting := next;
                 columnFilters := columnFilters (state w);
                 columnVisibility := columnVisibility (state w);
                 rowSelection := rowSelection (state w);
                 pagination := pagination (state w) |};
            calls := calls w ++ [SortingChanged next] |},
         callback next)
    | None =>
        ({| state :=
              {| sorting := next;
                 columnFilters := columnFilters (state w);
                 columnVisibility := columnVisibility (state w);
                 rowSelection := rowSelection (state w);
                 pagination := pagination (state w) |};
            calls := calls w |},
         Normal)
    end.
Proof.
  unfold onSortingChange, seq, setSoring, modify, invoke, done. simpl.
  now destruct (Js.chainOpt serverSide ServerSideConfig.onSortingChange).
Qed.

Lemma onColumnFiltersChange_run (serverSide : option ServerSideConfig.t)
  (updater : Updater ColumnFiltersState) (w : World) :
  let next := functionalUpdate updater (columnFilters (state w)) in
  onColumnFiltersChange serverSide updater w
  = match Js.chainOpt serverSide ServerSideConfig.onColumnFiltersChange with
    | Some callback =>
        ({| state :=
              {| sorting := sorting (state w);
                 columnFilters := next;
                 columnVisibility := columnVisibility (state w);
                 rowSelection := rowSelection (state w);
                 pagination := pagination (state w) |};
            calls := calls w ++ [ColumnFiltersChanged next] |},
         callback next)
    | None =>
        ({| state :=
              {| sorting := sorting (state w);
                 columnFilters := next;
                 columnVisibility := columnVisibility (state w);
                 rowSelection := rowSelection (state w);
                 pagination := pagination (state w) |};
            calls := calls w |},
         Normal)
    end.
Proof.
  unfold onColumnFiltersChange, seq, setColumnFilters, modify, invoke, done.
  simpl.
  now destruct
    (Js.chainOpt serverSide ServerSideConfig.onColumnFiltersChange).
Qed.

Lemma onPaginationChange_run (serverSide : option ServerSideConfig.t)
  (updater : Updater PaginationState) (w : World) :
  let next := functionalUpdate updater (pagination (state w)) in
  onPaginationChange serverSide updater w
  = match Js.chainOpt serverSide ServerSideConfig.onPaginationChange with
    | Some callback =>
        ({| state :=
              {| sorting := sorting (state w);
                 columnFilters := columnFilters (state w);
                 columnVisibility := columnVisibility (state w);
                 rowSelection := rowSelection (state w);
                 pagination := next |};
            calls := calls w ++ [PaginationChanged next] |},
         callback next)
    | None =>
        ({| state :=
              {| sorting := sorting (state w);
                 columnFilters := columnFilters (state w);
                 columnVisibility := columnVisibility (state w);
                 rowSelection := rowSelection (state w);
                 pagination := next |};
            calls := calls w |},
         Normal)
    end.
Proof.
  unfold onPaginationChange, seq, setPagination, modify, invoke, done. simpl.
  now destruct (Js.chainOpt serverSide ServerSideConfig.onPaginationChange).
Qed.

(** The filtered rows depend on the state through the active filters
    only. *)
Lemma filteredRows_ext (lib : TableLibrary) (props : Props)
  (s s' : TableState) :
  columnFilters s' = columnFilters s ->
  filteredRows lib props s' = filteredRows lib props s.
Proof.
  intro E. unfold filteredRows. now rewrite E.
Qed.

(** C2: with sorting delegated and filtering local, a change of the sort
    state calls the sorting callback, once, with the new sort state, calls
    nothing else (so not the filtering callback), stores the new sort
    state, and leaves the active filters and the locally filtered rows as
    they were. *)
Theorem sorting_change_spares_filtering (lib : TableLibrary) (props : Props)
  (config : ServerSideConfig.t) (callback : SortingState -> completion)
  (updater : Updater SortingState) (w : World) :
  serverSide props = Some config ->
  manualSorting (serverSide props) = true ->
  manualFiltering (serverSide props) = false ->
  ServerSideConfig.onSortingChange config = Some callback ->
  let next := functionalUpdate updater (sorting (state w)) in
  let w' := fst (onSortingChange (serverSide props) updater w) in
  calls w' = calls w ++ [SortingChanged next]
  /\ sorting (state w') = next
  /\ columnFilters (state w') = columnFilters (state w)
  /\ filteredRows lib props (state w') = filteredRows lib props (state w)
  /\ filteredRows lib props (state w')
     = getFilteredRowModel lib
         (processedColumns (columns props) (filters props))
         (columnFilters (state w)) (data props).
Proof.
  intros Hconfig Hsort Hfilter Hcallback next w'.
  subst w'. rewrite onSortingChange_run. rewrite Hconfig. simpl.
  rewrite Hcallback. simpl.
  split; [reflexivity |]. split; [reflexivity |]. split; [reflexivity |].
  split.
  - now apply filteredRows_ext.
  - unfold filteredRows. now rewrite Hfilter.
Qed.

Lemma sorting_change_spares_filtering_witness :
  let props := Samples.adminProps Normal in
  let w' :=
    fst (onSortingChange (serverSide props)
           (Value Samples.byAgeDescending) Samples.adminsOnly) in
  calls w' = [SortingChanged Samples.byAgeDescending]
  /\ filteredRows Host.table props (state w')
     = [ [("role", Js.str "Admin"); ("age", Js.num (Js.Num 30))];
         [("role", Js.str "Admin"); ("age", Js.num (Js.Num 45))] ].
Proof.
  intros props w'.
  destruct (sorting_change_spares_filtering Host.table props
              (Samples.sortOnServer Normal) (fun _ => Normal)
              (Value Samples.byAgeDescending) Samples.adminsOnly)
    as [Hcalls [_ [_ [Hrows _]]]]; try reflexivity.
  split; [exact Hcalls |].
  fold props in Hrows. fold w' in Hrows. rewrite Hrows. reflexivity.
Defined.

(** C7, as the code has it: the sorting, column-filters and pagination
    setters store the new state and then complete as the configured
    callback does, so they return normally when there is no callback or
    the callback returns, and pass on what the callback throws; the
    column-visibility and row-selection setters call nothing and always
    return normally. *)
Theorem setters_complete_as_their_callback
  (serverSide : option ServerSideConfig.t) (w : World) :
  (forall updater : Updater SortingState,
      let next := functionalUpdate updater (sorting (state w)) in
      snd (onSortingChange serverSide updater w)
      = match Js.chainOpt serverSide ServerSideConfig.onSortingChange with
        | Some callback => callback next
        | None => Normal
        end
      /\ sorting (state (fst (onSortingChange serverSide updater w))) = next)
  /\ (forall updater : Updater ColumnFiltersState,
        let next := functionalUpdate updater (columnFilters (state w)) in
        snd (onColumnFiltersChange serverSide updater w)
        = match Js.chainOpt serverSide
                  ServerSideConfig.onColumnFiltersChange with
          | Some callback => callback next
          | None => Normal
          end
        /\ columnFilters
             (state (fst (onColumnFiltersChange serverSide updater w)))
           = next)
  /\ (forall updater : Updater PaginationState,
        let next := functionalUpdate updater (pagination (state w)) in
        snd (onPaginationChange serverSide updater w)
        = match Js.chainOpt serverSide
                  ServerSideConfig.onPaginationChange with
          | Some callback => callback next
          | None => Normal
          end
        /\ pagination
             (state (fst (onPaginationChange serverSide updater w)))
           = next)
  /\ (forall updater : Updater VisibilityState,
        onColumnVisibilityChange updater w
        = ({| state :=
                {| sorting := sorting (state w);
                   columnFilters := columnFilters (state w);
                   columnVisibility :=
                     functionalUpdate updater (columnVisibility (state w));
                   rowSelection := rowSelection (state w);
                   pagination := pagination (state w) |};
              calls := calls w |}, Normal))
  /\ onRowSelectionChange false = None
  /\ onRowSelectionChange true = Some setRowSelection
  /\ (forall updater : Updater RowSelectionState,
        setRowSelection updater w
        = ({| state :=
                {| sorting := sorting (state w);
                   columnFilters := columnFilters (state w);
                   columnVisibility := columnVisibility (state w);
                   rowSelection :=
                     functionalUpdate updater (rowSelection (state w));
                   pagination := pagination (state w) |};
              calls := calls w |}, Normal)).
Proof.
  repeat split.
  - rewrite onSortingChange_run.
    now destruct (Js.chainOpt serverSide ServerSideConfig.onSortingChange).
  - rewrite onSortingChange_run.
    now destruct (Js.chainOpt serverSide ServerSideConfig.onSortingChange).
  - rewrite onColumnFiltersChange_run.
    now destruct
      (Js.chainOpt serverSide ServerSideConfig.onColumnFiltersChange).
  - rewrite onColumnFiltersChange_run.
    now destruct
      (Js.chainOpt serverSide ServerSideConfig.onColumnFiltersChange).
  - rewrite onPaginationChange_run.
    now destruct
      (Js.chainOpt serverSide ServerSideConfig.onPaginationChange).
  - rewrite onPaginationChange_run.
    now destruct
      (Js.chainOpt serverSide ServerSideConfig.onPaginationChange).
Qed.

(** C7 as stated fails: when the sorting callback throws, so does the
    setter, the new sort state having been stored already. *)
Lemma onSortingChange_passes_on_a_throw :
  let outcome :=
    onSortingChange (Some (Samples.sortOnServer (Throws "fetch failed")))
      (Value Samples.byAgeDescending) Samples.adminsOnly in
  snd outcome = Throws "fetch failed"
  /\ sorting (state (fst outcome)) = Samples.byAgeDescending
  /\ calls (fst outcome) = [SortingChanged Samples.byAgeDescending].
Proof. repeat split. Qed.

End DataTableFacts.

(* ================================================================== *)
(** ** Properties of the users endpoint *)
(* ================================================================== *)

Module UsersApiFacts.

Import UsersApi.

(** *** The definitions on small inputs *)

Example parseInt_runs :
  Js.parseInt "25" = Js.Num 25
  /\ Js.parseInt "  -12px" = Js.Num (-12)
  /\ Js.parseInt "0x1f" = Js.Num 31
  /\ Js.parseInt "abc" = Js.NaN
  /\ Js.parseInt EmptyString = Js.NaN.
Proof. repeat split. Qed.

Example slice_runs :
  Js.slice [1; 2; 3; 4; 5] (Js.Num 1) (Js.Num 3) = [2; 3]
  /\ Js.slice [1; 2; 3; 4; 5] (Js.Num (-2)) (Js.Num 5) = [4; 5]
  /\ Js.slice [1; 2; 3; 4; 5] (Js.Num 10) (Js.Num 20) = []
  /\ Js.slice [1; 2; 3; 4; 5] Js.NaN Js.NaN = [].
Proof. repeat split. Qed.

Example sort_by_age_descending :
  map age (sortUsers Host.codeUnitCompare Host.isoDateParse
             Samples.threeUsers (Some "age") (Some "desc")) = [45; 30; 22].
Proof. reflexivity. Qed.

Example sort_without_key :
  sortUsers Host.codeUnitCompare Host.isoDateParse Samples.threeUsers
    None (Some "desc") = Samples.threeUsers.
Proof. reflexivity. Qed.

(** *** [Array.prototype.sort] under a consistent comparator *)

Section SortFacts.

Context {A : Type}.
Variable comparefn : A -> A -> Js.number.

Local Abbreviation cmp := (sortCompare comparefn).

(** A consistent comparator: swapping the arguments flips the sign, and
    "not after" is transitive. *)
Hypothesis cmp_antisym : forall x y, Z.sgn (cmp x y) = - Z.sgn (cmp y x).
Hypothesis cmp_trans :
  forall x y z, cmp x y <= 0 -> cmp y z <= 0 -> cmp x z <= 0.

Lemma cmp_flip (x y : A) : 0 < cmp x y -> cmp y x <= 0.
Proof. intro H. pose proof (cmp_antisym x y). lia. Qed.

Lemma tied_sym (x y : A) : tied comparefn x y = true -> cmp y x = 0.
Proof.
  unfold tied. intro H. apply Z.eqb_eq in H.
  pose proof (cmp_antisym x y). lia.
Qed.

Lemma insert_perm (x : A) (l : list A) :
  Permutation (insert comparefn x l) (x :: l).
Proof.
  induction l as [| y rest IH]; simpl; [reflexivity |].
  destruct (cmp x y <=? 0); [reflexivity |].
  rewrite IH. apply perm_swap.
Qed.

Lemma sort_perm (l : list A) : Permutation (sort comparefn l) l.
Proof.
  induction l as [| x rest IH]; simpl; [reflexivity |].
  rewrite insert_perm. now rewrite IH.
Qed.

Lemma insert_sorted (x : A) (l : list A) :
  StronglySorted (notAfter comparefn) l -> StronglySorted (notAfter comparefn) (insert comparefn x l).
Proof.
  induction 1 as [| y rest Hsorted IH Hy]; simpl.
  - repeat constructor.
  - destruct (Z.leb_spec (cmp x y) 0) as [Hle | Hgt].
    + constructor; [now constructor |].
      constructor; [exact Hle |].
      eapply Forall_impl; [| exact Hy].
      intros z Hz. now apply cmp_trans with y.
    + constructor; [exact IH |].
      apply (Permutation_Forall (x := x :: rest)).
      * symmetry. apply insert_perm.
      * constructor; [now apply cmp_flip | exact Hy].
Qed.

Lemma sort_sorted (l : list A) : StronglySorted (notAfter comparefn) (sort comparefn l).
Proof.
  induction l as [| x rest IH]; simpl; [constructor |].
  now apply insert_sorted.
Qed.

(** Sorting is stable: the rows tied with any given row keep the order
    they had. *)
Lemma insert_stable (z x : A) (l : list A) :
  filter (tied comparefn z) (insert comparefn x l) = filter (tied comparefn z) (x :: l).
Proof.
  induction l as [| y rest IH]; [reflexivity |].
  simpl insert. destruct (Z.leb_spec (cmp x y) 0) as [Hle | Hgt];
    [reflexivity |].
  simpl filter at 1. rewrite IH. simpl.
  destruct (tied comparefn z x) eqn:Hx, (tied comparefn z y) eqn:Hy; try reflexivity.
  exfalso.
  assert (cmp x z = 0) by now apply tied_sym.
  assert (cmp z y = 0) by (unfold tied in Hy; now apply Z.eqb_eq in Hy).
  assert (cmp x y <= 0) by (apply cmp_trans with z; lia).
  lia.
Qed.

Lemma sort_stable (z : A) (l : list A) :
  filter (tied comparefn z) (sort comparefn l) = filter (tied comparefn z) l.
Proof.
  induction l as [| x rest IH]; [reflexivity |].
  simpl sort. rewrite insert_stable. simpl. now rewrite IH.
Qed.

(** Sorting a sorted array changes nothing. *)
Lemma sort_sorted_id (l : list A) :
  StronglySorted (notAfter comparefn) l -> sort comparefn l = l.
Proof.
  induction 1 as [| x rest Hsorted IH Hx]; [reflexivity |].
  simpl. rewrite IH.
  destruct rest as [| y rest']; [reflexivity |].
  simpl. inversion Hx as [| ? ? Hxy _]; subst.
  unfold notAfter in Hxy. apply Z.leb_le in Hxy. now rewrite Hxy.
Qed.

Lemma sort_idempotent (l : list A) :
  sort comparefn (sort comparefn l) = sort comparefn l.
Proof. apply sort_sorted_id, sort_sorted. Qed.

Lemma tied_refl (x : A) : tied comparefn x x = true.
Proof.
  unfold tied. apply Z.eqb_eq. pose proof (cmp_antisym x x). lia.
Qed.

Lemma filter_tied_head (x : A) (l : list A) :
  filter (tied comparefn x) (x :: l) = x :: filter (tied comparefn x) l.
Proof. simpl. now rewrite tied_refl. Qed.

(** A sorted array is determined by the order of its ties: whatever
    algorithm the engine runs, a stable sort can only return [sort]. *)
Lemma stable_sorted_unique (l1 l2 : list A) :
  StronglySorted (notAfter comparefn) l1 ->
  StronglySorted (notAfter comparefn) l2 ->
  (forall z, filter (tied comparefn z) l1 = filter (tied comparefn z) l2) ->
  l1 = l2.
Proof.
  revert l2. induction l1 as [| x r1 IH]; intros l2 Hs1 Hs2 Hties.
  - destruct l2 as [| y r2]; [reflexivity |].
    specialize (Hties y). rewrite filter_tied_head in Hties. discriminate.
  - destruct l2 as [| y r2].
    { specialize (Hties x). rewrite filter_tied_head in Hties.
      discriminate. }
    apply StronglySorted_inv in Hs1. destruct Hs1 as [Hs1 Hx].
    apply StronglySorted_inv in Hs2. destruct Hs2 as [Hs2 Hy].
    assert (Heq : y = x).
    { pose proof (Hties x) as Tx. rewrite filter_tied_head in Tx.
      simpl in Tx. destruct (tied comparefn x y) eqn:Exy.
      - now injection Tx.
      - assert (Hin : In x r2).
        { apply (proj1 (filter_In (tied comparefn x) x r2)).
          rewrite <- Tx. now left. }
        pose proof (Hties y) as Ty. rewrite filter_tied_head in Ty.
        simpl in Ty. destruct (tied comparefn y x) eqn:Eyx.
        + now injection Ty.
        + assert (Hin' : In y r1).
          { apply (proj1 (filter_In (tied comparefn y) y r1)).
            rewrite Ty. now left. }
          rewrite Forall_forall in Hx, Hy.
          pose proof (Hx y Hin') as Hxy. pose proof (Hy x Hin) as Hyx.
          unfold notAfter in Hxy, Hyx. unfold tied in Exy.
          apply Z.eqb_neq in Exy. pose proof (cmp_antisym x y). lia. }
    subst y. f_equal. apply IH; try assumption.
    intro z. specialize (Hties z). simpl in Hties.
    destruct (tied comparefn z x); [now injection Hties | exact Hties].
Qed.

Lemma stable_sort_unique (l sorted : list A) :
  StronglySorted (notAfter comparefn) sorted ->
  (forall z, filter (tied comparefn z) sorted = filter (tied comparefn z) l) ->
  sorted = sort comparefn l.
Proof.
  intros Hsorted Hties. apply stable_sorted_unique.
  - exact Hsorted.
  - apply sort_sorted.
  - intro z. rewrite Hties. symmetry. apply sort_stable.
Qed.

End SortFacts.

(** *** [sortUsers] *)

Section SortUsersFacts.

Variable localeCompare : string -> string -> Z.
Variable Date_parse : string -> Js.number.

(** [localeCompare] is taken to be a consistent comparator. *)
Hypothesis localeCompare_antisym :
  forall a b, Z.sgn (localeCompare a b) = - Z.sgn (localeCompare b a).
Hypothesis localeCompare_trans :
  forall a b c,
    localeCompare a b <= 0 -> localeCompare b c <= 0 ->
    localeCompare a c <= 0.

Local Abbreviation compareUsers := (compareUsers localeCompare Date_parse).
Local Abbreviation compareValues := (compareValues localeCompare Date_parse).
Local Abbreviation sortUsers := (sortUsers localeCompare Date_parse).

(** On users every key is read with one type: the comparator is either
    [localeCompare] on a string read from each row, or a difference of
    numbers. *)
Lemma compareUsers_shape (key : string) :
  (exists f : User -> string,
      forall a b, compareUsers key a b = Js.Num (localeCompare (f a) (f b)))
  \/ (exists g : User -> Z,
        forall a b, compareUsers key a b = Js.Num (g a - g b)).
Proof.
  unfold UsersApi.compareUsers, UsersApi.compareValues, prop.
  destruct (key =? "id")%string; [right; exists id; reflexivity |].
  destruct (key =? "name")%string; [left; exists name; reflexivity |].
  destruct (key =? "email")%string; [left; exists email; reflexivity |].
  destruct (key =? "role")%string; [left; exists role; reflexivity |].
  destruct (key =? "status")%string; [left; exists status; reflexivity |].
  destruct (key =? "createdAt")%string eqn:E;
    [left; exists createdAt; reflexivity |].
  destruct (key =? "age")%string; [right; exists age; reflexivity |].
  left. exists (fun _ => "undefined"). reflexivity.
Qed.

Lemma compareUsers_antisym (key : string) (a b : User) :
  Z.sgn (sortCompare (compareUsers key) a b)
  = - Z.sgn (sortCompare (compareUsers key) b a).
Proof.
  unfold sortCompare.
  destruct (compareUsers_shape key) as [[f Hf] | [g Hg]].
  - rewrite !Hf. apply localeCompare_antisym.
  - rewrite !Hg. lia.
Qed.

Lemma compareUsers_trans (key : string) (a b c : User) :
  sortCompare (compareUsers key) a b <= 0 ->
  sortCompare (compareUsers key) b c <= 0 ->
  sortCompare (compareUsers key) a c <= 0.
Proof.
  unfold sortCompare.
  destruct (compareUsers_shape key) as [[f Hf] | [g Hg]].
  - rewrite !Hf. apply localeCompare_trans.
  - rewrite !Hg. lia.
Qed.

Lemma sortUsers_ascending (users : list User) (key : string)
  (order : option string) :
  key <> EmptyString -> order <> Some "desc" ->
  sortUsers users (Some key) order = sort (compareUsers key) users.
Proof.
  intros Hkey Horder. unfold UsersApi.sortUsers.
  apply String.eqb_neq in Hkey. rewrite Hkey.
  destruct order as [o |]; [| reflexivity].
  destruct (String.eqb_spec o "desc"); [congruence | reflexivity].
Qed.

Lemma sortUsers_descending (users : list User) (key : string) :
  key <> EmptyString ->
  sortUsers users (Some key) (Some "desc")
  = rev (sort (compareUsers key) users).
Proof.
  intros Hkey. unfold UsersApi.sortUsers.
  apply String.eqb_neq in Hkey. now rewrite Hkey.
Qed.

End SortUsersFacts.

(** The reference comparison of strings is consistent. *)
Lemma codeUnitCompare_antisym (a b : string) :
  Z.sgn (Host.codeUnitCompare a b) = - Z.sgn (Host.codeUnitCompare b a).
Proof.
  unfold Host.codeUnitCompare. rewrite (String.compare_antisym a b).
  now destruct (String.compare b a).
Qed.

Lemma codeUnitCompare_le (a b : string) :
  Host.codeUnitCompare a b <= 0 <-> a = b \/ String_as_OT.lt a b.
Proof.
  unfold Host.codeUnitCompare.
  destruct (String.compare a b) eqn:E.
  - apply String_as_OT.cmp_eq in E. intuition lia.
  - apply String_as_OT.cmp_lt in E. intuition lia.
  - split; [lia |]. intros [-> | Hlt].
    + assert (String.compare b b = Eq) by now apply String_as_OT.cmp_eq.
      congruence.
    + apply String_as_OT.cmp_lt in Hlt.
      unfold String_as_OT.cmp in Hlt. congruence.
Qed.

Lemma codeUnitCompare_trans (a b c : string) :
  Host.codeUnitCompare a b <= 0 -> Host.codeUnitCompare b c <= 0 ->
  Host.codeUnitCompare a c <= 0.
Proof.
  rewrite !codeUnitCompare_le.
  intros [-> | Hab] [-> | Hbc]; auto.
  right. now apply String_as_OT.lt_trans with b.
Qed.

(** C6, as the code has it: the comparator is [localeCompare] on two
    strings, the difference on two numbers and, for [createdAt] values of
    other or mixed types, the difference of their time values (on the
    endpoint's users [createdAt] is a string and is compared as one).
    Ascending
    order is a stable sort of the input: a permutation, in order, in which
    rows that compare equal keep their input order.  Descending order is
    the reverse of the ascending result, so rows that compare equal appear
    in the reverse of their input order.  Sorting the ascending result in
    descending order reverses it, and reversing the descending result gives
    the ascending one back. *)
Theorem sortUsers_ascending_stable_descending_reversed
  (localeCompare : string -> string -> Z)
  (Date_parse : string -> Js.number)
  (users : list User) (key : string) :
  (forall a b, Z.sgn (localeCompare a b) = - Z.sgn (localeCompare b a)) ->
  (forall a b c,
      localeCompare a b <= 0 -> localeCompare b c <= 0 ->
      localeCompare a c <= 0) ->
  key <> EmptyString ->
  let compare := compareUsers localeCompare Date_parse key in
  let ascending :=
    sortUsers localeCompare Date_parse users (Some key) (Some "asc") in
  let descending :=
    sortUsers localeCompare Date_parse users (Some key) (Some "desc") in
  (forall sortBy x y,
      compareValues localeCompare Date_parse sortBy (Js.str x) (Js.str y)
      = Js.Num (localeCompare x y))
  /\ (forall sortBy x y,
        compareValues localeCompare Date_parse sortBy (Js.num x) (Js.num y)
        = Js.sub x y)
  /\ (forall a b,
        Js.isString a && Js.isString b = false ->
        Js.isNumber a && Js.isNumber b = false ->
        compareValues localeCompare Date_parse "createdAt" a b
        = Js.sub (Js.getTime (Js.newDate Date_parse a))
                 (Js.getTime (Js.newDate Date_parse b)))
  /\ (forall sortBy a b,
        Js.isString a && Js.isString b = false ->
        Js.isNumber a && Js.isNumber b = false ->
        sortBy <> "createdAt" ->
        compareValues localeCompare Date_parse sortBy a b
        = Js.Num (localeCompare (String_ a) (String_ b)))
  /\ (forall a b,
        compareUsers localeCompare Date_parse "age" a b
        = Js.Num (age a - age b)
        /\ compareUsers localeCompare Date_parse "name" a b
           = Js.Num (localeCompare (name a) (name b))
        /\ compareUsers localeCompare Date_parse "createdAt" a b
           = Js.Num (localeCompare (createdAt a) (createdAt b)))
  /\ sortUsers localeCompare Date_parse users (Some key) None = ascending
  /\ Permutation ascending users
  /\ StronglySorted (notAfter compare) ascending
  /\ (forall u, filter (tied compare u) ascending
                = filter (tied compare u) users)
  /\ descending = rev ascending
  /\ (forall u, filter (tied compare u) descending
                = rev (filter (tied compare u) users))
  /\ sortUsers localeCompare Date_parse ascending (Some key) (Some "desc")
     = rev ascending
  /\ rev descending = ascending.
Proof.
  intros Hanti Htrans Hkey compare ascending descending.
  assert (Hasc : ascending = sort compare users)
    by (apply sortUsers_ascending; [exact Hkey | discriminate]).
  assert (Hdesc : descending = rev (sort compare users))
    by (now apply sortUsers_descending).
  assert (Ha : forall x y,
             Z.sgn (sortCompare compare x y)
             = - Z.sgn (sortCompare compare y x))
    by (intros x y; now apply compareUsers_antisym).
  assert (Ht : forall x y z,
             sortCompare compare x y <= 0 -> sortCompare compare y z <= 0 ->
             sortCompare compare x z <= 0)
    by (intros x y z; now apply compareUsers_trans).
  split; [reflexivity |].
  split; [reflexivity |].
  split.
  { intros a b Hs Hn. unfold compareValues. now rewrite Hs, Hn. }
  split.
  { intros sortBy a b Hs Hn Hother. unfold compareValues.
    rewrite Hs, Hn. apply String.eqb_neq in Hother. now rewrite Hother. }
  split; [intros a b; repeat split |].
  split.
  { rewrite Hasc. apply sortUsers_ascending; [exact Hkey | discriminate]. }
  split; [rewrite Hasc; apply sort_perm |].
  split; [rewrite Hasc; now apply sort_sorted |].
  split; [intro u; rewrite Hasc; now apply sort_stable |].
  split; [now rewrite Hdesc, Hasc |].
  split.
  { intro u. rewrite Hdesc, filter_rev. f_equal. now apply sort_stable. }
  split.
  { rewrite sortUsers_descending by exact Hkey.
    fold compare. rewrite Hasc. f_equal. now apply sort_idempotent. }
  rewrite Hdesc, Hasc. apply rev_involutive.
Qed.

(** By age, the three sample users come out as 22, 30, 45 and, in
    descending order, as 45, 30, 22. *)
Lemma sortUsers_ascending_stable_descending_reversed_witness :
  map age (sortUsers Host.codeUnitCompare Host.isoDateParse
             Samples.threeUsers (Some "age") (Some "asc")) = [22; 30; 45]
  /\ map age (sortUsers Host.codeUnitCompare Host.isoDateParse
                Samples.threeUsers (Some "age") (Some "desc"))
     = [45; 30; 22]
  /\ sortUsers Host.codeUnitCompare Host.isoDateParse Samples.threeUsers
       (Some "age") (Some "desc")
     = rev (sortUsers Host.codeUnitCompare Host.isoDateParse
              Samples.threeUsers (Some "age") (Some "asc")).
Proof.
  destruct (sortUsers_ascending_stable_descending_reversed
              Host.codeUnitCompare Host.isoDateParse Samples.threeUsers "age"
              codeUnitCompare_antisym codeUnitCompare_trans)
    as [_ [_ [_ [_ [_ [_ [_ [_ [_ [Hrev _]]]]]]]]]].
  - discriminate.
  - split; [reflexivity |]. split; [reflexivity | exact Hrev].
Defined.

(** C6 as stated fails: in descending order two users of the same age
    come out in the reverse of their input order, so ties are not kept
    stable; and sorting that result in ascending order again leaves the
    two swapped with respect to the first ascending order. *)
Lemma sortUsers_descending_reverses_ties :
  let sortUsers := sortUsers Host.codeUnitCompare Host.isoDateParse in
  let ascending := sortUsers Samples.sameAgeUsers (Some "age") (Some "asc") in
  let descending :=
    sortUsers Samples.sameAgeUsers (Some "age") (Some "desc") in
  map name Samples.sameAgeUsers = ["Ann"; "Bob"; "Cy"]
  /\ map age Samples.sameAgeUsers = [30; 30; 22]
  /\ map name ascending = ["Cy"; "Ann"; "Bob"]
  /\ map name descending = ["Bob"; "Ann"; "Cy"]
  /\ map name (sortUsers descending (Some "age") (Some "asc"))
     = ["Cy"; "Bob"; "Ann"].
Proof. repeat split. Qed.

(** *** The pagination slice *)

Lemma slice_window {A : Type} (arr : list A) (start count : Z) :
  0 <= start -> 0 <= count ->
  Js.slice arr (Js.Num start) (Js.Num (start + count))
  = firstn (Z.to_nat count) (skipn (Z.to_nat start) arr).
Proof.
  intros Hstart Hcount. unfold Js.slice, Js.relativeIndex. simpl.
  set (len := Z.of_nat (List.length arr)).
  assert (Hlen : List.length arr = Z.to_nat len) by (subst len; lia).
  destruct (Z.ltb_spec start 0) as [? | _]; [lia |].
  destruct (Z.ltb_spec (start + count) 0) as [? | _]; [lia |].
  destruct (Z.le_gt_cases start len) as [Hin | Hout].
  - rewrite (Z.min_l start len) by exact Hin.
    destruct (Z.le_gt_cases (start + count) len) as [Hfit | Hcut].
    + rewrite Z.min_l by exact Hfit. do 2 f_equal. lia.
    + rewrite Z.min_r by lia.
      rewrite !firstn_all2; [reflexivity | |]; rewrite length_skipn; lia.
  - rewrite !Z.min_r by lia.
    replace (Z.to_nat (len - len)) with 0%nat by lia. simpl.
    rewrite (skipn_all2 (n := Z.to_nat start)) by lia.
    now rewrite firstn_nil.
Qed.




(** *** The age range of the endpoint and the number filter of the table *)

Lemma filterByAge_without_bounds (users : list User)
  (params : SearchParams) :
  given (minAge params) = false -> given (maxAge params) = false ->
  filterByAge users params = users.
Proof. intros Hmin Hmax. unfold filterByAge. now rewrite Hmin, Hmax. Qed.

Lemma filterByAge_with_bounds (users : list User) (params : SearchParams)
  (lower upper : Z) :
  given (minAge params) = true \/ given (maxAge params) = true ->
  minAgeOf params = Js.Num lower -> maxAgeOf params = Js.Num upper ->
  filterByAge users params
  = filter (fun user => (lower <=? age user) && (age user <=? upper)) users.
Proof.
  intros Hgiven Hlower Hupper. unfold filterByAge.
  replace (given (minAge params) || given (maxAge params)) with true
    by (symmetry; apply orb_true_iff; exact Hgiven).
  apply filter_ext. intro user.
  unfold ageInRange. now rewrite Hlower, Hupper.
Qed.

Lemma filterByAge_unparsable (users : list User) (params : SearchParams) :
  given (minAge params) = true \/ given (maxAge params) = true ->
  minAgeOf params = Js.NaN \/ maxAgeOf params = Js.NaN ->
  filterByAge users params = [].
Proof.
  intros Hgiven Hnan. unfold filterByAge.
  replace (given (minAge params) || given (maxAge params)) with true
    by (symmetry; apply orb_true_iff; exact Hgiven).
  induction users as [| user rest IH]; [reflexivity |].
  simpl. rewrite IH.
  replace (ageInRange params user) with false; [reflexivity |].
  symmetry. unfold ageInRange, Js.ge, Js.le.
  destruct Hnan as [-> | ->]; [reflexivity | apply andb_false_r].
Qed.

(** C5, as the code has it: a number declaration binds no predicate (the
    processed columns are those obtained without any number declaration)
    and its control hands the typed text to the table as the filter value,
    not a pair of bounds.  Inclusive bounds on a number exist only in the
    endpoint's age filter, and only when [minAge] or [maxAge] is given
    (not empty): the users kept are then exactly those whose age lies
    between the two bounds, in their order, a bound that is not given
    standing for 0 and 999 and a given one being read with [parseInt]; a
    bound that does not read as a number leaves no user.  With neither
    bound given every user is kept, whatever the age.  With [minAge=25]
    the ages 30, 22, 45 leave 30 and 45. *)
Theorem number_declaration_binds_no_predicate :
  (forall (columns : list DataTable.ColumnDef.t)
          (filters : list DataTable.FilterConfig),
      DataTable.processedColumns columns filters
      = DataTable.processedColumns columns
          (filter (fun f => negb (DataTable.FilterType_eqb
                                    (DataTable.type f) DataTable.number))
             filters))
  /\ (forall input : string,
        DataTable.numberOnChange input
        = Some (DataTable.TextValue input))
  /\ (forall (users : list User) (params : SearchParams),
        given (minAge params) = false -> given (maxAge params) = false ->
        filterByAge users params = users)
  /\ (forall (users : list User) (params : SearchParams) (lower upper : Z),
        given (minAge params) = true \/ given (maxAge params) = true ->
        minAgeOf params = Js.Num lower -> maxAgeOf params = Js.Num upper ->
        filterByAge users params
        = filter (fun user => (lower <=? age user) && (age user <=? upper))
            users
        /\ forall user,
             In user (filterByAge users params)
             <-> In user users /\ lower <= age user <= upper)
  /\ (forall (users : list User) (params : SearchParams),
        given (minAge params) = true \/ given (maxAge params) = true ->
        minAgeOf params = Js.NaN \/ maxAgeOf params = Js.NaN ->
        filterByAge users params = [])
  /\ (forall params : SearchParams,
        (given (minAge params) = false -> minAgeOf params = Js.Num 0)
        /\ (given (maxAge params) = false -> maxAgeOf params = Js.Num 999)
        /\ (forall bound, minAge params = Some bound -> bound <> EmptyString ->
                          minAgeOf params = Js.parseInt bound)
        /\ (forall bound, maxAge params = Some bound -> bound <> EmptyString ->
                          maxAgeOf params = Js.parseInt bound))
  /\ map age (filterByAge Samples.threeUsers Samples.fromAge25) = [30; 45].
Proof.
  split.
  { intros columns filters. unfold DataTable.processedColumns.
    now rewrite !DataTableFacts.processColumn_without_number
      by discriminate. }
  split; [reflexivity |].
  split; [exact filterByAge_without_bounds |].
  split.
  { intros users params lower upper Hgiven Hlower Hupper.
    rewrite (filterByAge_with_bounds users params lower upper)
      by assumption.
    split; [reflexivity |].
    intro user. rewrite filter_In, andb_true_iff, !Z.leb_le. reflexivity. }
  split; [exact filterByAge_unparsable |].
  split; [| reflexivity].
  intro params. unfold minAgeOf, maxAgeOf, given.
  split; [| split; [| split]].
  - destruct (minAge params) as [s |]; [| reflexivity].
    destruct (s =? EmptyString)%string; [reflexivity | discriminate].
  - destruct (maxAge params) as [s |]; [| reflexivity].
    destruct (s =? EmptyString)%string; [reflexivity | discriminate].
  - intros bound -> Hne. apply String.eqb_neq in Hne. now rewrite Hne.
  - intros bound -> Hne. apply String.eqb_neq in Hne. now rewrite Hne.
Qed.

(** With [minAge=25] the user aged 30 is kept and the one aged 22 is not;
    with no bound a user aged 1000 is kept. *)
Lemma number_declaration_binds_no_predicate_witness :
  (In (Samples.user 1 "Ann" "Admin" 30)
      (filterByAge Samples.threeUsers Samples.fromAge25)
   /\ ~ In (Samples.user 2 "Bob" "User" 22)
          (filterByAge Samples.threeUsers Samples.fromAge25))
  /\ filterByAge [Samples.user 9 "Old" "User" 1000] Samples.noParams
     = [Samples.user 9 "Old" "User" 1000].
Proof.
  destruct number_declaration_binds_no_predicate
    as [_ [_ [Hnone [Hrange _]]]].
  destruct (Hrange Samples.threeUsers Samples.fromAge25 25 999
              (or_introl eq_refl) eq_refl eq_refl) as [_ Hkept].
  split; [split |].
  - apply Hkept. split; [simpl; auto | simpl; lia].
  - intro Hin. apply Hkept in Hin. simpl in Hin. lia.
  - exact (Hnone [Samples.user 9 "Old" "User" 1000] Samples.noParams
             eq_refl eq_refl).
Defined.

(** C5 as stated fails: the age column declared with a number filter
    comes out of the binder as it went in, without a predicate, and the
    control's value for the input 25 is the text, not a lower bound. *)
Lemma number_filter_has_no_bounds :
  DataTable.processedColumns [Samples.ageColumn] [Samples.ageFilter]
  = [Samples.ageColumn]
  /\ DataTable.ColumnDef.filterFn Samples.ageColumn = None
  /\ DataTable.numberOnChange "25" = Some (DataTable.TextValue "25").
Proof. repeat split. Qed.

End UsersApiFacts.

(* ================================================================== *)
(** ** Further properties of the DataTable component *)
(* ================================================================== *)

Module DataTableExtras.

Import DataTable.

(** *** The binder *)

Lemma normalizedId_processColumn (s m d : list string) (c : ColumnDef.t) :
  normalizedId (processColumn s m d c) = normalizedId c.
Proof.
  unfold processColumn.
  destruct (idIn (normalizedId c) s); [reflexivity |].
  destruct (idIn (normalizedId c) m); [reflexivity |].
  destruct (idIn (normalizedId c) d); reflexivity.
Qed.

Lemma processColumn_idempotent (s m d : list string) (c : ColumnDef.t) :
  processColumn s m d (processColumn s m d c) = processColumn s m d c.
Proof.
  unfold processColumn at 1. rewrite normalizedId_processColumn.
  unfold processColumn.
  destruct (idIn (normalizedId c) s); [reflexivity |].
  destruct (idIn (normalizedId c) m); [reflexivity |].
  destruct (idIn (normalizedId c) d); reflexivity.
Qed.

(** X1: binding is idempotent: processing columns that were already
    processed with the same declarations changes nothing. *)
Theorem processedColumns_idempotent (columns : list ColumnDef.t)
  (filters : list FilterConfig) :
  processedColumns (processedColumns columns filters) filters
  = processedColumns columns filters.
Proof.
  unfold processedColumns. rewrite map_map. apply map_ext.
  intro c. apply processColumn_idempotent.
Qed.

(** X2: the binder touches nothing but the predicate: the processed
    columns are the given ones, one for one and in order, each either
    unchanged or carrying one of the component's three predicates in place
    of its own; identifier, accessor key and header are kept. *)
Theorem processedColumns_only_rebinds (columns : list ColumnDef.t)
  (filters : list FilterConfig) :
  Forall2
    (fun before after =>
       (after = before
        \/ after = ColumnDef.withFilterFn before ExactMatchFilter
        \/ after = ColumnDef.withFilterFn before MultiSelectFilter
        \/ after = ColumnDef.withFilterFn before DateRangeFilter)
       /\ ColumnDef.id after = ColumnDef.id before
       /\ ColumnDef.accessorKey after = ColumnDef.accessorKey before
       /\ ColumnDef.header after = ColumnDef.header before)
    columns (processedColumns columns filters).
Proof.
  unfold processedColumns.
  induction columns as [| c rest IH]; simpl; constructor; [| exact IH].
  unfold processColumn.
  destruct (idIn _ _); [now intuition |].
  destruct (idIn _ _); [now intuition |].
  destruct (idIn _ _); now intuition.
Qed.

(** A column identifier is in the set built for a filter type exactly when
    it is not empty and some declaration of that type names it. *)
Lemma idIn_declared (key : string) (filters : list FilterConfig)
  (ty : FilterType) :
  idIn (Some key) (filterColumnIds filters ty) = true
  <-> key <> EmptyString
      /\ exists f, In f filters /\ type f = ty /\ columnId f = key.
Proof.
  unfold idIn, has, filterColumnIds.
  rewrite andb_true_iff, negb_true_iff, String.eqb_neq, existsb_exists.
  split.
  - intros [Hne [k [Hin Heq]]]. split; [exact Hne |].
    apply String.eqb_eq in Heq. subst k.
    apply in_map_iff in Hin. destruct Hin as [f [Hcol Hf]].
    apply filter_In in Hf. destruct Hf as [Hf Hty].
    exists f. repeat split; try assumption.
    destruct (type f), ty; simpl in Hty; congruence.
  - intros [Hne [f [Hin [Hty Hcol]]]]. split; [exact Hne |].
    exists key. split; [| apply String.eqb_refl].
    apply in_map_iff. exists f. split; [exact Hcol |].
    apply filter_In. split; [exact Hin |].
    rewrite Hty. now destruct ty.
Qed.

Lemma idIn_undeclared (nid : option string) (filters : list FilterConfig)
  (ty : FilterType) :
  (forall f, In f filters -> type f = ty -> Some (columnId f) <> nid) ->
  idIn nid (filterColumnIds filters ty) = false.
Proof.
  intro Hnone. destruct nid as [key |]; [| reflexivity].
  apply not_true_is_false. intro H.
  apply idIn_declared in H. destruct H as [_ [f [Hin [Hty Hcol]]]].
  apply (Hnone f Hin Hty). now rewrite Hcol.
Qed.

(** X3: when several declarations name the same column, select wins over
    multiSelect and multiSelect over dateRange: a column named by a
    multiSelect declaration and by no select declaration carries
    [multiSelectFilter], whatever dateRange declarations name it too; a
    column named by a dateRange declaration and by neither of the other
    two carries [dateRangeFilter]. *)
Theorem binder_precedence (columns : list ColumnDef.t)
  (filters : list FilterConfig) (f : FilterConfig) (column : ColumnDef.t) :
  In column columns ->
  In f filters ->
  columnId f <> EmptyString ->
  normalizedId column = Some (columnId f) ->
  (forall g, In g filters -> type g = select -> columnId g <> columnId f) ->
  (type f = multiSelect ->
   In (ColumnDef.withFilterFn column MultiSelectFilter)
      (processedColumns columns filters))
  /\ (type f = dateRange ->
      (forall g, In g filters -> type g = multiSelect ->
                 columnId g <> columnId f) ->
      In (ColumnDef.withFilterFn column DateRangeFilter)
         (processedColumns columns filters)).
Proof.
  intros Hcol Hin Hne Hid Hnoselect.
  assert (Hsel : idIn (normalizedId column) (filterColumnIds filters select)
                 = false).
  { apply idIn_undeclared. intros g Hg Hty. rewrite Hid.
    intro E. injection E as E. now apply (Hnoselect g Hg Hty). }
  split.
  - intro Hty. unfold processedColumns. apply in_map_iff.
    exists column. split; [| exact Hcol].
    unfold processColumn. rewrite Hsel.
    replace (idIn (normalizedId column)
               (filterColumnIds filters multiSelect)) with true;
      [reflexivity |].
    symmetry. rewrite Hid. apply idIn_declared.
    split; [exact Hne |]. now exists f.
  - intros Hty Hnomulti. unfold processedColumns. apply in_map_iff.
    exists column. split; [| exact Hcol].
    unfold processColumn. rewrite Hsel.
    replace (idIn (normalizedId column)
               (filterColumnIds filters multiSelect)) with false.
    + replace (idIn (normalizedId column)
                 (filterColumnIds filters dateRange)) with true;
        [reflexivity |].
      symmetry. rewrite Hid. apply idIn_declared.
      split; [exact Hne |]. now exists f.
    + symmetry. apply idIn_undeclared. intros g Hg Hgty. rewrite Hid.
      intro E. injection E as E. now apply (Hnomulti g Hg Hgty).
Qed.

Lemma binder_precedence_witness :
  In (ColumnDef.withFilterFn Samples.roleColumn MultiSelectFilter)
     (processedColumns [Samples.statusColumn; Samples.roleColumn]
        [Samples.roleDateFilter; Samples.roleFilter; Samples.statusFilter]).
Proof.
  refine (proj1 (binder_precedence
                   [Samples.statusColumn; Samples.roleColumn]
                   [Samples.roleDateFilter; Samples.roleFilter;
                    Samples.statusFilter]
                   Samples.roleFilter Samples.roleColumn _ _ _ _ _) _).
  - simpl. auto.
  - simpl. auto.
  - discriminate.
  - reflexivity.
  - intros g [<- | [<- | [<- | []]]]; simpl; intros; discriminate.
  - reflexivity.
Defined.

(** X4: a column that no select, multiSelect or dateRange declaration
    names comes out exactly as it went in, its own predicate included,
    whatever text and number declarations name it; so does every column
    whose identifier is absent or empty. *)
Theorem untargeted_column_is_unchanged (filters : list FilterConfig)
  (column : ColumnDef.t) :
  (forall f, In f filters ->
             Some (columnId f) = normalizedId column ->
             type f = text \/ type f = number)
  \/ normalizedId column = None
  \/ normalizedId column = Some EmptyString ->
  processColumn (filterColumnIds filters select)
    (filterColumnIds filters multiSelect)
    (filterColumnIds filters dateRange) column
  = column.
Proof.
  intros [Hfree | [Hnone | Hempty]]; unfold processColumn.
  - rewrite !idIn_undeclared; [reflexivity | | |];
      intros f Hin Hty E; destruct (Hfree f Hin E); congruence.
  - now rewrite Hnone.
  - now rewrite Hempty.
Qed.

Lemma untargeted_column_is_unchanged_witness :
  processedColumns [Samples.nameColumn]
    [Samples.nameFilter; Samples.statusFilter]
  = [Samples.nameColumn].
Proof.
  unfold processedColumns. simpl map at 1.
  rewrite (untargeted_column_is_unchanged
             [Samples.nameFilter; Samples.statusFilter] Samples.nameColumn);
    [reflexivity |].
  left. intros f [<- | [<- | []]]; simpl; intro E;
    [now left | discriminate].
Defined.

(** X5: the binding depends on which declarations are present, not on
    their order or on repetitions. *)
Theorem processedColumns_same_declarations (columns : list ColumnDef.t)
  (filters filters' : list FilterConfig) :
  (forall f, In f filters <-> In f filters') ->
  processedColumns columns filters = processedColumns columns filters'.
Proof.
  intro Hsame.
  assert (Hid : forall nid ty,
             idIn nid (filterColumnIds filters ty)
             = idIn nid (filterColumnIds filters' ty)).
  { intros [key |] ty; [| reflexivity].
    apply eq_true_iff_eq. rewrite !idIn_declared.
    split; intros [Hne [f [Hin Hrest]]]; (split; [exact Hne |]);
      exists f; (split; [now apply Hsame | exact Hrest]). }
  unfold processedColumns. apply map_ext. intro c.
  unfold processColumn. now rewrite !Hid.
Qed.

Lemma processedColumns_same_declarations_witness :
  processedColumns [Samples.statusColumn; Samples.roleColumn]
    [Samples.roleFilter; Samples.statusFilter; Samples.roleFilter]
  = processedColumns [Samples.statusColumn; Samples.roleColumn]
      [Samples.statusFilter; Samples.roleFilter].
Proof.
  apply processedColumns_same_declarations.
  intro f. simpl. tauto.
Defined.

(** *** The multi-select control and predicate *)

Lemma filter_out_absent (o : string) (l : list string) :
  ~ In o l -> filter (fun v => negb (v =? o)%string) l = l.
Proof.
  induction l as [| x rest IH]; intro Hnot; [reflexivity |].
  simpl. destruct (String.eqb_spec x o) as [-> | _].
  - exfalso. apply Hnot. now left.
  - simpl. f_equal. apply IH. intro H. apply Hnot. now right.
Qed.

Lemma filter_out_is_remove (o : string) (l : list string) :
  filter (fun v => negb (v =? o)%string) l = remove string_dec o l.
Proof.
  induction l as [| x rest IH]; [reflexivity |].
  simpl. destruct (string_dec o x) as [<- | Hne].
  - rewrite String.eqb_refl. exact IH.
  - destruct (String.eqb_spec x o) as [-> | _]; [now elim Hne |].
    simpl. now rewrite IH.
Qed.

(** X6: ticking an option appends it to the selection the menu was drawn
    with.  Unticking an option never leaves an empty selection behind: the
    value becomes absent exactly when no other option is selected, and
    otherwise it is the selection without the unticked option, the others
    in their order.  Ticking an option that was not selected and then
    unticking it in the menu drawn with the new value gives back the
    selection, or the absent value if there was none. *)
Theorem multiSelect_untick (stored : option (list string))
  (optionValue : string) :
  let selection := currentFilterValue stored in
  let unticked := multiSelectOnCheckedChange selection optionValue false in
  multiSelectOnCheckedChange selection optionValue true
  = Some (ListValue (selection ++ [optionValue]))
  /\ (unticked = None <-> forall v, In v selection -> v = optionValue)
  /\ ((exists v, In v selection /\ v <> optionValue) ->
      unticked = Some (ListValue (remove string_dec optionValue selection))
      /\ remove string_dec optionValue selection <> []
      /\ forall v, In v (remove string_dec optionValue selection)
                   <-> In v selection /\ v <> optionValue)
  /\ (~ In optionValue selection ->
      exists ticked,
        multiSelectOnCheckedChange selection optionValue true
        = Some (ListValue ticked)
        /\ multiSelectOnCheckedChange (currentFilterValue (Some ticked))
             optionValue false
           = match stored with
             | None | Some [] => None
             | Some values => Some (ListValue values)
             end).
Proof.
  intros selection unticked.
  assert (Hmembers : forall v, In v (remove string_dec optionValue selection)
                               <-> In v selection /\ v <> optionValue).
  { intro v. split.
    - intro H. apply in_remove in H. exact H.
    - intros [H Hne]. now apply in_in_remove. }
  assert (Hunticked :
            unticked
            = match remove string_dec optionValue selection with
              | [] => None
              | remaining => Some (ListValue remaining)
              end).
  { subst unticked. unfold multiSelectOnCheckedChange.
    rewrite filter_out_is_remove.
    now destruct (remove string_dec optionValue selection). }
  split; [reflexivity |].
  split.
  { rewrite Hunticked.
    destruct (remove string_dec optionValue selection) as [| r rest] eqn:E.
    - split; [| reflexivity]. intros _ v Hv.
      destruct (string_dec v optionValue) as [Heq | Hne]; [exact Heq |].
      exact (False_ind _ (proj2 (Hmembers v) (conj Hv Hne))).
    - split; [discriminate |]. intro Hall. exfalso.
      destruct (proj1 (Hmembers r) (or_introl eq_refl)) as [Hin Hne].
      now apply Hne, Hall. }
  split.
  { intros [v [Hin Hne]]. rewrite Hunticked.
    destruct (remove string_dec optionValue selection) as [| r rest] eqn:E.
    - exact (False_ind _ (proj2 (Hmembers v) (conj Hin Hne))).
    - split; [reflexivity |]. split; [discriminate | exact Hmembers]. }
  intro Hnew. exists (selection ++ [optionValue]). split; [reflexivity |].
  unfold multiSelectOnCheckedChange, currentFilterValue.
  rewrite filter_app. simpl. rewrite String.eqb_refl. simpl.
  rewrite app_nil_r, filter_out_absent by exact Hnew.
  subst selection. unfold currentFilterValue.
  now destruct stored as [[| v rest] |].
Qed.

(** With Admin selected, ticking User and unticking it again leaves
    Admin. *)
Lemma multiSelect_untick_witness :
  exists ticked,
    multiSelectOnCheckedChange ["Admin"] "User" true
    = Some (ListValue ticked)
    /\ multiSelectOnCheckedChange ticked "User" false
       = Some (ListValue ["Admin"]).
Proof.
  refine (proj2 (proj2 (proj2 (multiSelect_untick (Some ["Admin"]) "User")))
            _).
  intros [E | []]. discriminate.
Defined.

(** X7: once at least one option is selected, selecting more never hides
    a row that was shown; a row hidden by a selection is still hidden by
    any smaller non-empty one. *)
Theorem multiSelect_widening (row : Row) (key : string)
  (selected wider : list string) :
  selected <> [] ->
  (forall v, In v selected -> In v wider) ->
  multiSelectFilter row key (Some selected) = true ->
  multiSelectFilter row key (Some wider) = true.
Proof.
  intros Hne Hincl Hshown.
  destruct selected as [| s0 srest]; [now elim Hne |].
  destruct wider as [| w0 wrest]; [reflexivity |].
  unfold multiSelectFilter in *. simpl Z.of_nat in *.
  change (Js.includes (w0 :: wrest) (getValue row key) = true).
  change (Js.includes (s0 :: srest) (getValue row key) = true) in Hshown.
  apply DataTableFacts.includes_spec in Hshown.
  destruct Hshown as [v [Hin Hv]].
  apply DataTableFacts.includes_spec. exists v. split; [| exact Hv].
  now apply Hincl.
Qed.

Lemma multiSelect_widening_witness :
  multiSelectFilter [("role", Js.str "Admin")] "role"
    (Some ["Admin"; "User"]) = true.
Proof.
  apply (multiSelect_widening [("role", Js.str "Admin")] "role" ["Admin"]).
  - discriminate.
  - intros v [<- | []]. now left.
  - reflexivity.
Defined.

(** *** The date-range predicate *)

(** X8: a range with both bounds keeps exactly the rows that the range
    with only its lower bound and the range with only its upper bound both
    keep, for every row and every pair of bounds, valid or not. *)
Theorem dateRangeFilter_is_conjunction (Date_parse : string -> Js.number)
  (row : Row) (key : string) (lower upper : option Js.Date) :
  dateRangeFilter Date_parse row key
    (Some {| from := lower; to := upper |})
  = dateRangeFilter Date_parse row key
      (Some {| from := lower; to := None |})
    && dateRangeFilter Date_parse row key
         (Some {| from := None; to := upper |}).
Proof.
  unfold dateRangeFilter. simpl.
  destruct lower as [l |], upper as [u |]; simpl;
    rewrite ?andb_true_r; try reflexivity;
    destruct (Js.truthy (getValue row key)); simpl; try reflexivity;
    destruct (Js.isNaN (Js.getTime (Js.newDate Date_parse
                                      (getValue row key))));
    simpl; try reflexivity;
    destruct (Js.lt _ l); simpl; try reflexivity;
    destruct (Js.gt _ u); reflexivity.
Qed.

(** *** Callbacks and the state they leave alone *)

(** X9: the three callbacks are called whenever they are given, whether
    or not the concern is delegated: with sorting, filtering and pagination
    all local, each change still reaches its callback and only that one.
    Without a configuration no call is ever made. *)
Theorem callbacks_do_not_depend_on_the_flags (config : ServerSideConfig.t)
  (w : World)
  (onSort : SortingState -> completion)
  (onFilter : ColumnFiltersState -> completion)
  (onPage : PaginationState -> completion) :
  manualSorting (Some config) = false ->
  manualFiltering (Some config) = false ->
  manualPagination (Some config) = false ->
  ServerSideConfig.onSortingChange config = Some onSort ->
  ServerSideConfig.onColumnFiltersChange config = Some onFilter ->
  ServerSideConfig.onPaginationChange config = Some onPage ->
  (forall u,
      calls (fst (onSortingChange (Some config) u w))
      = calls w ++ [SortingChanged (functionalUpdate u (sorting (state w)))])
  /\ (forall u,
        calls (fst (onColumnFiltersChange (Some config) u w))
        = calls w
          ++ [ColumnFiltersChanged
                (functionalUpdate u (columnFilters (state w)))])
  /\ (forall u,
        calls (fst (onPaginationChange (Some config) u w))
        = calls w
          ++ [PaginationChanged
                (functionalUpdate u (pagination (state w)))])
  /\ (forall u, calls (fst (onSortingChange None u w)) = calls w)
  /\ (forall u, calls (fst (onColumnFiltersChange None u w)) = calls w)
  /\ (forall u, calls (fst (onPaginationChange None u w)) = calls w).
Proof.
  intros _ _ _ Hs Hf Hp.
  repeat split; intro u.
  - rewrite DataTableFacts.onSortingChange_run. simpl. now rewrite Hs.
  - rewrite DataTableFacts.onColumnFiltersChange_run. simpl. now rewrite Hf.
  - rewrite DataTableFacts.onPaginationChange_run. simpl. now rewrite Hp.
Qed.

Lemma callbacks_do_not_depend_on_the_flags_witness :
  calls (fst (onSortingChange (Some Samples.listenOnly)
                (Value Samples.byAgeDescending) Samples.adminsOnly))
  = [SortingChanged Samples.byAgeDescending].
Proof.
  exact (proj1 (callbacks_do_not_depend_on_the_flags Samples.listenOnly
                  Samples.adminsOnly (fun _ => Normal) (fun _ => Normal)
                  (fun _ => Normal) eq_refl eq_refl eq_refl eq_refl eq_refl
                  eq_refl)
           (Value Samples.byAgeDescending)).
Defined.

(** X10: a change of page touches neither the sort state nor the active
    filters, so the filtered and the sorted rows stay what they were and
    only the window moves; a change of filters leaves the sort state and
    the page index and size as they are. *)
Theorem page_and_filter_changes_are_local (lib : TableLibrary)
  (props : Props) (w : World) :
  (forall u : Updater PaginationState,
      let w' := fst (onPaginationChange (serverSide props) u w) in
      sorting (state w') = sorting (state w)
      /\ columnFilters (state w') = columnFilters (state w)
      /\ filteredRows lib props (state w') = filteredRows lib props (state w)
      /\ sortedRows lib props (state w') = sortedRows lib props (state w)
      /\ pagination (state w') = functionalUpdate u (pagination (state w)))
  /\ (forall u : Updater ColumnFiltersState,
        let w' := fst (onColumnFiltersChange (serverSide props) u w) in
        sorting (state w') = sorting (state w)
        /\ pagination (state w') = pagination (state w)
        /\ columnFilters (state w')
           = functionalUpdate u (columnFilters (state w))).
Proof.
  split; intros u w'; subst w'.
  - rewrite DataTableFacts.onPaginationChange_run.
    destruct (Js.chainOpt (serverSide props)
                ServerSideConfig.onPaginationChange); simpl;
      repeat split.
  - rewrite DataTableFacts.onColumnFiltersChange_run.
    destruct (Js.chainOpt (serverSide props)
                ServerSideConfig.onColumnFiltersChange); simpl;
      repeat split.
Qed.

(** *** What is shown *)

(** X11: in server-side mode without overrides the table shows the rows
    it is given, all of them and in their order, whatever the sort state,
    the filters, the page and the table library say: none while loading
    (placeholders, one per row of a page), the no-results row when there
    are none. *)
Theorem delegated_table_shows_the_data (lib : TableLibrary) (props : Props)
  (config : ServerSideConfig.t) (s : TableState) :
  serverSide props = Some config ->
  ServerSideConfig.enabled config = true ->
  ServerSideConfig.manualPagination config = None ->
  ServerSideConfig.manualSorting config = None ->
  ServerSideConfig.manualFiltering config = None ->
  getRowModel lib props s = data props
  /\ tableBody lib props s
     = match ServerSideConfig.loading config with
       | Some true => Skeleton (Z.to_nat (pageSize (pagination s)))
       | _ => match data props with
              | [] => NoResults
              | rows => DataRows rows
              end
       end.
Proof.
  intros Hconfig Hon Hp Hs Hf.
  assert (Hrows : getRowModel lib props s = data props).
  { unfold getRowModel, sortedRows, filteredRows,
      manualPagination, manualSorting, manualFiltering, isServerSide.
    rewrite Hconfig. simpl. rewrite Hp, Hs, Hf, Hon. simpl.
    now rewrite andb_false_r. }
  split; [exact Hrows |].
  unfold tableBody, isLoading. rewrite Hrows, Hconfig. simpl.
  now destruct (ServerSideConfig.loading config) as [[|] |].
Qed.

Lemma delegated_table_shows_the_data_witness :
  getRowModel Host.table (Samples.serverProps None) Samples.secondPage
  = Samples.serverPage
  /\ tableBody Host.table (Samples.serverProps (Some true))
       Samples.secondPage = Skeleton 10.
Proof.
  split.
  - now apply (delegated_table_shows_the_data Host.table
                 (Samples.serverProps None) (Samples.fullyDelegated None)).
  - exact (proj2 (delegated_table_shows_the_data Host.table
                    (Samples.serverProps (Some true))
                    (Samples.fullyDelegated (Some true)) Samples.secondPage
                    eq_refl eq_refl eq_refl eq_refl eq_refl)).
Defined.



End DataTableExtras.

(* ================================================================== *)
(** ** Further properties of the users endpoint *)
(* ================================================================== *)

Module UsersApiExtras.

Import UsersApi.

(** *** The definitions on small inputs *)

Example parseSearchParams_runs :
  let params :=
    parseSearchParams
      [("page", "2"); ("status", EmptyString); ("role", "Admin");
       ("role", "User"); ("colour", "red")] in
  page params = Some "2" /\ status_ params = None
  /\ role_ params = Some "User" /\ sortBy params = None.
Proof. repeat split. Qed.

Example split_and_join_run :
  Js.split ","%char "Admin,User" = ["Admin"; "User"]
  /\ Js.split ","%char EmptyString = [EmptyString]
  /\ Js.split ","%char "a,,b" = ["a"; EmptyString; "b"]
  /\ Js.join "," ["Admin"; "User"] = "Admin,User"
  /\ Js.join "," [] = EmptyString.
Proof. repeat split. Qed.

Example stringIncludes_runs :
  Js.stringIncludes "alice@example.com" "example" = true
  /\ Js.stringIncludes "alice" EmptyString = true
  /\ Js.stringIncludes "alice" "bob" = false.
Proof. repeat split. Qed.

Example filterUsers_runs :
  map name (filterUsers Samples.lowerCase Host.isoDateParse
              Samples.threeUsers Samples.admins) = ["Ann"].
Proof. reflexivity. Qed.

Example totalPagesOf_runs :
  totalPagesOf 25 (Js.Num 10) = Some (Js.Num 3)
  /\ totalPagesOf 20 (Js.Num 10) = Some (Js.Num 2)
  /\ totalPagesOf 0 (Js.Num 10) = Some (Js.Num 0)
  /\ totalPagesOf 25 (Js.Num (-10)) = Some (Js.Num (-2))
  /\ totalPagesOf 25 Js.NaN = Some Js.NaN
  /\ totalPagesOf 25 (Js.Num 0) = None.
Proof. repeat split. Qed.

Example queryEntries_runs :
  ServerTablePage.queryEntries Samples.epochDay
    {| DataTable.pageIndex := 1; DataTable.pageSize := 10 |}
    Samples.byAgeDescending Samples.rolesChosen
  = Some [("page", "1"); ("pageSize", "10"); ("sortBy", "age");
          ("sortOrder", "desc"); ("roles", "Admin,Moderator")]
  /\ ServerTablePage.queryEntries Samples.epochDay
       {| DataTable.pageIndex := 0; DataTable.pageSize := 10 |} []
       [{| DataTable.filter_id := "createdAt";
           DataTable.filter_value :=
             DataTable.RangeValue
               {| DataTable.from := Some Js.NaN; DataTable.to := None |} |}]
     = None.
Proof. split; reflexivity. Qed.

(** *** [parseSearchParams] *)

Ltac split_keys :=
  repeat match goal with
    | |- context [(?a =? ?b)%string] =>
        destruct (String.eqb_spec a b); subst; simpl in *
    end.

Lemma paramOf_setParam (params : SearchParams) (key value k : string) :
  paramOf (setParam params key value) k
  = if Spec.isKnown k && (key =? k)%string then Some value
    else paramOf params k.
Proof.
  unfold paramOf, setParam, Spec.isKnown, Spec.knownKeys. simpl.
  split_keys; try reflexivity; try congruence.
Qed.

Lemma paramOf_unknown (params : SearchParams) (k : string) :
  Spec.isKnown k = false -> paramOf params k = None.
Proof.
  unfold paramOf, Spec.isKnown, Spec.knownKeys. simpl.
  split_keys; try reflexivity; discriminate.
Qed.

Lemma get_app (l1 l2 : list (string * string)) (k : string) :
  get (l1 ++ l2) k
  = match get l1 k with Some v => Some v | None => get l2 k end.
Proof.
  induction l1 as [| [k1 v1] rest IH]; [reflexivity |].
  simpl. now destruct (k1 =? k)%string.
Qed.

Lemma parse_from (entries : list (string * string)) (start : SearchParams)
  (k : string) :
  paramOf
    (fold_left
       (fun params entry =>
          let '(key, value) := entry in
          if negb (value =? EmptyString)%string
          then setParam params key value else params)
       entries start) k
  = if Spec.isKnown k then
      match get (rev (filter Spec.nonEmptyValue entries)) k with
      | Some v => Some v
      | None => paramOf start k
      end
    else None.
Proof.
  revert start. induction entries as [| [key value] rest IH]; intro start.
  - simpl. destruct (Spec.isKnown k) eqn:E; [reflexivity |].
    now apply paramOf_unknown.
  - simpl fold_left. rewrite IH. destruct (Spec.isKnown k) eqn:E;
      [| reflexivity].
    simpl filter. unfold Spec.nonEmptyValue at 2. simpl snd.
    destruct (negb (value =? EmptyString)%string) eqn:Hv.
    + simpl rev. rewrite get_app. simpl get.
      destruct (get (rev (filter Spec.nonEmptyValue rest)) k);
        [reflexivity |].
      rewrite paramOf_setParam, E. simpl.
      now destruct (key =? k)%string.
    + reflexivity.
Qed.

Lemma parseSearchParams_paramOf (entries : list (string * string))
  (key : string) :
  paramOf (parseSearchParams entries) key
  = if Spec.isKnown key
    then get (rev (filter Spec.nonEmptyValue entries)) key
    else None.
Proof.
  unfold parseSearchParams. rewrite parse_from.
  destruct (Spec.isKnown key); [| reflexivity].
  destruct (get _ key); [reflexivity |].
  unfold paramOf, noSearchParams. simpl. split_keys; reflexivity.
Qed.

(** X13: reading the query string, a parameter the endpoint knows gets
    the last non-empty value given for its key; empty values are skipped,
    and so a parameter is never present with an empty value.  Any other
    key is not read. *)
Theorem parseSearchParams_last_value_wins (entries : list (string * string))
  (key : string) :
  paramOf (parseSearchParams entries) key
  = (if Spec.isKnown key
     then get (rev (filter Spec.nonEmptyValue entries)) key
     else None)
  /\ paramOf (parseSearchParams entries) key <> Some EmptyString.
Proof.
  pose proof (parseSearchParams_paramOf entries key) as Hlast.
  split; [exact Hlast |].
  rewrite Hlast. destruct (Spec.isKnown key); [| discriminate].
  set (l := rev (filter Spec.nonEmptyValue entries)).
  assert (Hall : Forall (fun e => Spec.nonEmptyValue e = true) l).
  { subst l. apply Forall_rev. apply Forall_forall.
    intros e He. now apply filter_In in He. }
  induction l as [| [k v] rest IH]; [discriminate |].
  simpl. inversion Hall as [| ? ? Hhead Htail]; subst.
  destruct (k =? key)%string; [| now apply IH].
  unfold Spec.nonEmptyValue in Hhead. simpl in Hhead.
  apply negb_true_iff, String.eqb_neq in Hhead. congruence.
Qed.

(** *** [filterUsers] *)

Lemma filter_twice {A : Type} (p q : A -> bool) (l : list A) :
  filter q (filter p l) = filter (fun x => p x && q x) l.
Proof.
  induction l as [| x rest IH]; [reflexivity |].
  simpl. destruct (p x); simpl; [| exact IH].
  destruct (q x); now rewrite IH.
Qed.

Lemma filter_all {A : Type} (l : list A) : filter (fun _ => true) l = l.
Proof. induction l as [| x rest IH]; simpl; congruence. Qed.

Lemma stage_as_filter {A : Type} (on : bool) (p : A -> bool) (l : list A) :
  (if on then filter p l else l) = filter (fun x => negb on || p x) l.
Proof.
  destruct on; simpl; [reflexivity |]. symmetry. apply filter_all.
Qed.

Section FilterUsersFacts.

Variable toLowerCase : string -> string.
Variable Date_parse : string -> Js.number.

Local Abbreviation filterUsers := (filterUsers toLowerCase Date_parse).
Local Abbreviation keeps := (Spec.keeps toLowerCase Date_parse).

Lemma filterUsers_filter (users : list User) (params : SearchParams) :
  filterUsers users params = filter (keeps params) users.
Proof.
  unfold UsersApi.filterUsers, filterBySearch, filterByStatus, filterByRole,
    filterByRoles, filterByDate, filterByAge.
  rewrite !stage_as_filter, !filter_twice.
  apply filter_ext. intro user. unfold Spec.keeps.
  now rewrite ?orb_assoc, ?andb_assoc.
Qed.

End FilterUsersFacts.

(** X14: the filters of the endpoint combine by conjunction: the result
    is the input restricted, in order, to the users that pass every filter
    that is given, a filter that is not given letting everyone pass. *)
Theorem filterUsers_keeps_what_passes_all
  (toLowerCase : string -> string) (Date_parse : string -> Js.number)
  (users : list User) (params : SearchParams) :
  filterUsers toLowerCase Date_parse users params
  = filter (Spec.keeps toLowerCase Date_parse params) users.
Proof.
  unfold filterUsers, filterBySearch, filterByStatus, filterByRole,
    filterByRoles, filterByDate, filterByAge.
  rewrite !stage_as_filter, !filter_twice.
  apply filter_ext. intro user. unfold Spec.keeps.
  now rewrite ?orb_assoc, ?andb_assoc.
Qed.

(** X15: filtering twice with the same parameters is filtering once;
    filtering a concatenation is concatenating the filtered parts; nobody
    is added; and when none of the eight filter parameters is given, the
    paging and sorting parameters notwithstanding, every user is kept. *)
Theorem filterUsers_algebra
  (toLowerCase : string -> string) (Date_parse : string -> Js.number)
  (users more : list User) (params : SearchParams) :
  filterUsers toLowerCase Date_parse
    (filterUsers toLowerCase Date_parse users params) params
  = filterUsers toLowerCase Date_parse users params
  /\ filterUsers toLowerCase Date_parse (users ++ more) params
     = filterUsers toLowerCase Date_parse users params
       ++ filterUsers toLowerCase Date_parse more params
  /\ (forall user,
        In user (filterUsers toLowerCase Date_parse users params) ->
        In user users)
  /\ (search params = None -> status_ params = None ->
      role_ params = None -> roles params = None ->
      startDate params = None -> endDate params = None ->
      minAge params = None -> maxAge params = None ->
      filterUsers toLowerCase Date_parse users params = users).
Proof.
  rewrite !filterUsers_filter. repeat split.
  - rewrite filter_twice. apply filter_ext. intro u.
    now destruct (Spec.keeps toLowerCase Date_parse params u).
  - apply filter_app.
  - intros user H. now apply filter_In in H.
  - intros H1 H2 H3 H4 H5 H6 H7 H8.
    rewrite <- (filter_all users) at 2.
    apply filter_ext. intro u. unfold Spec.keeps.
    now rewrite H1, H2, H3, H4, H5, H6, H7, H8.
Qed.

Lemma filterUsers_algebra_witness :
  filterUsers Samples.lowerCase Host.isoDateParse Samples.threeUsers
    Samples.thirdPage = Samples.threeUsers.
Proof.
  now apply (filterUsers_algebra Samples.lowerCase Host.isoDateParse
               Samples.threeUsers [] Samples.thirdPage).
Defined.




(** *** Text search and the list of roles *)

Lemma list_of_append (a b : string) :
  list_ascii_of_string (a ++ b)
  = list_ascii_of_string a ++ list_ascii_of_string b.
Proof.
  induction a as [| c rest IH]; simpl; [reflexivity | now rewrite IH].
Qed.

Lemma append_empty (s : string) : (s ++ EmptyString)%string = s.
Proof. induction s as [| c rest IH]; simpl; congruence. Qed.

Lemma startsWith_iff (s sub : list ascii) :
  Js.startsWith s sub = true <-> exists after, s = sub ++ after.
Proof.
  revert s. induction sub as [| c sub' IH]; intro s; simpl.
  - split; [intros _; now exists s | intros _; now destruct s].
  - destruct s as [| d s']; simpl.
    + split; [discriminate | intros [after H]; discriminate].
    + rewrite andb_true_iff, IH. split.
      * intros [Hc [after ->]]. apply Ascii.eqb_eq in Hc. subst.
        now exists after.
      * intros [after H]. injection H as -> ->.
        split; [apply Ascii.eqb_refl | now exists after].
Qed.

Lemma includesFrom_iff (s sub : list ascii) :
  Js.includesFrom s sub = true
  <-> exists before after, s = before ++ sub ++ after.
Proof.
  induction s as [| d s' IH].
  - change (Js.includesFrom [] sub) with (Js.startsWith [] sub || false).
    rewrite orb_false_r, startsWith_iff. split.
    + intros [after H]. now exists [], after.
    + intros [before [after H]]. destruct before; [| discriminate].
      now exists after.
  - change (Js.includesFrom (d :: s') sub)
      with (Js.startsWith (d :: s') sub || Js.includesFrom s' sub).
    rewrite orb_true_iff, startsWith_iff, IH. split.
    + intros [[after H] | [before [after H]]].
      * now exists [], after.
      * exists (d :: before), after. simpl. now rewrite H.
    + intros [[| b before] [after H]].
      * left. now exists after.
      * right. injection H as -> H. now exists before, after.
Qed.

Lemma stringIncludes_iff (s sub : string) :
  Js.stringIncludes s sub = true <-> Spec.occursIn sub s.
Proof.
  unfold Js.stringIncludes, Spec.occursIn. rewrite includesFrom_iff. split.
  - intros [before [after H]].
    exists (string_of_list_ascii before), (string_of_list_ascii after).
    assert (E : list_ascii_of_string s
                = list_ascii_of_string
                    (string_of_list_ascii before ++ sub
                       ++ string_of_list_ascii after)%string)
      by (now rewrite !list_of_append,
            !list_ascii_of_string_of_list_ascii).
    apply (f_equal string_of_list_ascii) in E.
    now rewrite !string_of_list_ascii_of_string in E.
  - intros [before [after ->]].
    exists (list_ascii_of_string before), (list_ascii_of_string after).
    now rewrite !list_of_append.
Qed.

(** X17: the text search keeps, in order, exactly the users whose
    lower-cased name or lower-cased email contains the lower-cased query
    as a run of consecutive characters; in particular a user is found by
    any spelling that lower-cases like the name. *)
Theorem search_is_substring_match (toLowerCase : string -> string)
  (users : list User) (params : SearchParams) (query : string)
  (user : User) :
  search params = Some query ->
  query <> EmptyString ->
  (In user (filterBySearch toLowerCase users params)
   <-> In user users
       /\ (Spec.occursIn (toLowerCase query) (toLowerCase (name user))
           \/ Spec.occursIn (toLowerCase query)
                (toLowerCase (email user))))
  /\ (In user users -> toLowerCase query = toLowerCase (name user) ->
      In user (filterBySearch toLowerCase users params)).
Proof.
  intros Hq Hne.
  assert (Hiff : In user (filterBySearch toLowerCase users params)
                 <-> In user users
                     /\ (Spec.occursIn (toLowerCase query)
                           (toLowerCase (name user))
                         \/ Spec.occursIn (toLowerCase query)
                              (toLowerCase (email user)))).
  { unfold filterBySearch, given, orElse. rewrite Hq.
    apply String.eqb_neq in Hne. rewrite Hne. simpl.
    rewrite filter_In, orb_true_iff, !stringIncludes_iff. reflexivity. }
  split; [exact Hiff |].
  intros Hin Hsame. apply Hiff. split; [exact Hin |].
  left. rewrite Hsame. exists EmptyString, EmptyString.
  simpl. symmetry. apply append_empty.
Qed.

Lemma search_is_substring_match_witness :
  In (Samples.user 1 "Ann" "Admin" 30)
     (filterBySearch Samples.lowerCase Samples.threeUsers Samples.admins).
Proof.
  apply (proj1 (search_is_substring_match Samples.lowerCase
                  Samples.threeUsers Samples.admins "AN"
                  (Samples.user 1 "Ann" "Admin" 30) eq_refl
                  ltac:(discriminate))).
  split; [simpl; auto |].
  left. exists EmptyString, "n". reflexivity.
Defined.

Lemma split_commaFree (s : string) :
  Spec.commaFree s -> Js.split ","%char s = [s].
Proof.
  unfold Spec.commaFree. induction s as [| c rest IH]; intro Hfree;
    [reflexivity |].
  simpl in *. destruct (Ascii.eqb_spec c ","%char) as [-> | _].
  - exfalso. apply Hfree. now left.
  - rewrite IH; [reflexivity |]. intro H. apply Hfree. now right.
Qed.

Lemma split_head (s rest : string) :
  Spec.commaFree s ->
  Js.split ","%char (s ++ "," ++ rest)%string
  = s :: Js.split ","%char rest.
Proof.
  unfold Spec.commaFree. induction s as [| c s' IH]; intro Hfree.
  - reflexivity.
  - simpl in *. destruct (Ascii.eqb_spec c ","%char) as [-> | _].
    + exfalso. apply Hfree. now left.
    + rewrite IH; [reflexivity |]. intro H. apply Hfree. now right.
Qed.

(** Joining with commas and splitting at commas gives the list back. *)
Lemma split_join (values : list string) :
  values <> [] -> Forall Spec.commaFree values ->
  Js.split ","%char (Js.join "," values) = values.
Proof.
  induction values as [| v rest IH]; intros Hne Hall; [now elim Hne |].
  inversion Hall as [| ? ? Hv Hrest]; subst.
  destruct rest as [| w rest'].
  - simpl. now apply split_commaFree.
  - change (Js.join "," (v :: w :: rest'))
      with (v ++ "," ++ Js.join "," (w :: rest'))%string.
    rewrite split_head by exact Hv.
    f_equal. apply IH; [discriminate | exact Hrest].
Qed.

(** *** Sorting: keys without values, and numbers *)

Lemma sort_all_tied {A : Type} (comparefn : A -> A -> Js.number)
  (l : list A) :
  (forall a b, sortCompare comparefn a b = 0) -> sort comparefn l = l.
Proof.
  intro Htied. induction l as [| x rest IH]; [reflexivity |].
  simpl. rewrite IH. destruct rest as [| y rest']; [reflexivity |].
  simpl. now rewrite Htied.
Qed.

(** X18: sorting by a key that is no field of a user reorders nothing:
    ascending order is the input as it is and descending order is the
    input reversed.  Without a key (absent or empty) the input is returned
    as it is even when descending order is asked for. *)
Theorem sortUsers_without_values
  (localeCompare : string -> string -> Z) (Date_parse : string -> Js.number)
  (users : list User) (key : string) :
  (forall a b, Z.sgn (localeCompare a b) = - Z.sgn (localeCompare b a)) ->
  key <> EmptyString ->
  ~ In key ["id"; "name"; "email"; "role"; "status"; "createdAt"; "age"] ->
  sortUsers localeCompare Date_parse users (Some key) (Some "asc") = users
  /\ sortUsers localeCompare Date_parse users (Some key) None = users
  /\ sortUsers localeCompare Date_parse users (Some key) (Some "desc")
     = rev users
  /\ sortUsers localeCompare Date_parse users None (Some "desc") = users
  /\ sortUsers localeCompare Date_parse users (Some EmptyString)
       (Some "desc") = users.
Proof.
  intros Hanti Hkey Hfield.
  assert (Htied : forall a b,
             sortCompare (compareUsers localeCompare Date_parse key) a b = 0).
  { intros a b. unfold sortCompare, compareUsers, compareValues, prop.
    simpl in Hfield.
    repeat match goal with
      | |- context [(key =? ?f)%string] =>
          destruct (String.eqb_spec key f);
          [exfalso; apply Hfield; subst; tauto |]
      end.
    simpl. pose proof (Hanti "undefined" "undefined"). lia. }
  unfold sortUsers. apply String.eqb_neq in Hkey. rewrite Hkey. simpl.
  rewrite (sort_all_tied _ _ Htied). repeat split.
Qed.

Lemma sortUsers_without_values_witness :
  sortUsers Host.codeUnitCompare Host.isoDateParse Samples.threeUsers
    (Some "salary") (Some "desc") = rev Samples.threeUsers.
Proof.
  refine (proj1 (proj2 (proj2
            (sortUsers_without_values Host.codeUnitCompare Host.isoDateParse
               Samples.threeUsers "salary"
               UsersApiFacts.codeUnitCompare_antisym _ _)))).
  - discriminate.
  - simpl. intros [H | [H | [H | [H | [H | [H | [H | []]]]]]]];
      discriminate.
Defined.

Lemma StronglySorted_impl {A : Type} (R S : A -> A -> Prop) (l : list A) :
  (forall a b, R a b -> S a b) ->
  StronglySorted R l -> StronglySorted S l.
Proof.
  intros Himpl. induction 1 as [| x rest Hs IH Hx]; constructor.
  - exact IH.
  - eapply Forall_impl; [| exact Hx]. intros b. apply Himpl.
Qed.

Lemma StronglySorted_rev {A : Type} (R : A -> A -> Prop) (l : list A) :
  StronglySorted R l -> StronglySorted (fun a b => R b a) (rev l).
Proof.
  induction 1 as [| x rest Hs IH Hx]; [constructor |].
  simpl. revert IH. generalize (Forall_rev Hx).
  generalize (rev rest). intros l' Hall.
  induction l' as [| y l'' IHl]; intro Hsorted.
  - repeat constructor.
  - simpl. inversion Hall as [| ? ? Hy Hrest]; subst.
    apply StronglySorted_inv in Hsorted. destruct Hsorted as [Hs' Hy'].
    constructor; [now apply IHl |].
    apply Forall_app. split; [exact Hy' | now constructor].
Qed.

(** X19: sorting by age puts the ages in non-decreasing order, and in
    non-increasing order when descending; likewise for the identifiers.
    This holds for any [localeCompare], which numbers never reach. *)
Theorem sortUsers_orders_numbers
  (localeCompare : string -> string -> Z) (Date_parse : string -> Js.number)
  (users : list User) :
  StronglySorted (fun a b => age a <= age b)
    (sortUsers localeCompare Date_parse users (Some "age") (Some "asc"))
  /\ StronglySorted (fun a b => age b <= age a)
       (sortUsers localeCompare Date_parse users (Some "age") (Some "desc"))
  /\ StronglySorted (fun a b => id a <= id b)
       (sortUsers localeCompare Date_parse users (Some "id") (Some "asc"))
  /\ StronglySorted (fun a b => id b <= id a)
       (sortUsers localeCompare Date_parse users (Some "id") (Some "desc")).
Proof.
  assert (Hage : StronglySorted (fun a b => age a <= age b)
                   (sort (compareUsers localeCompare Date_parse "age") users)).
  { apply StronglySorted_impl
      with (R := notAfter (compareUsers localeCompare Date_parse "age")).
    - intros a b. unfold notAfter, sortCompare. simpl. lia.
    - apply UsersApiFacts.sort_sorted.
      + intros x y. unfold sortCompare. simpl. lia.
      + intros x y z. unfold sortCompare. simpl. lia. }
  assert (Hid : StronglySorted (fun a b => id a <= id b)
                  (sort (compareUsers localeCompare Date_parse "id") users)).
  { apply StronglySorted_impl
      with (R := notAfter (compareUsers localeCompare Date_parse "id")).
    - intros a b. unfold notAfter, sortCompare. simpl. lia.
    - apply UsersApiFacts.sort_sorted.
      + intros x y. unfold sortCompare. simpl. lia.
      + intros x y z. unfold sortCompare. simpl. lia. }
  repeat split.
  - exact Hage.
  - apply (StronglySorted_rev _ _ Hage).
  - exact Hid.
  - apply (StronglySorted_rev _ _ Hid).
Qed.

(** *** [GET]: the page and what is said about it *)


Lemma ceiling_bounds (n s : Z) :
  0 < s ->
  (- ((- n) / s) - 1) * s < n <= - ((- n) / s) * s.
Proof.
  intro Hs. pose proof (Z.div_mod (- n) s). pose proof (Z.mod_pos_bound (- n) s).
  nia.
Qed.




Lemma firstn_plus {A : Type} (a b : nat) (l : list A) :
  firstn (a + b) l = firstn a l ++ firstn b (skipn a l).
Proof.
  revert l. induction a as [| a' IH]; intro l; [reflexivity |].
  destruct l as [| x rest]; simpl.
  - now rewrite firstn_nil.
  - now rewrite IH.
Qed.

Lemma pages_prefix (l : list User) (size : Z) (count : nat) :
  0 <= size ->
  List.concat (map (fun i => pageOf l (Js.Num (Z.of_nat i)) (Js.Num size))
            (List.seq 0 count))
  = firstn (count * Z.to_nat size) l.
Proof.
  intro Hsize. induction count as [| m IH]; [reflexivity |].
  rewrite seq_S, map_app, concat_app, IH. simpl.
  rewrite app_nil_r. unfold pageOf. simpl.
  rewrite UsersApiFacts.slice_window by lia.
  replace (Z.to_nat (Z.of_nat m * size)) with (m * Z.to_nat size)%nat by nia.
  replace (Z.to_nat size + m * Z.to_nat size)%nat
    with (m * Z.to_nat size + Z.to_nat size)%nat by lia.
  now rewrite firstn_plus.
Qed.

(** X21: the pages tile the list: for a positive page size, the pages
    0, 1, ... up to the number of pages the response reports, put end to
    end, are the filtered and sorted users, each once and in order. *)
Theorem pages_tile_the_list (filteredUsers : list User) (size pages : Z) :
  0 < size ->
  totalPagesOf (Z.of_nat (List.length filteredUsers)) (Js.Num size)
  = Some (Js.Num pages) ->
  List.concat (map (fun i => pageOf filteredUsers (Js.Num (Z.of_nat i))
                          (Js.Num size))
            (List.seq 0 (Z.to_nat pages)))
  = filteredUsers.
Proof.
  intros Hsize Hpages. unfold totalPagesOf in Hpages.
  destruct (Z.eqb_spec size 0) as [? | _]; [lia |].
  injection Hpages as Hpages.
  pose proof (ceiling_bounds (Z.of_nat (List.length filteredUsers)) size
                Hsize) as Hceil.
  rewrite Hpages in Hceil.
  rewrite pages_prefix by lia. apply firstn_all2. nia.
Qed.

Lemma pages_tile_the_list_witness :
  pageOf Samples.twentyFiveUsers (Js.Num 0) (Js.Num 10)
  ++ pageOf Samples.twentyFiveUsers (Js.Num 1) (Js.Num 10)
  ++ pageOf Samples.twentyFiveUsers (Js.Num 2) (Js.Num 10)
  = Samples.twentyFiveUsers.
Proof.
  pose proof (pages_tile_the_list Samples.twentyFiveUsers 10 3
                ltac:(lia) eq_refl) as H.
  etransitivity; [| exact H]. reflexivity.
Defined.

(** X22: page parameters that make no page: an index or a size that
    does not parse as a number, a size of zero and the index -1 all give
    an empty page, never an error; a negative size on page 0 gives the
    list without its last rows. *)
Theorem degenerate_pages (filteredUsers : list User) (n : Js.number)
  (size : Z) :
  pageOf filteredUsers Js.NaN n = []
  /\ pageOf filteredUsers n Js.NaN = []
  /\ pageOf filteredUsers n (Js.Num 0) = []
  /\ (0 <= size -> pageOf filteredUsers (Js.Num (-1)) (Js.Num size) = [])
  /\ (size < 0 ->
      pageOf filteredUsers (Js.Num 0) (Js.Num size)
      = firstn (Z.to_nat (Z.of_nat (List.length filteredUsers) + size))
          filteredUsers).
Proof.
  assert (Hempty : forall a b,
             Js.toIntegerOrInfinity a = Js.toIntegerOrInfinity b ->
             Js.slice filteredUsers a b = []).
  { intros a b E. unfold Js.slice. rewrite E, Z.sub_diag. reflexivity. }
  unfold pageOf. repeat split.
  - apply Hempty. now destruct n.
  - apply Hempty. now destruct n.
  - apply Hempty. destruct n as [| z]; simpl; [reflexivity | lia].
  - intro Hsize. unfold Js.slice, Js.relativeIndex.
    cbn [Js.mul Js.add Js.toIntegerOrInfinity].
    set (len := Z.of_nat (List.length filteredUsers)).
    assert (0 <= len) by (subst len; lia).
    match goal with
    | |- firstn (Z.to_nat ?c) _ = _ =>
        replace (Z.to_nat c) with 0%nat; [reflexivity |]
    end.
    destruct (Z.ltb_spec (-1 * size + size) 0),
             (Z.ltb_spec (-1 * size) 0); lia.
  - intro Hsize. unfold Js.slice, Js.relativeIndex.
    cbn [Js.mul Js.add Js.toIntegerOrInfinity].
    set (len := Z.of_nat (List.length filteredUsers)).
    assert (0 <= len) by (subst len; lia).
    replace (0 * size) with 0 by lia. replace (0 + size) with size by lia.
    destruct (Z.ltb_spec size 0); [| lia].
    destruct (Z.ltb_spec 0 0); [lia |].
    rewrite (Z.min_l 0 len) by lia.
    change (Z.to_nat 0) with 0%nat. cbn [skipn].
    f_equal. lia.
Qed.

Lemma degenerate_pages_witness :
  pageOf Samples.threeUsers (Js.Num (-1)) (Js.Num 10) = []
  /\ map age (pageOf Samples.threeUsers (Js.Num 0) (Js.Num (-1))) = [30; 22].
Proof.
  destruct (degenerate_pages Samples.threeUsers Js.NaN 10)
    as [_ [_ [_ [Hminus _]]]].
  split; [apply Hminus; lia | reflexivity].
Defined.

(** *** [DELETE] *)

Lemma findIndex_first {A : Type} (p : A -> bool) (before after : list A)
  (x : A) :
  (forall y, In y before -> p y = false) -> p x = true ->
  Js.findIndex p (before ++ x :: after) = Some (List.length before).
Proof.
  intros Hbefore Hx. induction before as [| y rest IH]; simpl.
  - now rewrite Hx.
  - rewrite (Hbefore y) by now left.
    rewrite IH; [reflexivity |]. intros z Hz. apply Hbefore. now right.
Qed.

Lemma findIndex_none {A : Type} (p : A -> bool) (l : list A) :
  (forall y, In y l -> p y = false) -> Js.findIndex p l = None.
Proof.
  intro Hall. induction l as [| y rest IH]; [reflexivity |].
  simpl. rewrite (Hall y) by now left.
  rewrite IH; [reflexivity |]. intros z Hz. apply Hall. now right.
Qed.

Lemma removeAt_middle {A : Type} (before after : list A) (x : A) :
  Js.removeAt (List.length before) (before ++ x :: after) = before ++ after.
Proof.
  induction before as [| y rest IH]; simpl; [reflexivity | now rewrite IH].
Qed.

Lemma matches_id (user : User) (n : Js.number) :
  Js.strictEquals (Js.num (Js.Num (id user))) (Js.num n) = true
  <-> n = Js.Num (id user).
Proof.
  destruct n as [| z]; simpl.
  - split; discriminate.
  - rewrite Z.eqb_eq. split; [intros ->; reflexivity | congruence].
Qed.

Lemma DELETE_missing (entries : list (string * string))
  (SAMPLE_USERS : list User) :
  (forall user, In user SAMPLE_USERS ->
     Js.parseInt (orElse (get entries "id") "0") <> Js.Num (id user)) ->
  DELETE entries SAMPLE_USERS = (SAMPLE_USERS, 404).
Proof.
  intro Hnone. unfold DELETE.
  rewrite findIndex_none; [reflexivity |].
  intros y Hy. apply not_true_is_false. intro H.
  apply matches_id in H. now apply (Hnone y Hy).
Qed.

Lemma DELETE_found (entries : list (string * string))
  (before after : list User) (user : User) :
  Js.parseInt (orElse (get entries "id") "0") = Js.Num (id user) ->
  (forall other, In other before -> id other <> id user) ->
  DELETE entries (before ++ user :: after) = (before ++ after, 200).
Proof.
  intros Hwanted Hfirst. unfold DELETE.
  rewrite (findIndex_first _ before after user).
  - now rewrite removeAt_middle.
  - intros y Hy. apply not_true_is_false. intro H.
    apply matches_id in H. rewrite Hwanted in H. injection H as H.
    symmetry in H. now apply (Hfirst y Hy).
  - now apply matches_id.
Qed.

(** X23: [DELETE] removes the first user whose identifier is the number
    the [id] parameter parses to, leaves every other user in place and
    answers 200; when no user has that identifier, or the parameter is not
    a number, the users are left as they are and the answer is 404.  A
    request without an [id] addresses the identifier 0. *)
Theorem DELETE_removes_the_first_match (entries : list (string * string))
  (SAMPLE_USERS : list User) :
  let wanted := Js.parseInt (orElse (get entries "id") "0") in
  ((forall user, In user SAMPLE_USERS -> wanted <> Js.Num (id user)) ->
   DELETE entries SAMPLE_USERS = (SAMPLE_USERS, 404))
  /\ (forall before user after,
        SAMPLE_USERS = before ++ user :: after ->
        wanted = Js.Num (id user) ->
        (forall other, In other before -> id other <> id user) ->
        DELETE entries SAMPLE_USERS = (before ++ after, 200))
  /\ (get entries "id" = None ->
      DELETE entries SAMPLE_USERS = DELETE [("id", "0")] SAMPLE_USERS).
Proof.
  intro wanted. split; [| split].
  - apply DELETE_missing.
  - intros before user after -> Hwanted Hfirst. now apply DELETE_found.
  - intro Hmissing. unfold DELETE. now rewrite Hmissing.
Qed.

Lemma DELETE_removes_the_first_match_witness :
  DELETE [("id", "2")] Samples.threeUsers
  = ([Samples.user 1 "Ann" "Admin" 30; Samples.user 3 "Cy" "Admin" 45], 200)
  /\ DELETE [("id", "7")] Samples.threeUsers = (Samples.threeUsers, 404).
Proof.
  destruct (DELETE_removes_the_first_match [("id", "7")] Samples.threeUsers)
    as [Hmissing _].
  destruct (DELETE_removes_the_first_match [("id", "2")] Samples.threeUsers)
    as [_ [Hfound _]].
  split.
  - apply (Hfound [Samples.user 1 "Ann" "Admin" 30]
             (Samples.user 2 "Bob" "User" 22)
             [Samples.user 3 "Cy" "Admin" 45]); try reflexivity.
    intros other [<- | []]. discriminate.
  - apply Hmissing.
    intros user [<- | [<- | [<- | []]]]; discriminate.
Defined.

(** X24: when identifiers are unique, a successful [DELETE] removes the
    user with that identifier and nobody else, so there is one user less,
    and repeating the request answers 404 and changes nothing. *)
Theorem DELETE_with_unique_ids (entries : list (string * string))
  (SAMPLE_USERS : list User) (user : User) :
  NoDup (map id SAMPLE_USERS) ->
  In user SAMPLE_USERS ->
  Js.parseInt (orElse (get entries "id") "0") = Js.Num (id user) ->
  let after := fst (DELETE entries SAMPLE_USERS) in
  snd (DELETE entries SAMPLE_USERS) = 200
  /\ (forall other, In other after
                    <-> In other SAMPLE_USERS /\ id other <> id user)
  /\ S (List.length after) = List.length SAMPLE_USERS
  /\ DELETE entries after = (after, 404).
Proof.
  intros Hunique Hin Hwanted after.
  apply in_split in Hin. destruct Hin as [l1 [l2 Hsplit]].
  assert (Hids : forall other, In other (l1 ++ l2) -> id other <> id user).
  { rewrite Hsplit, map_app in Hunique. simpl in Hunique.
    apply NoDup_remove_2 in Hunique.
    intros other Hother E. apply Hunique. rewrite <- E, <- map_app.
    now apply in_map. }
  assert (Hrun : DELETE entries SAMPLE_USERS = (l1 ++ l2, 200)).
  { rewrite Hsplit. apply DELETE_found; [exact Hwanted |].
    intros other Hother. apply Hids, in_or_app. now left. }
  subst after. rewrite Hrun. simpl.
  split; [reflexivity |]. split; [| split].
  - intro other. split.
    + intro H. split; [| now apply Hids].
      rewrite Hsplit. apply in_app_or in H.
      apply in_or_app. destruct H; [now left | right; now right].
    + intros [H Hne]. rewrite Hsplit in H. apply in_app_or in H.
      apply in_or_app. destruct H as [H | [H | H]]; [now left | | now right].
      subst other. now elim Hne.
  - rewrite Hsplit, !length_app. simpl. lia.
  - apply DELETE_missing. intros other Hother. rewrite Hwanted.
    intro E. injection E as E. symmetry in E. now apply (Hids other).
Qed.

Lemma DELETE_with_unique_ids_witness :
  DELETE [("id", "2")] (fst (DELETE [("id", "2")] Samples.threeUsers))
  = ([Samples.user 1 "Ann" "Admin" 30; Samples.user 3 "Cy" "Admin" 45], 404).
Proof.
  destruct (DELETE_with_unique_ids [("id", "2")] Samples.threeUsers
              (Samples.user 2 "Bob" "User" 22))
    as [_ [_ [_ Hagain]]].
  - simpl. repeat constructor; simpl; intuition discriminate.
  - simpl. auto.
  - reflexivity.
  - exact Hagain.
Defined.

(** X25: an age bound that is given but is not a number lets nobody
    through: the age filter then returns no user at all, whereas a date
    bound that does not parse is ignored. *)
Theorem unparsable_age_bound_excludes_everyone (users : list User)
  (params : SearchParams) (bound : string) :
  bound <> EmptyString ->
  Js.parseInt bound = Js.NaN ->
  minAge params = Some bound \/ maxAge params = Some bound ->
  filterByAge users params = [].
Proof.
  intros Hne Hnan Hbound. apply String.eqb_neq in Hne.
  assert (Hgiven : given (minAge params) || given (maxAge params) = true).
  { destruct Hbound as [-> | ->]; unfold given; rewrite Hne; simpl;
      [reflexivity | apply orb_true_r]. }
  unfold filterByAge. rewrite Hgiven.
  induction users as [| user rest IH]; [reflexivity |].
  simpl. rewrite IH.
  replace (ageInRange params user) with false; [reflexivity |].
  symmetry. unfold ageInRange, minAgeOf, maxAgeOf, Js.ge, Js.le.
  destruct Hbound as [-> | ->]; rewrite Hne, Hnan; simpl;
    [reflexivity | apply andb_false_r].
Qed.

Lemma unparsable_age_bound_excludes_everyone_witness :
  filterByAge Samples.threeUsers (Samples.olderThan "old") = [].
Proof.
  apply (unparsable_age_bound_excludes_everyone Samples.threeUsers
           (Samples.olderThan "old") "old").
  - discriminate.
  - reflexivity.
  - now left.
Defined.

End UsersApiExtras.

(* ================================================================== *)
(** ** From the page's request to the endpoint's answer *)
(* ================================================================== *)

Module ServerTablePageFacts.

Import DataTable.

(** *** Numbers through the query string *)

Lemma digits_decimal (d : Decimal.uint) (acc : Z) :
  Js.digits 10 (list_ascii_of_string (NilEmpty.string_of_uint d)) (Some acc)
  = Some (Spec.decimalValue d (acc)).
Proof.
  revert acc. induction d; intro acc; simpl; try reflexivity;
    rewrite IHd; do 2 f_equal; lia.
Qed.

Lemma of_uint_acc_value (d : Decimal.uint) (p : positive) :
  Z.pos (Pos.of_uint_acc d p) = Spec.decimalValue d (Z.pos p).
Proof.
  revert p. induction d; intro p;
    cbn [Pos.of_uint_acc Spec.decimalValue]; try reflexivity;
    rewrite IHd; f_equal; lia.
Qed.

Lemma of_uint_value (d : Decimal.uint) :
  Z.of_N (Pos.of_uint d) = Spec.decimalValue d 0.
Proof.
  induction d; cbn [Pos.of_uint Spec.decimalValue Z.of_N];
    try reflexivity; try exact IHd; apply of_uint_acc_value.
Qed.

Lemma parseInt_unsigned (d : Decimal.uint) :
  Js.parseInt (NilZero.string_of_uint d) = Js.Num (Spec.decimalValue d 0).
Proof.
  destruct d as [| d | d | d | d | d | d | d | d | d | d];
    try reflexivity;
    try (unfold Js.parseInt; simpl; rewrite digits_decimal;
         f_equal; simpl Spec.decimalValue;
         destruct (Spec.decimalValue d _); reflexivity).
  destruct d as [| d | d | d | d | d | d | d | d | d | d];
    try reflexivity;
    unfold Js.parseInt; simpl; rewrite digits_decimal;
    f_equal; simpl Spec.decimalValue;
    destruct (Spec.decimalValue d _); reflexivity.
Qed.

Lemma parseInt_negative (d : Decimal.uint) :
  Js.parseInt (String "-" (NilZero.string_of_uint d))
  = Js.Num (- Spec.decimalValue d 0).
Proof.
  destruct d as [| d | d | d | d | d | d | d | d | d | d];
    try reflexivity;
    try (unfold Js.parseInt; simpl; rewrite digits_decimal;
         f_equal; simpl Spec.decimalValue;
         destruct (Spec.decimalValue d _); reflexivity).
  destruct d as [| d | d | d | d | d | d | d | d | d | d];
    try reflexivity;
    unfold Js.parseInt; simpl; rewrite digits_decimal;
    f_equal; simpl Spec.decimalValue;
    destruct (Spec.decimalValue d _); reflexivity.
Qed.

Lemma parseInt_decimal (z : Z) : Js.parseInt (Js.decimal z) = Js.Num z.
Proof.
  unfold Js.decimal.
  rewrite <- (DecimalZ.of_to z) at 2.
  destruct (Z.to_int z) as [d | d]; simpl NilZero.string_of_int.
  - rewrite parseInt_unsigned. unfold Z.of_int, Z.of_uint.
    now rewrite of_uint_value.
  - rewrite parseInt_negative. unfold Z.of_int, Z.of_uint.
    now rewrite of_uint_value.
Qed.

(** Up to 2^53 the string of a number is its decimal spelling, which
    [parseInt] reads back. *)
Lemma stringOfZ_decimal (z : Z) :
  Z.abs z <= 9007199254740992 -> Js.stringOfZ z = Js.decimal z.
Proof.
  intro Hsafe. unfold Js.stringOfZ.
  now destruct (Z.leb_spec (Z.abs z) 9007199254740992) as [_ | ?]; [| lia].
Qed.

Lemma parseInt_stringOfZ (z : Z) :
  Z.abs z <= 9007199254740992 -> Js.parseInt (Js.stringOfZ z) = Js.Num z.
Proof.
  intro Hsafe. rewrite stringOfZ_decimal by exact Hsafe.
  apply parseInt_decimal.
Qed.

(** Beyond 2^53 the string holds the shortest digits that denote the
    double, with zeros up to 10^21 and an exponent from there on. *)
Example stringOfZ_beyond_the_safe_integers :
  Js.stringOfZ (2 ^ 53) = "9007199254740992"
  /\ Js.stringOfZ (2 ^ 60) = "1152921504606847000"
  /\ Js.stringOfZ (10 ^ 21 - 2 ^ 17) = "999999999999999900000"
  /\ Js.stringOfZ (10 ^ 21) = "1e+21"
  /\ Js.stringOfZ (- 2 ^ 70) = "-1.1805916207174113e+21"
  /\ Js.stringOfZ 99999999999999991611392 = "1e+23"
  /\ Js.parseInt (Js.stringOfZ (2 ^ 70)) = Js.Num 1.
Proof. repeat split; vm_compute; reflexivity. Qed.

Lemma decimal_not_empty (z : Z) : Js.decimal z <> EmptyString.
Proof.
  intro E. pose proof (parseInt_decimal z) as H. rewrite E in H.
  discriminate.
Qed.

Lemma append_not_empty (a b : string) :
  b <> EmptyString -> (a ++ b)%string <> EmptyString.
Proof. intro Hb. destruct a; [exact Hb | discriminate]. Qed.

Lemma stringOfZ_not_empty (z : Z) : Js.stringOfZ z <> EmptyString.
Proof.
  unfold Js.stringOfZ.
  destruct (Z.abs z <=? 9007199254740992); [apply decimal_not_empty |].
  apply append_not_empty.
  destruct (Js.shortest (Z.abs z) <? 10 ^ 21); [apply decimal_not_empty |].
  unfold Js.exponential. apply append_not_empty. discriminate.
Qed.

(** *** The keys of the query *)

Lemma lastChar_append (x : string) (c : ascii) :
  Spec.lastChar (x ++ String c EmptyString) = Some c.
Proof.
  induction x as [| d rest IH]; [reflexivity |].
  simpl. rewrite IH. now destruct (rest ++ String c EmptyString)%string.
Qed.

Section QueryKeys.

Variable isoDateOf : Z -> string.

Local Abbreviation filterEntries := (ServerTablePage.filterEntries isoDateOf).
Local Abbreviation filtersEntries :=
  (ServerTablePage.filtersEntries isoDateOf).

(** A key that is none of [search], [startDate], [endDate], does not end
    in [s] and names no filtered column is not among the entries the
    filters append. *)
Lemma filterEntries_keys (f : ColumnFilter) (entries : list (string * string))
  (key : string) :
  filterEntries f = Some entries ->
  key <> "search" -> key <> "startDate" -> key <> "endDate" ->
  Spec.lastChar key <> Some "s"%char ->
  filter_id f <> key ->
  forall entry, In entry entries -> fst entry <> key.
Proof.
  intros Hrun Hsearch Hstart Hend Hlast Hid entry Hin.
  unfold ServerTablePage.filterEntries, ServerTablePage.isoDate in Hrun.
  destruct (filter_value f) as [v | values | range].
  - destruct (v =? EmptyString)%string;
      [injection Hrun as <-; destruct Hin |].
    destruct ((filter_id f =? "name")%string
              || (filter_id f =? "email")%string);
      injection Hrun as <-; destruct Hin as [<- | []]; simpl; congruence.
  - injection Hrun as <-. destruct Hin as [<- | []]. simpl.
    intro E. apply Hlast. rewrite <- E. apply lastChar_append.
  - destruct (from range) as [[| t1] |], (to range) as [[| t2] |];
      try discriminate; injection Hrun as <-; simpl app in Hin;
      repeat match goal with
        | H : In _ (_ :: _) |- _ =>
            destruct H as [<- | H]; [simpl; congruence |]
        end;
      destruct Hin.
Qed.

Lemma filtersEntries_keys (columnFilters : ColumnFiltersState)
  (entries : list (string * string)) (key : string) :
  filtersEntries columnFilters = Some entries ->
  key <> "search" -> key <> "startDate" -> key <> "endDate" ->
  Spec.lastChar key <> Some "s"%char ->
  (forall f, In f columnFilters -> filter_id f <> key) ->
  forall entry, In entry entries -> fst entry <> key.
Proof.
  intros Hrun Hsearch Hstart Hend Hlast.
  revert entries Hrun.
  induction columnFilters as [| f rest IH]; intros entries Hrun Hids.
  - injection Hrun as <-. intros entry [].
  - simpl in Hrun.
    destruct (filterEntries f) as [first |] eqn:Ef; [| discriminate].
    destruct (filtersEntries rest) as [more |] eqn:Er; [| discriminate].
    injection Hrun as <-. intros entry Hin.
    apply in_app_or in Hin. destruct Hin as [Hin | Hin].
    + apply (filterEntries_keys f first key Ef); auto.
      apply Hids. now left.
    + apply (IH more eq_refl); auto.
      intros g Hg. apply Hids. now right.
Qed.

End QueryKeys.

Lemma get_none (entries : list (string * string)) (key : string) :
  (forall entry, In entry entries -> fst entry <> key) ->
  UsersApi.get entries key = None.
Proof.
  induction entries as [| [k v] rest IH]; intro Hkeys; [reflexivity |].
  simpl. destruct (String.eqb_spec k key) as [E | _].
  - exfalso. apply (Hkeys (k, v)); [now left | exact E].
  - apply IH. intros entry Hin. apply Hkeys. now right.
Qed.

(** What the endpoint reads for a key is decided by the entries before a
    tail that does not mention the key. *)
Lemma paramOf_before (head tail : list (string * string)) (key : string) :
  (forall entry, In entry tail -> fst entry <> key) ->
  UsersApi.paramOf (UsersApi.parseSearchParams (head ++ tail)) key
  = UsersApi.paramOf (UsersApi.parseSearchParams head) key.
Proof.
  intro Hkeys. rewrite !UsersApiExtras.parseSearchParams_paramOf.
  destruct (Spec.isKnown key); [| reflexivity].
  rewrite filter_app, rev_app_distr, UsersApiExtras.get_app.
  rewrite get_none; [reflexivity |].
  intros entry Hin. apply in_rev, filter_In in Hin.
  apply Hkeys. tauto.
Qed.

(** The entries the request starts with, before those of the filters. *)
Lemma queryEntries_shape (isoDateOf : Z -> string)
  (paging : PaginationState) (order : SortingState)
  (columnFilters : ColumnFiltersState) (entries : list (string * string)) :
  ServerTablePage.queryEntries isoDateOf paging order columnFilters
  = Some entries ->
  exists tail,
    ServerTablePage.filtersEntries isoDateOf columnFilters = Some tail
    /\ entries
       = ([("page", Js.stringOfZ (pageIndex paging));
           ("pageSize", Js.stringOfZ (pageSize paging))]
          ++ match order with
             | sort :: _ =>
                 [("sortBy", sort_id sort);
                  ("sortOrder", if sort_desc sort then "desc" else "asc")]
             | [] => []
             end)
         ++ tail.
Proof.
  unfold ServerTablePage.queryEntries. intro Hrun.
  destruct (ServerTablePage.filtersEntries isoDateOf columnFilters)
    as [tail |]; [| discriminate].
  injection Hrun as <-. exists tail. split; [reflexivity |].
  destruct order; reflexivity.
Qed.

(** X26: the page index and the page size of the table reach the
    endpoint unchanged, through [toString] on one side and [parseInt] on
    the other, as long as their magnitude is at most 2^53 (the string is
    then the decimal spelling) and no filtered column is itself called
    [page] or [pageSize] (its text filter would then overwrite the
    parameter).  This does not extend to every number: from 10^21 on the
    string is in exponent notation, where [parseInt] stops at the point or
    at the [e], so a page index of 10^21 travels as [1e+21] and is read
    as page 1. *)
Theorem paging_reaches_the_endpoint
  (isoDateOf : Z -> string) (toLowerCase : string -> string)
  (localeCompare : string -> string -> Z) (Date_parse : string -> Js.number)
  (paging : PaginationState) (order : SortingState)
  (columnFilters : ColumnFiltersState) (entries : list (string * string))
  (SAMPLE_USERS : list UsersApi.User) :
  ServerTablePage.queryEntries isoDateOf paging order columnFilters
  = Some entries ->
  (forall f, In f columnFilters ->
             filter_id f <> "page" /\ filter_id f <> "pageSize") ->
  let info :=
    UsersApi.pagination
      (UsersApi.GET toLowerCase localeCompare Date_parse entries
         SAMPLE_USERS) in
  (Z.abs (pageIndex paging) <= 9007199254740992 ->
   UsersApi.info_page info = Js.Num (pageIndex paging))
  /\ (Z.abs (pageSize paging) <= 9007199254740992 ->
      UsersApi.info_pageSize info = Js.Num (pageSize paging))
  /\ (forall z : Z,
        Z.abs z <= 9007199254740992 ->
        Js.parseInt (Js.stringOfZ z) = Js.Num z)
  /\ (pageIndex paging = 10 ^ 21 ->
      Js.stringOfZ (pageIndex paging) = "1e+21"
      /\ UsersApi.info_page info = Js.Num 1).
Proof.
  intros Hrun Hids info.
  destruct (queryEntries_shape _ _ _ _ _ Hrun) as [tail [Htail ->]].
  assert (Hpage : UsersApi.page (UsersApi.parseSearchParams
                     (([("page", Js.stringOfZ (pageIndex paging));
                        ("pageSize", Js.stringOfZ (pageSize paging))]
                       ++ match order with
                          | sort :: _ =>
                              [("sortBy", sort_id sort);
                               ("sortOrder",
                                if sort_desc sort then "desc" else "asc")]
                          | [] => []
                          end) ++ tail))
                  = Some (Js.stringOfZ (pageIndex paging))
                  /\ UsersApi.pageSize (UsersApi.parseSearchParams
                     (([("page", Js.stringOfZ (pageIndex paging));
                        ("pageSize", Js.stringOfZ (pageSize paging))]
                       ++ match order with
                          | sort :: _ =>
                              [("sortBy", sort_id sort);
                               ("sortOrder",
                                if sort_desc sort then "desc" else "asc")]
                          | [] => []
                          end) ++ tail))
                     = Some (Js.stringOfZ (pageSize paging))).
  { split.
    - change (UsersApi.page ?p) with (UsersApi.paramOf p "page").
      rewrite paramOf_before.
      + rewrite UsersApiExtras.parseSearchParams_paramOf.
        pose proof (stringOfZ_not_empty (pageIndex paging)) as H1.
        pose proof (stringOfZ_not_empty (pageSize paging)) as H2.
        apply String.eqb_neq in H1, H2.
        destruct order as [| sort rest]; simpl;
          unfold Spec.nonEmptyValue; simpl; rewrite H1, H2; simpl;
          [reflexivity |].
        destruct (sort_id sort =? EmptyString)%string, (sort_desc sort);
          reflexivity.
      + apply (filtersEntries_keys isoDateOf columnFilters tail "page" Htail);
          try discriminate. intros f Hf. now apply Hids.
    - change (UsersApi.pageSize ?p) with (UsersApi.paramOf p "pageSize").
      rewrite paramOf_before.
      + rewrite UsersApiExtras.parseSearchParams_paramOf.
        pose proof (stringOfZ_not_empty (pageIndex paging)) as H1.
        pose proof (stringOfZ_not_empty (pageSize paging)) as H2.
        apply String.eqb_neq in H1, H2.
        destruct order as [| sort rest]; simpl;
          unfold Spec.nonEmptyValue; simpl; rewrite H1, H2; simpl;
          [reflexivity |].
        destruct (sort_id sort =? EmptyString)%string, (sort_desc sort);
          reflexivity.
      + apply (filtersEntries_keys isoDateOf columnFilters tail "pageSize"
                 Htail); try discriminate. intros f Hf. now apply Hids. }
  destruct Hpage as [Hpage Hsize].
  assert (Hread :
            UsersApi.info_page info
            = Js.parseInt (Js.stringOfZ (pageIndex paging))
            /\ UsersApi.info_pageSize info
               = Js.parseInt (Js.stringOfZ (pageSize paging))).
  { subst info. unfold UsersApi.GET.
    cbn [UsersApi.pagination UsersApi.info_page UsersApi.info_pageSize].
    rewrite Hpage, Hsize. unfold UsersApi.orElse.
    pose proof (stringOfZ_not_empty (pageIndex paging)) as H1.
    pose proof (stringOfZ_not_empty (pageSize paging)) as H2.
    apply String.eqb_neq in H1, H2. rewrite H1, H2. split; reflexivity. }
  destruct Hread as [Hindex Hcount].
  split; [intro Hsafe; rewrite Hindex; now apply parseInt_stringOfZ |].
  split; [intro Hsafe; rewrite Hcount; now apply parseInt_stringOfZ |].
  split; [exact parseInt_stringOfZ |].
  intro Hlarge. rewrite Hindex, Hlarge. split; vm_compute; reflexivity.
Qed.

(** Page 1 of 10 arrives as page 1; a page index of 10^21 arrives as
    page 1 as well. *)
Lemma paging_reaches_the_endpoint_witness :
  UsersApi.info_page
    (UsersApi.pagination
       (UsersApi.GET Samples.lowerCase Host.codeUnitCompare
          Host.isoDateParse
          [("page", "1"); ("pageSize", "10"); ("roles", "Admin,Moderator")]
          Samples.threeUsers))
  = Js.Num 1
  /\ UsersApi.info_page
       (UsersApi.pagination
          (UsersApi.GET Samples.lowerCase Host.codeUnitCompare
             Host.isoDateParse [("page", "1e+21"); ("pageSize", "10")]
             Samples.threeUsers))
     = Js.Num 1.
Proof.
  split.
  - exact (proj1 (paging_reaches_the_endpoint Samples.epochDay
                    Samples.lowerCase Host.codeUnitCompare Host.isoDateParse
                    {| pageIndex := 1; pageSize := 10 |} []
                    Samples.rolesChosen
                    [("page", "1"); ("pageSize", "10");
                     ("roles", "Admin,Moderator")]
                    Samples.threeUsers eq_refl
                    ltac:(intros f [<- | []]; split; discriminate))
             ltac:(simpl; lia)).
  - exact (proj2 (proj2 (proj2 (proj2
             (paging_reaches_the_endpoint Samples.epochDay
                Samples.lowerCase Host.codeUnitCompare Host.isoDateParse
                {| pageIndex := 10 ^ 21; pageSize := 10 |} [] []
                [("page", "1e+21"); ("pageSize", "10")]
                Samples.threeUsers eq_refl ltac:(intros f []))))
             eq_refl)).
Defined.

(** X27: the sort state reaches the endpoint through its first entry
    only: the column of that entry becomes [sortBy] and its direction
    [sortOrder]; further entries are not sent, and an empty sort state
    sends no sorting at all.  This holds provided no filtered column is
    itself called [sortBy] or [sortOrder]. *)
Theorem sorting_reaches_the_endpoint
  (isoDateOf : Z -> string) (paging : PaginationState)
  (order : SortingState) (columnFilters : ColumnFiltersState)
  (entries : list (string * string)) :
  ServerTablePage.queryEntries isoDateOf paging order columnFilters
  = Some entries ->
  (forall f, In f columnFilters ->
             filter_id f <> "sortBy" /\ filter_id f <> "sortOrder") ->
  let params := UsersApi.parseSearchParams entries in
  match order with
  | [] => UsersApi.sortBy params = None /\ UsersApi.sortOrder params = None
  | sort :: _ =>
      UsersApi.sortBy params
      = (if (sort_id sort =? EmptyString)%string then None
         else Some (sort_id sort))
      /\ UsersApi.sortOrder params
         = Some (if sort_desc sort then "desc" else "asc")
  end.
Proof.
  intros Hrun Hids params. subst params.
  destruct (queryEntries_shape _ _ _ _ _ Hrun) as [tail [Htail ->]].
  pose proof (stringOfZ_not_empty (pageIndex paging)) as H1.
  pose proof (stringOfZ_not_empty (pageSize paging)) as H2.
  apply String.eqb_neq in H1, H2.
  assert (Hby : forall entry, In entry tail -> fst entry <> "sortBy").
  { apply (filtersEntries_keys isoDateOf columnFilters tail "sortBy" Htail);
      try discriminate. intros f Hf. now apply Hids. }
  assert (Hord : forall entry, In entry tail -> fst entry <> "sortOrder").
  { apply (filtersEntries_keys isoDateOf columnFilters tail "sortOrder"
             Htail); try discriminate. intros f Hf. now apply Hids. }
  change (UsersApi.sortBy ?p) with (UsersApi.paramOf p "sortBy").
  change (UsersApi.sortOrder ?p) with (UsersApi.paramOf p "sortOrder").
  destruct order as [| sort rest];
    rewrite (paramOf_before _ tail "sortBy" Hby),
      (paramOf_before _ tail "sortOrder" Hord);
    rewrite !UsersApiExtras.parseSearchParams_paramOf; simpl;
    unfold Spec.nonEmptyValue; simpl; rewrite H1, H2; simpl.
  - split; reflexivity.
  - destruct (sort_id sort =? EmptyString)%string, (sort_desc sort);
      split; reflexivity.
Qed.

Lemma sorting_reaches_the_endpoint_witness :
  UsersApi.sortBy
    (UsersApi.parseSearchParams
       [("page", "0"); ("pageSize", "10"); ("sortBy", "age");
        ("sortOrder", "desc")])
  = Some "age".
Proof.
  exact (proj1 (sorting_reaches_the_endpoint Samples.epochDay
                  {| pageIndex := 0; pageSize := 10 |}
                  Samples.byAgeDescending []
                  [("page", "0"); ("pageSize", "10"); ("sortBy", "age");
                   ("sortOrder", "desc")]
                  eq_refl ltac:(intros f []))).
Defined.

(** The entries of the filters come in the order of the filter state. *)
Lemma filtersEntries_app (isoDateOf : Z -> string)
  (first second : ColumnFiltersState) (entries : list (string * string)) :
  ServerTablePage.filtersEntries isoDateOf (first ++ second) = Some entries ->
  exists head tail,
    ServerTablePage.filtersEntries isoDateOf first = Some head
    /\ ServerTablePage.filtersEntries isoDateOf second = Some tail
    /\ entries = head ++ tail.
Proof.
  revert entries. induction first as [| f rest IH]; intros entries Hrun.
  - exists [], entries. now repeat split.
  - simpl in Hrun.
    destruct (ServerTablePage.filterEntries isoDateOf f) as [own |] eqn:Ef;
      [| discriminate].
    destruct (ServerTablePage.filtersEntries isoDateOf (rest ++ second))
      as [more |] eqn:Er; [| discriminate].
    injection Hrun as <-.
    destruct (IH more eq_refl) as [head [tail [Hhead [Htail ->]]]].
    exists (own ++ head), tail. simpl. rewrite Ef, Hhead.
    split; [reflexivity |]. split; [exact Htail | apply app_assoc].
Qed.

Lemma filterEntries_not_search (isoDateOf : Z -> string) (f : ColumnFilter)
  (entries : list (string * string)) :
  ServerTablePage.filterEntries isoDateOf f = Some entries ->
  Spec.sentAsSearch f = false ->
  forall entry, In entry entries -> fst entry <> "search".
Proof.
  unfold ServerTablePage.filterEntries, ServerTablePage.isoDate,
    Spec.sentAsSearch.
  intros Hrun Hnot entry Hin.
  destruct (filter_value f) as [v | values | range].
  - destruct (v =? EmptyString)%string;
      [injection Hrun as <-; destruct Hin |].
    simpl in Hnot.
    destruct ((filter_id f =? "name")%string
              || (filter_id f =? "email")%string); [discriminate |].
    simpl in Hnot. apply String.eqb_neq in Hnot.
    injection Hrun as <-. destruct Hin as [<- | []]. exact Hnot.
  - injection Hrun as <-. destruct Hin as [<- | []]. simpl.
    intro E.
    pose proof (lastChar_append (filter_id f) "s"%char) as Hlast.
    change (String "s" EmptyString) with "s" in Hlast.
    rewrite E in Hlast. discriminate.
  - destruct (from range) as [[| t1] |], (to range) as [[| t2] |];
      try discriminate; injection Hrun as <-; simpl app in Hin;
      repeat match goal with
        | H : In _ (_ :: _) |- _ =>
            destruct H as [<- | H]; [simpl; congruence |]
        end;
      destruct Hin.
Qed.

Lemma filtersEntries_not_search (isoDateOf : Z -> string)
  (columnFilters : ColumnFiltersState) (entries : list (string * string)) :
  ServerTablePage.filtersEntries isoDateOf columnFilters = Some entries ->
  Forall (fun f => Spec.sentAsSearch f = false) columnFilters ->
  forall entry, In entry entries -> fst entry <> "search".
Proof.
  revert entries.
  induction columnFilters as [| f rest IH]; intros entries Hrun Hnot.
  - injection Hrun as <-. intros entry [].
  - simpl in Hrun.
    destruct (ServerTablePage.filterEntries isoDateOf f) as [own |] eqn:Ef;
      [| discriminate].
    destruct (ServerTablePage.filtersEntries isoDateOf rest)
      as [more |] eqn:Er; [| discriminate].
    injection Hrun as <-. inversion Hnot as [| ? ? Hf Hrest]; subst.
    intros entry Hin. apply in_app_or in Hin. destruct Hin as [Hin | Hin].
    + exact (filterEntries_not_search isoDateOf f own Ef Hf entry Hin).
    + exact (IH more eq_refl Hrest entry Hin).
Qed.

(** What the endpoint searches for, given the position of the last filter
    that travels as [search]. *)
Lemma search_of_the_last (isoDateOf : Z -> string) (paging : PaginationState)
  (order : SortingState) (earlier later : ColumnFiltersState)
  (column value : string) (entries : list (string * string)) :
  column = "name" \/ column = "email" ->
  value <> EmptyString ->
  Forall (fun f => Spec.sentAsSearch f = false) later ->
  ServerTablePage.queryEntries isoDateOf paging order
    (earlier
     ++ {| filter_id := column; filter_value := TextValue value |} :: later)
  = Some entries ->
  UsersApi.search (UsersApi.parseSearchParams entries) = Some value.
Proof.
  intros Hcolumn Hvalue Hlater Hrun.
  destruct (queryEntries_shape _ _ _ _ _ Hrun) as [tail [Htail ->]].
  destruct (filtersEntries_app _ _ _ _ Htail)
    as [before [rest [Hbefore [Hrest ->]]]].
  change ({| filter_id := column; filter_value := TextValue value |} :: later)
    with ([{| filter_id := column; filter_value := TextValue value |}]
          ++ later) in Hrest.
  destruct (filtersEntries_app _ _ _ _ Hrest)
    as [own [after [Hown [Hafter ->]]]].
  assert (Eown : own = [("search", value)]).
  { simpl in Hown. unfold ServerTablePage.filterEntries in Hown.
    simpl in Hown. apply String.eqb_neq in Hvalue. rewrite Hvalue in Hown.
    destruct Hcolumn as [-> | ->]; simpl in Hown; congruence. }
  subst own.
  change (UsersApi.search ?p) with (UsersApi.paramOf p "search").
  rewrite !app_assoc.
  rewrite paramOf_before
    by exact (filtersEntries_not_search isoDateOf later after Hafter Hlater).
  rewrite UsersApiExtras.parseSearchParams_paramOf.
  rewrite filter_app, rev_app_distr.
  apply String.eqb_neq in Hvalue.
  replace (filter Spec.nonEmptyValue [("search", value)])
    with [("search", value)]
    by (simpl; unfold Spec.nonEmptyValue; simpl; now rewrite Hvalue).
  reflexivity.
Qed.

(** X28: non-empty text filters on the name and on the email column both
    travel as [search], and the endpoint keeps one value per key, so it
    searches only for the one that comes last in the filter state,
    whichever column it is on and whatever other filters stand around it:
    with the name filter before the email filter that is the email
    filter's text, with the email filter first it is the name filter's.
    With no such filter at all nothing is searched for. *)
Theorem later_text_filter_wins
  (isoDateOf : Z -> string) (paging : PaginationState)
  (order : SortingState) (columnFilters : ColumnFiltersState)
  (entries : list (string * string)) :
  ServerTablePage.queryEntries isoDateOf paging order columnFilters
  = Some entries ->
  let searched := UsersApi.search (UsersApi.parseSearchParams entries) in
  (forall (earlier later : ColumnFiltersState) (column value : string),
      columnFilters
      = earlier
        ++ {| filter_id := column; filter_value := TextValue value |}
           :: later ->
      column = "name" \/ column = "email" ->
      value <> EmptyString ->
      Forall (fun f => Spec.sentAsSearch f = false) later ->
      searched = Some value)
  /\ (forall byName byEmail : string,
        byName <> EmptyString -> byEmail <> EmptyString ->
        (columnFilters
         = [{| filter_id := "name"; filter_value := TextValue byName |};
            {| filter_id := "email"; filter_value := TextValue byEmail |}] ->
         searched = Some byEmail)
        /\ (columnFilters
            = [{| filter_id := "email"; filter_value := TextValue byEmail |};
               {| filter_id := "name"; filter_value := TextValue byName |}] ->
            searched = Some byName))
  /\ (Forall (fun f => Spec.sentAsSearch f = false) columnFilters ->
      searched = None).
Proof.
  intros Hrun searched. subst searched.
  split.
  { intros earlier later column value -> Hcolumn Hvalue Hlater.
    exact (search_of_the_last isoDateOf paging order earlier later column
             value entries Hcolumn Hvalue Hlater Hrun). }
  split.
  { intros byName byEmail Hname Hemail. split; intros ->.
    - apply (search_of_the_last isoDateOf paging order
               [{| filter_id := "name"; filter_value := TextValue byName |}]
               [] "email" byEmail entries); auto.
    - apply (search_of_the_last isoDateOf paging order
               [{| filter_id := "email";
                   filter_value := TextValue byEmail |}]
               [] "name" byName entries); auto. }
  intro Hnone.
  destruct (queryEntries_shape _ _ _ _ _ Hrun) as [tail [Htail ->]].
  change (UsersApi.search ?p) with (UsersApi.paramOf p "search").
  rewrite paramOf_before
    by exact (filtersEntries_not_search isoDateOf columnFilters tail Htail
                Hnone).
  rewrite UsersApiExtras.parseSearchParams_paramOf.
  pose proof (stringOfZ_not_empty (pageIndex paging)) as H1.
  pose proof (stringOfZ_not_empty (pageSize paging)) as H2.
  apply String.eqb_neq in H1, H2.
  destruct order as [| sort rest]; simpl;
    unfold Spec.nonEmptyValue; simpl; rewrite H1, H2; simpl;
    [reflexivity |].
  destruct (sort_id sort =? EmptyString)%string, (sort_desc sort);
    reflexivity.
Qed.

(** With the email filter first and the name filter after it, a role and
    a status filter around them, the endpoint searches for the name
    filter's text. *)
Lemma later_text_filter_wins_witness :
  UsersApi.search
    (UsersApi.parseSearchParams
       [("page", "0"); ("pageSize", "10"); ("search", "example");
        ("roles", "Admin"); ("search", "ann"); ("status", "active")])
  = Some "ann".
Proof.
  exact (proj1 (later_text_filter_wins Samples.epochDay
                  {| pageIndex := 0; pageSize := 10 |} []
                  Samples.emailThenName
                  [("page", "0"); ("pageSize", "10"); ("search", "example");
                   ("roles", "Admin"); ("search", "ann");
                   ("status", "active")]
                  eq_refl)
           [{| filter_id := "email"; filter_value := TextValue "example" |};
            {| filter_id := "role"; filter_value := ListValue ["Admin"] |}]
           [{| filter_id := "status"; filter_value := TextValue "active" |}]
           "name" "ann" eq_refl (or_introl eq_refl)
           ltac:(discriminate)
           ltac:(repeat constructor)).
Defined.

Lemma filterByRoles_membership (toLowerCase : string -> string)
  (Date_parse : string -> Js.number) (users : list UsersApi.User)
  (params : UsersApi.SearchParams) (joined : string) :
  joined <> EmptyString ->
  UsersApi.search params = None -> UsersApi.status_ params = None ->
  UsersApi.role_ params = None -> UsersApi.roles params = Some joined ->
  UsersApi.startDate params = None -> UsersApi.endDate params = None ->
  UsersApi.minAge params = None -> UsersApi.maxAge params = None ->
  UsersApi.filterUsers toLowerCase Date_parse users params
  = filter (fun user =>
              Js.includes (Js.split ","%char joined)
                (Js.str (UsersApi.role user))) users.
Proof.
  intros Hne H1 H2 H3 H4 H5 H6 H7 H8.
  rewrite UsersApiExtras.filterUsers_filter.
  apply filter_ext. intro user. unfold Spec.keeps.
  rewrite H1, H2, H3, H4, H5, H6, H7, H8.
  unfold UsersApi.given, UsersApi.orElse.
  apply String.eqb_neq in Hne. rewrite Hne. simpl.
  now rewrite !andb_true_r.
Qed.

(** X29: a multi-select filter on the role column reaches the endpoint
    as the selected values joined by commas and is split again there, so
    the endpoint keeps exactly the users the table's own multi-select
    predicate would keep for that selection, provided something is
    selected, no selected value holds a comma and the joined text is not
    empty. *)
Theorem role_selection_reaches_the_endpoint
  (isoDateOf : Z -> string) (toLowerCase : string -> string)
  (Date_parse : string -> Js.number)
  (paging : PaginationState) (order : SortingState)
  (selected : list string) (entries : list (string * string))
  (users : list UsersApi.User) :
  selected <> [] ->
  Forall Spec.commaFree selected ->
  Js.join "," selected <> EmptyString ->
  ServerTablePage.queryEntries isoDateOf paging order
    [{| filter_id := "role"; filter_value := ListValue selected |}]
  = Some entries ->
  UsersApi.roles (UsersApi.parseSearchParams entries)
  = Some (Js.join "," selected)
  /\ Js.split ","%char (Js.join "," selected) = selected
  /\ UsersApi.filterUsers toLowerCase Date_parse users
       (UsersApi.parseSearchParams entries)
     = filter (fun user =>
                 multiSelectFilter [("role", Js.str (UsersApi.role user))]
                   "role" (Some selected))
         users.
Proof.
  intros Hsome Hfree Hjoined Hrun.
  destruct (queryEntries_shape _ _ _ _ _ Hrun) as [tail [Htail ->]].
  simpl in Htail. injection Htail as <-.
  pose proof (stringOfZ_not_empty (pageIndex paging)) as H1.
  pose proof (stringOfZ_not_empty (pageSize paging)) as H2.
  apply String.eqb_neq in H1, H2.
  pose proof Hjoined as Hj. apply String.eqb_neq in Hj.
  assert (Hparams :
            forall key,
              UsersApi.paramOf
                (UsersApi.parseSearchParams
                   (([("page", Js.stringOfZ (pageIndex paging));
                      ("pageSize", Js.stringOfZ (pageSize paging))]
                     ++ match order with
                        | sort :: _ =>
                            [("sortBy", sort_id sort);
                             ("sortOrder",
                              if sort_desc sort then "desc" else "asc")]
                        | [] => []
                        end)
                    ++ [("roles", Js.join "," selected)])) key
              = if (key =? "roles")%string then Some (Js.join "," selected)
                else if (key =? "search")%string
                        || (key =? "status")%string
                        || (key =? "role")%string
                        || (key =? "startDate")%string
                        || (key =? "endDate")%string
                        || (key =? "minAge")%string
                        || (key =? "maxAge")%string
                     then None
                     else UsersApi.paramOf
                            (UsersApi.parseSearchParams
                               (([("page", Js.stringOfZ (pageIndex paging));
                                  ("pageSize",
                                   Js.stringOfZ (pageSize paging))]
                                 ++ match order with
                                    | sort :: _ =>
                                        [("sortBy", sort_id sort);
                                         ("sortOrder",
                                          if sort_desc sort then "desc"
                                          else "asc")]
                                    | [] => []
                                    end)
                                ++ [("roles", Js.join "," selected)])) key).
  { intro key.
    destruct (String.eqb_spec key "roles") as [-> | Hk].
    - rewrite UsersApiExtras.parseSearchParams_paramOf.
      rewrite filter_app, rev_app_distr. simpl.
      unfold Spec.nonEmptyValue at 1. simpl. now rewrite Hj.
    - destruct ((key =? "search")%string || (key =? "status")%string
                || (key =? "role")%string || (key =? "startDate")%string
                || (key =? "endDate")%string || (key =? "minAge")%string
                || (key =? "maxAge")%string) eqn:Hother; [| reflexivity].
      rewrite paramOf_before
        by (intros entry [<- | []]; simpl; congruence).
      rewrite UsersApiExtras.parseSearchParams_paramOf.
      repeat rewrite orb_true_iff in Hother.
      assert (Hkey : In key ["search"; "status"; "role"; "startDate";
                             "endDate"; "minAge"; "maxAge"]).
      { simpl. rewrite <- !String.eqb_eq.
        rewrite !(String.eqb_sym _ key). tauto. }
      simpl in Hkey.
      destruct Hkey as [<- | [<- | [<- | [<- | [<- | [<- | [<- | []]]]]]]];
        (destruct order as [| sort rest]; simpl;
         unfold Spec.nonEmptyValue; simpl; rewrite H1, H2; simpl;
         [reflexivity |
          destruct (sort_id sort =? EmptyString)%string, (sort_desc sort);
          reflexivity]). }
  assert (Hsplit : Js.split ","%char (Js.join "," selected) = selected)
    by now apply UsersApiExtras.split_join.
  split; [exact (Hparams "roles") |].
  split; [exact Hsplit |].
  rewrite (filterByRoles_membership toLowerCase Date_parse users _
             (Js.join "," selected) Hjoined
             (Hparams "search") (Hparams "status") (Hparams "role")
             (Hparams "roles") (Hparams "startDate") (Hparams "endDate")
             (Hparams "minAge") (Hparams "maxAge")).
  rewrite Hsplit. apply filter_ext. intro user.
  unfold multiSelectFilter. simpl getValue.
  destruct selected as [| s0 rest]; [now elim Hsome | reflexivity].
Qed.

Lemma role_selection_reaches_the_endpoint_witness :
  map UsersApi.name
    (UsersApi.filterUsers Samples.lowerCase Host.isoDateParse
       Samples.threeUsers
       (UsersApi.parseSearchParams
          [("page", "0"); ("pageSize", "10"); ("roles", "Admin,Moderator")]))
  = ["Ann"; "Cy"].
Proof.
  rewrite (proj2 (proj2
             (role_selection_reaches_the_endpoint Samples.epochDay
                Samples.lowerCase Host.isoDateParse
                {| pageIndex := 0; pageSize := 10 |} []
                ["Admin"; "Moderator"]
                [("page", "0"); ("pageSize", "10");
                 ("roles", "Admin,Moderator")]
                Samples.threeUsers
                ltac:(discriminate)
                ltac:(repeat constructor; unfold Spec.commaFree; simpl;
                      intuition discriminate)
                ltac:(discriminate) eq_refl))).
  reflexivity.
Defined.

End ServerTablePageFacts.
